(** * Lot-tracking accounting engine: FIFO holdings, realized gains, price overlay

    A shallow embedding of
      - [mergeTradebooks]                      (lib/utils/csv-parser.ts),
      - the FIFO holdings calculator           (holdings-calculator),
      - [updateHoldingsWithPrices]             (lib/stores/prices.ts),
      - the two loss-opportunity derived stores (lib/stores/holdings.ts).

    JavaScript numbers are modelled as exact rationals [Q]. Where binary64
    adds, subtracts and compares without rounding, as it does on whole
    numbers up to 2^53, the model computes what the code computes; a
    statement that equates sums of quantities is therefore made for whole
    numbers. Module [Binary64] embeds the FIFO sell on binary64 numbers and
    shows what rounding does to fractional quantities. A [Date] is its
    [getTime()] value, the number of milliseconds since the epoch. *)

From Stdlib Require Import ZArith QArith Qabs Qminmax Lqa Lia Bool List Ascii String.
From Stdlib Require PrimFloat FloatOps SpecFloat.
From Stdlib Require Import Sorting.Sorted Sorting.Permutation.
From stdpp Require Import base strings gmap.
Import ListNotations.

Local Open Scope string_scope.
Local Open Scope Q_scope.
Local Open Scope list_scope.

(** ** Primitive values *)

Definition Date := Z.

Inductive TradeType := buy | sell.
Inductive Classification := SHORT_TERM | LONG_TERM.

(** [a < b], [a > b] and [a <= b] on JavaScript numbers. *)
Definition Qltb (a b : Q) : bool :=
  match a ?= b with Lt => true | _ => false end.
Definition Qleb (a b : Q) : bool :=
  match a ?= b with Gt => false | _ => true end.

(** What the code takes from its host: the date-fns function
    [differenceInDays], the local-time accessors of [Date], the
    constructor [new Date(year, monthIndex, day)] and
    [String.prototype.localeCompare].  None of them is code of this
    repository, so the development is parametric in them. *)
Class Runtime := {
  differenceInDays : Date -> Date -> Z;
  getMonth : Date -> Z;
  getFullYear : Date -> Z;
  newDate : Z -> Z -> Z -> Date;
  localeCompare : string -> string -> Z
}.

(** ** Records of [$lib/types] *)

Module Trade.
Record t := mk {
  tradeId : string;
  symbol : string;
  isin : string;
  tradeDate : Date;
  exchange : string;
  tradeType : TradeType;
  quantity : Q;
  price : Q
}.
End Trade.
Abbreviation TradeRecord := Trade.t.

Module Lot.
Record t := mk {
  quantity : Q;
  purchaseDate : Date;
  purchasePrice : Q
}.
End Lot.
Abbreviation HoldingLot := Lot.t.

Module Gain.
Record t := mk {
  symbol : string;
  exchange : string;
  quantity : Q;
  sellDate : Date;
  sellPrice : Q;
  purchasePrice : Q;
  purchaseDate : Date;
  gainLoss : Q;
  classification : Classification
}.
End Gain.
Abbreviation RealizedGainEntry := Gain.t.

Module Summary.
Record t := mk {
  stcg : Q;
  stcl : Q;
  ltcg : Q;
  ltcl : Q;
  netShortTerm : Q;
  netLongTerm : Q;
  entries : list RealizedGainEntry
}.
End Summary.
Abbreviation RealizedGainsSummary := Summary.t.

(** The fields from [currentPrice] on are optional in the source
    ([undefined] until a price overlay has run). *)
Module Holding.
Record t := mk {
  symbol : string;
  isin : string;
  exchange : string;
  lots : list HoldingLot;
  totalQuantity : Q;
  avgPurchasePrice : Q;
  oldestPurchaseDate : Date;
  newestPurchaseDate : Date;
  classification : Classification;
  currentPrice : option Q;
  pnl : option Q;
  pnlPercent : option Q;
  isLoss : option bool;
  stQuantity : option Q;
  ltQuantity : option Q;
  stAvgPrice : option Q;
  ltAvgPrice : option Q;
  stPnl : option Q;
  ltPnl : option Q
}.
End Holding.
Abbreviation Holding := Holding.t.

Module Acc.
Record t := mk {
  symbol : string;
  isin : string;
  exchange : string;
  lots : list HoldingLot
}.
End Acc.
Abbreviation HoldingAccumulator := Acc.t.

(** ** [Array.prototype.sort] with a comparator

    The sort is stable (ECMAScript 2019): an element is placed before the
    first element it does not compare greater than, and elements are
    inserted from the right, so that equal keys keep their input order. *)

Fixpoint insertBy {A : Type} (cmp : A -> A -> Z) (x : A) (l : list A) : list A :=
  match l with
  | [] => [x]
  | y :: l' => if (cmp x y <=? 0)%Z then x :: y :: l' else y :: insertBy cmp x l'
  end.

Definition sortBy {A : Type} (cmp : A -> A -> Z) (l : list A) : list A :=
  fold_right (insertBy cmp) [] l.

(** ** A JavaScript [Map] with string keys

    Iteration follows insertion order, and [set] on a present key keeps the
    key's position: an association list with in-place update. *)

Definition JsMap (V : Type) := list (string * V).

Fixpoint mapGet {V : Type} (k : string) (m : JsMap V) : option V :=
  match m with
  | [] => None
  | (k', v) :: m' => if String.eqb k k' then Some v else mapGet k m'
  end.

Definition mapHas {V : Type} (k : string) (m : JsMap V) : bool :=
  match mapGet k m with Some _ => true | None => false end.

Fixpoint mapSet {V : Type} (k : string) (v : V) (m : JsMap V) : JsMap V :=
  match m with
  | [] => [(k, v)]
  | (k', v') :: m' =>
      if String.eqb k k' then (k', v) :: m' else (k', v') :: mapSet k v m'
  end.

Definition mapValues {V : Type} (m : JsMap V) : list V := map snd m.

(** ** csv-parser.ts: [mergeTradebooks] *)

Definition mergeTradebooks (tradeLists : list (list TradeRecord)) : list TradeRecord :=
  let allTrades := concat tradeLists in
  let uniqueTradesMap :=
    fold_left
      (fun (m : JsMap TradeRecord) trade =>
         if negb (mapHas (Trade.tradeId trade) m)
         then mapSet (Trade.tradeId trade) trade m
         else m)
      allTrades [] in
  let uniqueTrades := mapValues uniqueTradesMap in
  sortBy (fun a b => (Trade.tradeDate a - Trade.tradeDate b)%Z) uniqueTrades.

(** ** holdings-calculator: grouping *)

Definition createHoldingKey (symbol exchange : string) : string :=
  symbol +:+ ":" +:+ exchange.

Definition sortTradesChronologically (trades : list TradeRecord) : list TradeRecord :=
  sortBy (fun a b => (Trade.tradeDate a - Trade.tradeDate b)%Z) trades.

Definition groupTradesByHolding (trades : list TradeRecord) : JsMap (list TradeRecord) :=
  fold_left
    (fun (groups : JsMap (list TradeRecord)) trade =>
       let key := createHoldingKey (Trade.symbol trade) (Trade.exchange trade) in
       let existing := match mapGet key groups with Some g => g | None => [] end in
       mapSet key (existing ++ [trade]) groups)
    trades [].

(** ** holdings-calculator: the FIFO sell *)

(** The result of [applyFifoSell].  [lots] is the caller's array after the
    in-place decrements; [warning] is the quantity printed by [console.warn]
    when the sell could not be matched entirely. *)
Module Fifo.
Record t := mk {
  lots : list HoldingLot;
  consumedLots : list HoldingLot;
  avgPurchasePrice : Q;
  oldestPurchaseDate : Date;
  warning : option Q
}.
End Fifo.
Abbreviation FifoSellResult := Fifo.t.

(** The first loop of [applyFifoSell], from index [i] on: the lots after
    mutation, the consumed records pushed, and the final [remainingToSell]. *)
Fixpoint fifoLoop (lots : list HoldingLot) (remainingToSell : Q)
  : list HoldingLot * list HoldingLot * Q :=
  match lots with
  | [] => ([], [], remainingToSell)
  | lot :: rest =>
      if Qltb 0 remainingToSell then
        if Qleb (Lot.quantity lot) remainingToSell then
          let '(rest', consumed, r) :=
            fifoLoop rest (remainingToSell - Lot.quantity lot) in
          (Lot.mk 0 (Lot.purchaseDate lot) (Lot.purchasePrice lot) :: rest',
           Lot.mk (Lot.quantity lot) (Lot.purchaseDate lot) (Lot.purchasePrice lot)
             :: consumed,
           r)
        else
          let '(rest', consumed, r) := fifoLoop rest 0 in
          (Lot.mk (Lot.quantity lot - remainingToSell)
                  (Lot.purchaseDate lot) (Lot.purchasePrice lot) :: rest',
           Lot.mk remainingToSell (Lot.purchaseDate lot) (Lot.purchasePrice lot)
             :: consumed,
           r)
      else (lot :: rest, [], remainingToSell)
  end.

Definition applyFifoSell (now : Date) (lots : list HoldingLot) (sellQuantity : Q)
  : FifoSellResult :=
  let '(lots', consumedLots, remainingToSell) := fifoLoop lots sellQuantity in
  let warning := if Qltb 0 remainingToSell then Some remainingToSell else None in
  let oldestDate0 :=
    match consumedLots with c :: _ => Lot.purchaseDate c | [] => now end in
  let '(totalValue, totalQty, oldestDate) :=
    fold_left
      (fun '(totalValue, totalQty, oldestDate) consumed =>
         (totalValue + Lot.quantity consumed * Lot.purchasePrice consumed,
          totalQty + Lot.quantity consumed,
          if (Lot.purchaseDate consumed <? oldestDate)%Z
          then Lot.purchaseDate consumed else oldestDate))
      consumedLots (0, 0, oldestDate0) in
  {| Fifo.lots := lots';
     Fifo.consumedLots := consumedLots;
     Fifo.avgPurchasePrice := if Qltb 0 totalQty then totalValue / totalQty else 0;
     Fifo.oldestPurchaseDate := oldestDate;
     Fifo.warning := warning |}.

Definition removeEmptyLots (lots : list HoldingLot) : list HoldingLot :=
  List.filter (fun lot => Qltb 0 (Lot.quantity lot)) lots.

Definition calculateAvgPurchasePrice (lots : list HoldingLot) : Q :=
  match lots with
  | [] => 0
  | _ =>
      let '(totalValue, totalQuantity) :=
        fold_left
          (fun '(totalValue, totalQuantity) lot =>
             (totalValue + Lot.quantity lot * Lot.purchasePrice lot,
              totalQuantity + Lot.quantity lot))
          lots (0, 0) in
      if Qltb 0 totalQuantity then totalValue / totalQuantity else 0
  end.

Definition calculateTotalQuantity (lots : list HoldingLot) : Q :=
  fold_left (fun sum lot => sum + Lot.quantity lot) lots 0.

Definition findOldestPurchaseDate (now : Date) (lots : list HoldingLot) : Date :=
  match lots with
  | [] => now
  | lot0 :: _ =>
      fold_left
        (fun oldest lot =>
           if (Lot.purchaseDate lot <? oldest)%Z then Lot.purchaseDate lot else oldest)
        lots (Lot.purchaseDate lot0)
  end.

Definition findNewestPurchaseDate (now : Date) (lots : list HoldingLot) : Date :=
  match lots with
  | [] => now
  | lot0 :: _ =>
      fold_left
        (fun newest lot =>
           if (Lot.purchaseDate lot >? newest)%Z then Lot.purchaseDate lot else newest)
        lots (Lot.purchaseDate lot0)
  end.

(** A JavaScript string is truthy when it is not empty. *)
Definition truthy (s : string) : bool := negb (String.eqb s "").

(** [HoldingWithGains] *)
Module HWG.
Record t := mk {
  accumulator : option HoldingAccumulator;
  realizedGains : list RealizedGainEntry
}.
End HWG.
Abbreviation HoldingWithGains := HWG.t.

Module Portfolio.
Record t := mk {
  holdings : list Holding;
  realizedGains : RealizedGainsSummary
}.
End Portfolio.
Abbreviation PortfolioAnalysis := Portfolio.t.

Section Engine.
Context {R : Runtime}.

(** [now] is the value of [new Date()] at the call. *)
Definition classifyHolding (now : Date) (oldestPurchaseDate : Date) : Classification :=
  let holdingDays := differenceInDays now oldestPurchaseDate in
  if (holdingDays <=? 365)%Z then SHORT_TERM else LONG_TERM.

(** The entry pushed for one consumed lot of a sell [trade]. *)
Definition realizedGainEntry (trade : TradeRecord) (consumedLot : HoldingLot)
  : RealizedGainEntry :=
  let sellValue := Lot.quantity consumedLot * Trade.price trade in
  let costBasis := Lot.quantity consumedLot * Lot.purchasePrice consumedLot in
  let gainLoss := sellValue - costBasis in
  let holdingDays :=
    differenceInDays (Trade.tradeDate trade) (Lot.purchaseDate consumedLot) in
  let classification := if (holdingDays <=? 365)%Z then SHORT_TERM else LONG_TERM in
  {| Gain.symbol := Trade.symbol trade;
     Gain.exchange := Trade.exchange trade;
     Gain.quantity := Lot.quantity consumedLot;
     Gain.sellDate := Trade.tradeDate trade;
     Gain.sellPrice := Trade.price trade;
     Gain.purchasePrice := Lot.purchasePrice consumedLot;
     Gain.purchaseDate := Lot.purchaseDate consumedLot;
     Gain.gainLoss := gainLoss;
     Gain.classification := classification |}.

(** One iteration of the trade loop of [processTradesForHolding], on the
    accumulator and the [realizedGains] array. *)
Definition processTrade (now : Date)
    (st : HoldingAccumulator * list RealizedGainEntry) (trade : TradeRecord)
  : HoldingAccumulator * list RealizedGainEntry :=
  let '(accumulator, realizedGains) := st in
  let isin' :=
    if truthy (Trade.isin trade) && negb (truthy (Acc.isin accumulator))
    then Trade.isin trade else Acc.isin accumulator in
  match Trade.tradeType trade with
  | buy =>
      ({| Acc.symbol := Acc.symbol accumulator;
          Acc.isin := isin';
          Acc.exchange := Acc.exchange accumulator;
          Acc.lots :=
            Acc.lots accumulator
            ++ [Lot.mk (Trade.quantity trade) (Trade.tradeDate trade)
                       (Trade.price trade)] |},
       realizedGains)
  | sell =>
      let fifoResult :=
        applyFifoSell now (Acc.lots accumulator) (Trade.quantity trade) in
      ({| Acc.symbol := Acc.symbol accumulator;
          Acc.isin := isin';
          Acc.exchange := Acc.exchange accumulator;
          Acc.lots := removeEmptyLots (Fifo.lots fifoResult) |},
       realizedGains
       ++ map (realizedGainEntry trade) (Fifo.consumedLots fifoResult))
  end.

Definition processTradesForHolding (now : Date) (trades : list TradeRecord)
  : HoldingWithGains :=
  match trades with
  | [] => {| HWG.accumulator := None; HWG.realizedGains := [] |}
  | _ =>
      let sortedTrades := sortTradesChronologically trades in
      match sortedTrades with
      | [] =>
          (* not reached: sorting keeps the length of a non-empty array *)
          {| HWG.accumulator := None; HWG.realizedGains := [] |}
      | firstTrade :: _ =>
          let accumulator0 :=
            {| Acc.symbol := Trade.symbol firstTrade;
               Acc.isin := Trade.isin firstTrade;
               Acc.exchange := Trade.exchange firstTrade;
               Acc.lots := [] |} in
          let '(accumulator, realizedGains) :=
            fold_left (processTrade now) sortedTrades (accumulator0, []) in
          match Acc.lots accumulator with
          | [] => {| HWG.accumulator := None; HWG.realizedGains := realizedGains |}
          | _ => {| HWG.accumulator := Some accumulator;
                    HWG.realizedGains := realizedGains |}
          end
      end
  end.
End Engine.

(** ** holdings-calculator: realized-gains summary and portfolio analysis *)

Section PortfolioAnalysis.
Context {R : Runtime}.

Definition getCurrentFyStartDate (now : Date) : Date :=
  let month := getMonth now in
  let year := getFullYear now in
  let fyStartYear := if (month <? 3)%Z then (year - 1)%Z else year in
  newDate fyStartYear 3 1.

Definition summarizeRealizedGains (now : Date) (entries : list RealizedGainEntry)
  : RealizedGainsSummary :=
  let fyStart := getCurrentFyStartDate now in
  let fyEntries := List.filter (fun e => (Gain.sellDate e >=? fyStart)%Z) entries in
  let '(stcg, stcl, ltcg, ltcl) :=
    fold_left
      (fun '(stcg, stcl, ltcg, ltcl) entry =>
         match Gain.classification entry with
         | SHORT_TERM =>
             if Qleb 0 (Gain.gainLoss entry)
             then (stcg + Gain.gainLoss entry, stcl, ltcg, ltcl)
             else (stcg, stcl + Qabs (Gain.gainLoss entry), ltcg, ltcl)
         | LONG_TERM =>
             if Qleb 0 (Gain.gainLoss entry)
             then (stcg, stcl, ltcg + Gain.gainLoss entry, ltcl)
             else (stcg, stcl, ltcg, ltcl + Qabs (Gain.gainLoss entry))
         end)
      fyEntries (0, 0, 0, 0) in
  {| Summary.stcg := stcg;
     Summary.stcl := stcl;
     Summary.ltcg := ltcg;
     Summary.ltcl := ltcl;
     Summary.netShortTerm := stcg - stcl;
     Summary.netLongTerm := ltcg - ltcl;
     Summary.entries := fyEntries |}.

(** The [Holding] pushed by [analyzePortfolio] for a surviving accumulator. *)
Definition holdingOfAccumulator (now : Date) (accumulator : HoldingAccumulator)
  : Holding :=
  let totalQuantity := calculateTotalQuantity (Acc.lots accumulator) in
  let avgPurchasePrice := calculateAvgPurchasePrice (Acc.lots accumulator) in
  let oldestPurchaseDate := findOldestPurchaseDate now (Acc.lots accumulator) in
  let newestPurchaseDate := findNewestPurchaseDate now (Acc.lots accumulator) in
  let classification := classifyHolding now oldestPurchaseDate in
  {| Holding.symbol := Acc.symbol accumulator;
     Holding.isin := Acc.isin accumulator;
     Holding.exchange := Acc.exchange accumulator;
     Holding.lots := Acc.lots accumulator;
     Holding.totalQuantity := totalQuantity;
     Holding.avgPurchasePrice := avgPurchasePrice;
     Holding.oldestPurchaseDate := oldestPurchaseDate;
     Holding.newestPurchaseDate := newestPurchaseDate;
     Holding.classification := classification;
     Holding.currentPrice := None;
     Holding.pnl := None;
     Holding.pnlPercent := None;
     Holding.isLoss := None;
     Holding.stQuantity := None;
     Holding.ltQuantity := None;
     Holding.stAvgPrice := None;
     Holding.ltAvgPrice := None;
     Holding.stPnl := None;
     Holding.ltPnl := None |}.

(** One iteration of the loop over [tradeGroups.values()]. *)
Definition processGroup (now : Date)
    (st : list Holding * list RealizedGainEntry) (groupTrades : list TradeRecord)
  : list Holding * list RealizedGainEntry :=
  let '(holdings, allRealizedGains) := st in
  let result := processTradesForHolding now groupTrades in
  let allRealizedGains := allRealizedGains ++ HWG.realizedGains result in
  match HWG.accumulator result with
  | None => (holdings, allRealizedGains)
  | Some accumulator =>
      (holdings ++ [holdingOfAccumulator now accumulator], allRealizedGains)
  end.

Definition analyzePortfolio (now : Date) (trades : list TradeRecord)
  : PortfolioAnalysis :=
  match trades with
  | [] =>
      {| Portfolio.holdings := [];
         Portfolio.realizedGains := Summary.mk 0 0 0 0 0 0 [] |}
  | _ =>
      let tradeGroups := groupTradesByHolding trades in
      let '(holdings, allRealizedGains) :=
        fold_left (processGroup now) (mapValues tradeGroups) ([], []) in
      {| Portfolio.holdings :=
           sortBy (fun a b => localeCompare (Holding.symbol a) (Holding.symbol b))
                  holdings;
         Portfolio.realizedGains := summarizeRealizedGains now allRealizedGains |}
  end.

Definition calculateHoldings (now : Date) (trades : list TradeRecord) : list Holding :=
  Portfolio.holdings (analyzePortfolio now trades).
End PortfolioAnalysis.

(** ** stores/prices.ts: the price overlay *)

Module Quote.
Record t := mk {
  lastPrice : Q;
  change : Q;
  pChange : Q
}.
End Quote.
Abbreviation NseQuote := Quote.t.

Module LotClass.
Record t := mk {
  stQuantity : Q;
  ltQuantity : Q;
  stAvgPrice : Q;
  ltAvgPrice : Q;
  stPnl : Q;
  ltPnl : Q
}.
End LotClass.
Abbreviation LotClassification := LotClass.t.

Section Overlay.
Context {R : Runtime}.

Definition classifyLotsByHoldingPeriod (now : Date) (lots : list HoldingLot)
    (currentPrice : Q) : LotClassification :=
  let '(stQuantity, ltQuantity, stTotalCost, ltTotalCost) :=
    fold_left
      (fun '(stQuantity, ltQuantity, stTotalCost, ltTotalCost) lot =>
         let holdingDays := differenceInDays now (Lot.purchaseDate lot) in
         let lotCost := Lot.quantity lot * Lot.purchasePrice lot in
         if (holdingDays <=? 365)%Z
         then (stQuantity + Lot.quantity lot, ltQuantity,
               stTotalCost + lotCost, ltTotalCost)
         else (stQuantity, ltQuantity + Lot.quantity lot,
               stTotalCost, ltTotalCost + lotCost))
      lots (0, 0, 0, 0) in
  let stAvgPrice := if Qltb 0 stQuantity then stTotalCost / stQuantity else 0 in
  let ltAvgPrice := if Qltb 0 ltQuantity then ltTotalCost / ltQuantity else 0 in
  let stCurrentValue := stQuantity * currentPrice in
  let ltCurrentValue := ltQuantity * currentPrice in
  let stPnl := stCurrentValue - stTotalCost in
  let ltPnl := ltCurrentValue - ltTotalCost in
  {| LotClass.stQuantity := stQuantity;
     LotClass.ltQuantity := ltQuantity;
     LotClass.stAvgPrice := stAvgPrice;
     LotClass.ltAvgPrice := ltAvgPrice;
     LotClass.stPnl := stPnl;
     LotClass.ltPnl := ltPnl |}.

(** The function mapped over the store by [updateHoldingsWithPrices].
    [quotes] holds the own properties of the object that the function
    receives, and the lookup is that of an own property. What
    [quotes[holding.symbol]] finds for a symbol that names a property of
    [Object.prototype] is modelled in [PlainObject]. *)
Definition updateHolding (now : Date) (quotes : gmap string NseQuote)
    (holding : Holding) : Holding :=
  match quotes !! Holding.symbol holding with
  | None => holding
  | Some quote =>
      let currentPrice := Quote.lastPrice quote in
      let totalCost := Holding.avgPurchasePrice holding * Holding.totalQuantity holding in
      let currentValue := currentPrice * Holding.totalQuantity holding in
      let pnl := currentValue - totalCost in
      let pnlPercent := if Qltb 0 totalCost then (pnl / totalCost) * 100 else 0 in
      let isLoss := Qltb pnl 0 in
      let lotClassification :=
        classifyLotsByHoldingPeriod now (Holding.lots holding) currentPrice in
      {| Holding.symbol := Holding.symbol holding;
         Holding.isin := Holding.isin holding;
         Holding.exchange := Holding.exchange holding;
         Holding.lots := Holding.lots holding;
         Holding.totalQuantity := Holding.totalQuantity holding;
         Holding.avgPurchasePrice := Holding.avgPurchasePrice holding;
         Holding.oldestPurchaseDate := Holding.oldestPurchaseDate holding;
         Holding.newestPurchaseDate := Holding.newestPurchaseDate holding;
         Holding.classification := Holding.classification holding;
         Holding.currentPrice := Some currentPrice;
         Holding.pnl := Some pnl;
         Holding.pnlPercent := Some pnlPercent;
         Holding.isLoss := Some isLoss;
         Holding.stQuantity := Some (LotClass.stQuantity lotClassification);
         Holding.ltQuantity := Some (LotClass.ltQuantity lotClassification);
         Holding.stAvgPrice := Some (LotClass.stAvgPrice lotClassification);
         Holding.ltAvgPrice := Some (LotClass.ltAvgPrice lotClassification);
         Holding.stPnl := Some (LotClass.stPnl lotClassification);
         Holding.ltPnl := Some (LotClass.ltPnl lotClassification) |}
  end.

(** The new content of the [holdings] store. *)
Definition updateHoldingsWithPrices (now : Date) (quotes : gmap string NseQuote)
    (currentHoldings : list Holding) : list Holding :=
  map (updateHolding now quotes) currentHoldings.
End Overlay.

(** ** stores/holdings.ts: the loss-opportunity stores *)

Definition stclOpportunities (holdings : list Holding) : list Holding :=
  List.filter
    (fun holding =>
       match Holding.stQuantity holding, Holding.stPnl holding with
       | Some stQuantity, Some stPnl => Qltb 0 stQuantity && Qltb stPnl 0
       | _, _ => false
       end)
    holdings.

Definition ltclOpportunities (holdings : list Holding) : list Holding :=
  List.filter
    (fun holding =>
       match Holding.ltQuantity holding, Holding.ltPnl holding with
       | Some ltQuantity, Some ltPnl => Qltb 0 ltQuantity && Qltb ltPnl 0
       | _, _ => false
       end)
    holdings.

(** ** A host on a UTC clock

    Used to run the model on concrete inputs.  [differenceInDays] of date-fns
    counts full days and truncates toward zero; on a clock without
    daylight-saving shifts that is the truncated quotient of the millisecond
    difference by the length of a day.  The calendar is the proleptic
    Gregorian one. *)
Module Utc.
Definition msPerDay : Z := 86400000.

Definition daysFromCivil (y m d : Z) : Z :=
  let y' := if (m <=? 2)%Z then (y - 1)%Z else y in
  let era := (y' / 400)%Z in
  let yoe := (y' - era * 400)%Z in
  let mp := if (m >? 2)%Z then (m - 3)%Z else (m + 9)%Z in
  let doy := ((153 * mp + 2) / 5 + d - 1)%Z in
  let doe := (yoe * 365 + yoe / 4 - yoe / 100 + doy)%Z in
  (era * 146097 + doe - 719468)%Z.

(** Year and month (1 to 12) of a day number. *)
Definition civilFromDays (z : Z) : Z * Z :=
  let z := (z + 719468)%Z in
  let era := (z / 146097)%Z in
  let doe := (z - era * 146097)%Z in
  let yoe := ((doe - doe / 1460 + doe / 36524 - doe / 146096) / 365)%Z in
  let doy := (doe - (365 * yoe + yoe / 4 - yoe / 100))%Z in
  let mp := ((5 * doy + 2) / 153)%Z in
  let m := if (mp <? 10)%Z then (mp + 3)%Z else (mp - 9)%Z in
  let y := (yoe + era * 400)%Z in
  (if (m <=? 2)%Z then (y + 1)%Z else y, m).

Definition compareZ (a b : string) : Z :=
  match String.compare a b with Lt => (-1)%Z | Eq => 0%Z | Gt => 1%Z end.

Definition runtime : Runtime :=
  {| differenceInDays := fun l r => Z.quot (l - r) msPerDay;
     getMonth := fun t => (snd (civilFromDays (t / msPerDay)) - 1)%Z;
     getFullYear := fun t => fst (civilFromDays (t / msPerDay));
     newDate := fun y m d => (daysFromCivil y (m + 1) d * msPerDay)%Z;
     localeCompare := compareZ |}.

(** Midnight UTC of a calendar date, month from 1 to 12. *)
Definition date (y m d : Z) : Date := (daysFromCivil y m d * msPerDay)%Z.
End Utc.


(** ** stores/holdings.ts and stores/prices.ts: the remaining store operations

    The Svelte stores [holdings], [realizedGains] and [pricesLoaded] are the
    fields of one record; an operation of the source that sets or updates
    stores is a function on that record. *)

Module Stores.
Record t := mk {
  holdings : list Holding;
  realizedGains : RealizedGainsSummary;
  pricesLoaded : bool
}.
End Stores.

Definition emptySummary : RealizedGainsSummary := Summary.mk 0 0 0 0 0 0 [].

Definition isShortTerm (c : Classification) : bool :=
  match c with SHORT_TERM => true | LONG_TERM => false end.
Definition isLongTerm (c : Classification) : bool :=
  match c with SHORT_TERM => false | LONG_TERM => true end.

(** The derived stores [shortTermHoldings] and [longTermHoldings]. *)
Definition shortTermHoldings (holdings : list Holding) : list Holding :=
  List.filter (fun holding => isShortTerm (Holding.classification holding)) holdings.

Definition longTermHoldings (holdings : list Holding) : list Holding :=
  List.filter (fun holding => isLongTerm (Holding.classification holding)) holdings.

Definition updateHoldingsFromTrades {R : Runtime} (now : Date) (trades : list TradeRecord)
    (s : Stores.t) : Stores.t :=
  let analysis := analyzePortfolio now trades in
  {| Stores.holdings := Portfolio.holdings analysis;
     Stores.realizedGains := Portfolio.realizedGains analysis;
     Stores.pricesLoaded := Stores.pricesLoaded s |}.

Definition clearHoldings (s : Stores.t) : Stores.t :=
  {| Stores.holdings := [];
     Stores.realizedGains := emptySummary;
     Stores.pricesLoaded := Stores.pricesLoaded s |}.

(** The object built for one holding by [clearPrices]: the spread copy with
    four fields set to [undefined]. *)
Definition clearedHolding (holding : Holding) : Holding :=
  {| Holding.symbol := Holding.symbol holding;
     Holding.isin := Holding.isin holding;
     Holding.exchange := Holding.exchange holding;
     Holding.lots := Holding.lots holding;
     Holding.totalQuantity := Holding.totalQuantity holding;
     Holding.avgPurchasePrice := Holding.avgPurchasePrice holding;
     Holding.oldestPurchaseDate := Holding.oldestPurchaseDate holding;
     Holding.newestPurchaseDate := Holding.newestPurchaseDate holding;
     Holding.classification := Holding.classification holding;
     Holding.currentPrice := None;
     Holding.pnl := None;
     Holding.pnlPercent := None;
     Holding.isLoss := None;
     Holding.stQuantity := Holding.stQuantity holding;
     Holding.ltQuantity := Holding.ltQuantity holding;
     Holding.stAvgPrice := Holding.stAvgPrice holding;
     Holding.ltAvgPrice := Holding.ltAvgPrice holding;
     Holding.stPnl := Holding.stPnl holding;
     Holding.ltPnl := Holding.ltPnl holding |}.

Definition clearPrices (s : Stores.t) : Stores.t :=
  {| Stores.holdings := map clearedHolding (Stores.holdings s);
     Stores.realizedGains := Stores.realizedGains s;
     Stores.pricesLoaded := false |}.

(** ** routes/+page.svelte: [handleHarvest]

    The handler reads the two opportunity stores and the two sets of
    selected symbols, and fills [pendingOrders]. Of the component's state
    only the two variables that it writes are kept. *)

Module Order.
Record t := mk {
  symbol : string;
  exchange : string;
  quantity : Q;
  purchasePrice : Q;
  purchaseDate : Date;
  currentPrice : Q;
  expectedLoss : Q
}.
End Order.
Abbreviation SellOrder := Order.t.

Module Page.
Record t := mk {
  pendingOrders : list SellOrder;
  showSellConfirmModal : bool
}.
End Page.

(** [a ?? b] on an optional number. *)
Definition nullish (a : option Q) (b : Q) : Q :=
  match a with Some x => x | None => b end.

(** The orders pushed by the first loop of [handleHarvest]. *)
Definition stclOrders (opportunities : list Holding) (stclSelected : gset string)
    (orders : list SellOrder) : list SellOrder :=
  fold_left
    (fun orders opp =>
       match Holding.currentPrice opp, Holding.stQuantity opp with
       | Some currentPrice, Some stQuantity =>
           if bool_decide (Holding.symbol opp ∈ stclSelected)
              && negb (Qeq_bool stQuantity 0)
           then orders ++
                [{| Order.symbol := Holding.symbol opp;
                    Order.exchange := Holding.exchange opp;
                    Order.quantity := stQuantity;
                    Order.purchasePrice :=
                      nullish (Holding.stAvgPrice opp) (Holding.avgPurchasePrice opp);
                    Order.purchaseDate := Holding.oldestPurchaseDate opp;
                    Order.currentPrice := currentPrice;
                    Order.expectedLoss := Qabs (nullish (Holding.stPnl opp) 0) |}]
           else orders
       | _, _ => orders
       end)
    opportunities orders.

(** The orders pushed by the second loop. *)
Definition ltclOrders (opportunities : list Holding) (ltclSelected : gset string)
    (orders : list SellOrder) : list SellOrder :=
  fold_left
    (fun orders opp =>
       match Holding.currentPrice opp, Holding.ltQuantity opp with
       | Some currentPrice, Some ltQuantity =>
           if bool_decide (Holding.symbol opp ∈ ltclSelected)
              && negb (Qeq_bool ltQuantity 0)
           then orders ++
                [{| Order.symbol := Holding.symbol opp;
                    Order.exchange := Holding.exchange opp;
                    Order.quantity := ltQuantity;
                    Order.purchasePrice :=
                      nullish (Holding.ltAvgPrice opp) (Holding.avgPurchasePrice opp);
                    Order.purchaseDate := Holding.oldestPurchaseDate opp;
                    Order.currentPrice := currentPrice;
                    Order.expectedLoss := Qabs (nullish (Holding.ltPnl opp) 0) |}]
           else orders
       | _, _ => orders
       end)
    opportunities orders.

Definition handleHarvest (holdings : list Holding)
    (stclSelected ltclSelected : gset string) (page : Page.t) : Page.t :=
  let orders := stclOrders (stclOpportunities holdings) stclSelected [] in
  let orders := ltclOrders (ltclOpportunities holdings) ltclSelected orders in
  match orders with
  | [] => page
  | _ => {| Page.pendingOrders := orders; Page.showSellConfirmModal := true |}
  end.

(** ** utils/csv-parser.ts: [parseTradebook]

    What the parser takes from its host: the string methods [toLowerCase],
    [toUpperCase] and [trim]; the global [parseFloat], where [None] is
    [NaN] (the model has no infinite number: a cell that reads [Infinity]
    is outside it); the constructor [new Date(string)], where [None] is a date whose
    [getTime()] is [NaN]; and the call of [Papa.parse] that
    [parseTradebook] makes, where [None] is a thrown exception. *)

(** A row of a [Papa.parse] with [header: true]. A field is [undefined]
    when the line has fewer cells than the header. *)
Module Row.
Record t := mk {
  symbol : option string;
  isin : option string;
  trade_date : option string;
  exchange : option string;
  segment : option string;
  trade_type : option string;
  quantity : option string;
  price : option string;
  order_id : option string;
  trade_id : option string
}.
End Row.
Abbreviation RawTradeRow := Row.t.

(** The parts of a parse result that the code reads: [result.data] and
    [result.meta.fields]. *)
Module Parsed.
Record t := mk {
  data : list RawTradeRow;
  fields : option (list string)
}.
End Parsed.

Class TextHost := {
  toLowerCase : string -> string;
  toUpperCase : string -> string;
  trim : string -> string;
  parseFloat : string -> option Q;
  newDateOfString : string -> option Date;
  papaParse : string -> option Parsed.t
}.

Definition REQUIRED_COLUMNS : list string :=
  ["symbol"; "isin"; "trade_date"; "exchange"; "segment"; "trade_type";
   "quantity"; "price"; "trade_id"].

(** [\d] *)
Definition isDigit (c : ascii) : bool :=
  (48 <=? nat_of_ascii c)%nat && (nat_of_ascii c <=? 57)%nat.

(** [/^\d{4}-\d{2}-\d{2}$/.test(s)] *)
Definition matchesIsoDate (s : string) : bool :=
  match list_ascii_of_string s with
  | [y1; y2; y3; y4; s1; m1; m2; s2; d1; d2] =>
      forallb isDigit [y1; y2; y3; y4; m1; m2; d1; d2]
      && Ascii.eqb s1 "-" && Ascii.eqb s2 "-"
  | _ => false
  end.

(** [s.match(/^(\d{2})-(\d{2})-(\d{4})$/)] for the separator ["-"], and the
    same with ["/"]: the three groups day, month and year of a match. *)
Definition matchDayMonthYear (sep : ascii) (s : string)
  : option (string * string * string) :=
  match list_ascii_of_string s with
  | [d1; d2; s1; m1; m2; s2; y1; y2; y3; y4] =>
      if forallb isDigit [d1; d2; m1; m2; y1; y2; y3; y4]
         && Ascii.eqb s1 sep && Ascii.eqb s2 sep
      then Some (string_of_list_ascii [d1; d2], string_of_list_ascii [m1; m2],
                 string_of_list_ascii [y1; y2; y3; y4])
      else None
  | _ => None
  end.

Section Parser.
Context {T : TextHost}.

Definition validateColumns (headers : list string) : bool :=
  let normalizedHeaders := map (fun h => trim (toLowerCase h)) headers in
  forallb (fun col => existsb (String.eqb col) normalizedHeaders) REQUIRED_COLUMNS.

(** [new Date(`${year}-${month}-${day}T00:00:00`)] *)
Definition dateOfParts (day month year : string) : option Date :=
  newDateOfString (year ++ "-" ++ month ++ "-" ++ day ++ "T00:00:00")%string.

Definition parseTradeDate (dateStr : option string) : option Date :=
  match dateStr with
  | None => None
  | Some dateStr =>
      if negb (truthy dateStr) then None
      else
        let trimmed := trim dateStr in
        let iso :=
          if matchesIsoDate trimmed
          then newDateOfString (trimmed ++ "T00:00:00")%string
          else None in
        match iso with
        | Some date => Some date
        | None =>
            let dash :=
              match matchDayMonthYear "-" trimmed with
              | Some (day, month, year) => dateOfParts day month year
              | None => None
              end in
            match dash with
            | Some date => Some date
            | None =>
                match matchDayMonthYear "/" trimmed with
                | Some (day, month, year) => dateOfParts day month year
                | None => None
                end
            end
        end
  end.

Definition parseTradeType (tradeType : option string) : option TradeType :=
  match option_map (fun s => trim (toLowerCase s)) tradeType with
  | Some normalized =>
      if String.eqb normalized "buy" then Some buy
      else if String.eqb normalized "sell" then Some sell
      else None
  | None => None
  end.

(** [parseFloat(x)] on a cell: the argument is converted to a string
    first. *)
Definition parseFloatOf (cell : option string) : option Q :=
  parseFloat (match cell with Some s => s | None => "undefined" end).

(** [x || fallback] on an optional string. *)
Definition orElse (x : option string) (fallback : string) : string :=
  match x with
  | Some s => if truthy s then s else fallback
  | None => fallback
  end.

(** The body of the loop over [result.data]: the record pushed for a row,
    or [None] where the body ends in [continue]. *)
Definition parseRow (row : RawTradeRow) : option TradeRecord :=
  let segment := option_map (fun s => trim (toUpperCase s)) (Row.segment row) in
  match segment with
  | Some segment =>
      if negb (String.eqb segment "EQ") then None
      else
        match parseTradeDate (Row.trade_date row) with
        | None => None
        | Some tradeDate =>
            match parseTradeType (Row.trade_type row) with
            | None => None
            | Some tradeType =>
                match parseFloatOf (Row.quantity row) with
                | None => None
                | Some quantity =>
                    if Qleb quantity 0 then None
                    else
                      match parseFloatOf (Row.price row) with
                      | None => None
                      | Some price =>
                          if Qltb price 0 then None
                          else
                            match option_map trim (Row.trade_id row) with
                            | None => None
                            | Some tradeId =>
                                if negb (truthy tradeId) then None
                                else
                                  match option_map trim (Row.symbol row) with
                                  | None => None
                                  | Some symbol =>
                                      if negb (truthy symbol) then None
                                      else
                                        let isin :=
                                          orElse (option_map trim (Row.isin row)) "" in
                                        let exchange :=
                                          orElse (option_map (fun s => trim (toUpperCase s))
                                                    (Row.exchange row)) "NSE" in
                                        Some {| Trade.tradeId := tradeId;
                                                Trade.symbol := symbol;
                                                Trade.isin := isin;
                                                Trade.tradeDate := tradeDate;
                                                Trade.exchange := exchange;
                                                Trade.tradeType := tradeType;
                                                Trade.quantity := quantity;
                                                Trade.price := price |}
                                  end
                            end
                      end
                end
            end
        end
  | None => None
  end.

Definition parseTradebook (csvContent : string) : list TradeRecord :=
  if negb (truthy csvContent) || (String.length (trim csvContent) =? 0)%nat then []
  else
    match papaParse csvContent with
    | None => []
    | Some result =>
        let valid :=
          match Parsed.fields result with
          | Some fields => validateColumns fields
          | None => false
          end in
        if negb valid then []
        else
          let trades :=
            fold_left
              (fun trades row =>
                 match parseRow row with
                 | Some trade => trades ++ [trade]
                 | None => trades
                 end)
              (Parsed.data result) [] in
          sortBy (fun a b => (Trade.tradeDate a - Trade.tradeDate b)%Z) trades
    end.
End Parser.

(** ** A host for plain ASCII text

    Used to run the parser on concrete inputs. Letters are the 26 of ASCII;
    white space is the blank, the tab and the two line ends; a number is an
    optional sign, digits and an optional fraction, read as far as it goes;
    a date is read on the UTC clock; a CSV text has one record per line and
    commas between cells, without quotes. *)
Module Plain.
Definition lower (c : ascii) : ascii :=
  let n := nat_of_ascii c in
  if (65 <=? n)%nat && (n <=? 90)%nat then ascii_of_nat (n + 32) else c.
Definition upper (c : ascii) : ascii :=
  let n := nat_of_ascii c in
  if (97 <=? n)%nat && (n <=? 122)%nat then ascii_of_nat (n - 32) else c.

Definition mapString (f : ascii -> ascii) (s : string) : string :=
  string_of_list_ascii (map f (list_ascii_of_string s)).

Definition isSpace (c : ascii) : bool :=
  let n := nat_of_ascii c in
  (n =? 32)%nat || (n =? 9)%nat || (n =? 10)%nat || (n =? 13)%nat.

Fixpoint dropSpaces (l : list ascii) : list ascii :=
  match l with
  | c :: rest => if isSpace c then dropSpaces rest else l
  | [] => []
  end.

Definition trimString (s : string) : string :=
  string_of_list_ascii
    (rev (dropSpaces (rev (dropSpaces (list_ascii_of_string s))))).

Definition digitValue (c : ascii) : Z := Z.of_nat (nat_of_ascii c - 48).

(** The digits at the front of [l]: their value after [acc], their number,
    and what follows them. *)
Fixpoint readDigits (l : list ascii) (acc : Z) (count : nat) : Z * nat * list ascii :=
  match l with
  | c :: rest =>
      if isDigit c then readDigits rest (acc * 10 + digitValue c)%Z (S count)
      else (acc, count, l)
  | [] => (acc, count, [])
  end.

Definition readNumber (s : string) : option Q :=
  let l := dropSpaces (list_ascii_of_string s) in
  let '(negative, l) :=
    match l with
    | c :: rest =>
        if Ascii.eqb c "-" then (true, rest)
        else if Ascii.eqb c "+" then (false, rest)
        else (false, l)
    | [] => (false, l)
    end in
  let '(whole, wholeDigits, l) := readDigits l 0%Z 0%nat in
  let '(numerator, fractionDigits) :=
    match l with
    | c :: rest =>
        if Ascii.eqb c "."
        then let '(n, k, _) := readDigits rest whole 0%nat in (n, k)
        else (whole, 0%nat)
    | [] => (whole, 0%nat)
    end in
  if (wholeDigits + fractionDigits =? 0)%nat then None
  else
    let magnitude := numerator # Z.to_pos (10 ^ Z.of_nat fractionDigits) in
    Some (Qred (if negative then - magnitude else magnitude)).

Definition numberOfDigits (l : list ascii) : Z := fst (fst (readDigits l 0%Z 0%nat)).

(** [YYYY-MM-DDT00:00:00], months 1 to 12 and days 1 to 31. *)
Definition readDate (s : string) : option Date :=
  match list_ascii_of_string s with
  | [y1; y2; y3; y4; s1; m1; m2; s2; d1; d2; t; h1; h2; c1; n1; n2; c2; e1; e2] =>
      let year := numberOfDigits [y1; y2; y3; y4] in
      let month := numberOfDigits [m1; m2] in
      let day := numberOfDigits [d1; d2] in
      if forallb isDigit [y1; y2; y3; y4; m1; m2; d1; d2]
         && String.eqb (string_of_list_ascii [s1; s2; t; h1; h2; c1; n1; n2; c2; e1; e2])
                       "--T00:00:00"
         && (1 <=? month)%Z && (month <=? 12)%Z && (1 <=? day)%Z && (day <=? 31)%Z
      then Some (Utc.date year month day)
      else None
  | _ => None
  end.

(** The pieces of [l] between occurrences of [sep]. *)
Fixpoint splitOn (sep : ascii) (l : list ascii) (piece : list ascii)
  : list (list ascii) :=
  match l with
  | c :: rest =>
      if Ascii.eqb c sep then rev piece :: splitOn sep rest []
      else splitOn sep rest (c :: piece)
  | [] => [rev piece]
  end.

Definition cells (line : list ascii) : list string :=
  map string_of_list_ascii (splitOn "," line []).

Fixpoint cellOf (name : string) (header cellsOfLine : list string) : option string :=
  match header, cellsOfLine with
  | h :: header', c :: cells' =>
      if String.eqb h name then Some c else cellOf name header' cells'
  | _, _ => None
  end.

Definition rowOf (header cellsOfLine : list string) : RawTradeRow :=
  {| Row.symbol := cellOf "symbol" header cellsOfLine;
     Row.isin := cellOf "isin" header cellsOfLine;
     Row.trade_date := cellOf "trade_date" header cellsOfLine;
     Row.exchange := cellOf "exchange" header cellsOfLine;
     Row.segment := cellOf "segment" header cellsOfLine;
     Row.trade_type := cellOf "trade_type" header cellsOfLine;
     Row.quantity := cellOf "quantity" header cellsOfLine;
     Row.price := cellOf "price" header cellsOfLine;
     Row.order_id := cellOf "order_id" header cellsOfLine;
     Row.trade_id := cellOf "trade_id" header cellsOfLine |}.

Definition readCsv (text : string) : option Parsed.t :=
  let lines :=
    List.filter (fun line => negb (Nat.eqb (List.length line) 0))
      (splitOn "010" (list_ascii_of_string text) []) in
  match lines with
  | [] => Some (Parsed.mk [] None)
  | first :: rest =>
      let header := map (fun h => trimString (mapString lower h)) (cells first) in
      Some (Parsed.mk (map (fun line => rowOf header (cells line)) rest) (Some header))
  end.

Definition host : TextHost :=
  {| toLowerCase := mapString lower;
     toUpperCase := mapString upper;
     trim := trimString;
     parseFloat := readNumber;
     newDateOfString := readDate;
     papaParse := readCsv |}.

(** The line end. *)
Definition nl : string := String "010" EmptyString.

Definition header : string :=
  "symbol,isin,trade_date,exchange,segment,trade_type,quantity,price,order_id,trade_id".

(** A tradebook text of five records: dates in two of the three formats,
    a record of another segment, and one of negative quantity. *)
Definition sampleCsv : string :=
  (header ++ nl
   ++ "INFY,INE009A01021,20/04/2024,nse,EQ,BUY,10.5,1450.25,ORD1,TRD100" ++ nl
   ++ "TCS,INE467B01029,15-03-2024,BSE,eq,sell,25,3500,ORD2,TRD101" ++ nl
   ++ "TCS,INE467B01029,2024-03-10,BSE,FO,sell,25,3500,ORD2,TRD102" ++ nl
   ++ "TCS,INE467B01029,2024-03-10,,EQ,sell,-1,3500,ORD2,TRD103" ++ nl
   ++ "TCS,INE467B01029,2024-03-10,,EQ,buy,1,3500,ORD2,TRD104")%string.

(** The decimal digits of a number that is not negative, most significant
    first. *)
Fixpoint decimalDigits (fuel : nat) (n : Z) (digits : list ascii) : list ascii :=
  let digits := ascii_of_nat (48 + Z.to_nat (n mod 10)) :: digits in
  match fuel with
  | O => digits
  | S fuel' => if (n <? 10)%Z then digits else decimalDigits fuel' (n / 10)%Z digits
  end.

Definition showNumber (n : Z) : string :=
  ((if (n <? 0)%Z then "-" else "")
   ++ string_of_list_ascii (decimalDigits 40 (Z.abs n) []))%string.
End Plain.

(** ** stores/prices.ts: [fetchQuotes]

    A promise settles as [resolved] or as [rejected] with the message of
    the error. The edge function is the network: its answer to the request
    for a chunk is a parameter, which may depend on the position of the
    request among those of one call. *)
Inductive Outcome (A : Type) : Type :=
| resolved (value : A)
| rejected (message : string).
Arguments resolved {A} value.
Arguments rejected {A} message.

(** [NseQuotesResponse], as it comes from the network: the code allows for
    either field to be missing. *)
Module Response.
Record t := mk {
  quotes : option (gmap string NseQuote);
  errors : option (list string)
}.
End Response.
Abbreviation NseQuotesResponse := Response.t.

Definition BATCH_SIZE : nat := 10.

(** [l.slice(start, stop)] for [start <= stop]. *)
Definition slice {A : Type} (l : list A) (start stop : nat) : list A :=
  firstn (stop - start) (skipn start l).

(** The loop [for (let i = 0; i < symbols.length; i += BATCH_SIZE)] from
    the value [i] on, with the chunks pushed so far. [None]: the loop has
    not ended within [fuel] iterations. *)
Fixpoint chunkLoop (fuel : nat) (symbols : list string) (i : nat)
    (chunks : list (list string)) : option (list (list string)) :=
  if (i <? length symbols)%nat then
    match fuel with
    | O => None
    | S fuel' =>
        chunkLoop fuel' symbols (i + BATCH_SIZE)
          (chunks ++ [slice symbols i (i + BATCH_SIZE)])
    end
  else Some chunks.

Section Quotes.
Variable fetchQuotesBatch : nat -> list string -> Outcome NseQuotesResponse.

(** [fetchQuotesBatch(chunk).catch(...)] *)
Definition batchResult (i : nat) (chunk : list string) : NseQuotesResponse :=
  match fetchQuotesBatch i chunk with
  | resolved response => response
  | rejected message => Response.mk (Some ∅) (Some [message])
  end.

(** The loop that merges the results: [Object.assign] lets the later
    result win. *)
Definition mergeResults (batchResults : list NseQuotesResponse)
  : gmap string NseQuote * list string :=
  fold_left
    (fun '(mergedQuotes, allErrors) result =>
       (default ∅ (Response.quotes result) ∪ mergedQuotes,
        match Response.errors result with
        | Some errors => allErrors ++ errors
        | None => allErrors
        end))
    batchResults (∅, []).

(** The outcome of the promise, and the new value of the module variable
    [lastFetchedSymbols]. *)
Definition fetchQuotes (fuel : nat) (symbols lastFetchedSymbols : list string)
  : option (Outcome (gmap string NseQuote) * list string) :=
  if (length symbols =? 0)%nat then Some (resolved ∅, lastFetchedSymbols)
  else
    match chunkLoop fuel symbols 0 [] with
    | None => None
    | Some chunks =>
        let batchResults := imap batchResult chunks in
        let '(mergedQuotes, allErrors) := mergeResults batchResults in
        let quotesReceived := size mergedQuotes in
        Some (if (quotesReceived =? 0)%nat && (0 <? length symbols)%nat
              then rejected "Could not fetch prices for any symbols. Please try again."
              else resolved mergedQuotes,
              symbols)
    end.
End Quotes.

(** ** The tradebook store

    The Svelte stores [uploadedFiles], [allTrades] and [parseErrors] and the
    module's map [tradesPerFile] are the fields of one record. What the host
    gives to [addTradebooks] comes with each file: the id that
    [generateFileId] makes for it, and what [readFileAsText] settles to,
    where the message of a rejection is the one that the [catch] clause
    reads off the error. The conversion of a number to a string is a
    parameter. *)

Module FinYear.
Record t := mk {
  startYear : Z;
  endYear : Z
}.
End FinYear.

(** [UploadedFile], with the two fields of [dateRange] side by side. *)
Module Uploaded.
Record t := mk {
  id : string;
  name : string;
  fyRange : string;
  tradeCount : nat;
  dateFrom : Date;
  dateTo : Date
}.
End Uploaded.
Abbreviation UploadedFile := Uploaded.t.

Module Tradebook.
Record t := mk {
  uploadedFiles : list UploadedFile;
  allTrades : list TradeRecord;
  parseErrors : JsMap string;
  tradesPerFile : JsMap (list TradeRecord)
}.
End Tradebook.

Module Incoming.
Record t := mk {
  fileId : string;
  name : string;
  content : Outcome string
}.
End Incoming.

(** [Map.prototype.delete] *)
Definition mapDelete {V : Type} (k : string) (m : JsMap V) : JsMap V :=
  List.filter (fun entry => negb (String.eqb k (fst entry))) m.

(** [s.slice(-n)] *)
Definition sliceFromEnd (s : string) (n : nat) : string :=
  string_of_list_ascii (skipn (String.length s - n) (list_ascii_of_string s)).

Section TradebookStore.
Context {R : Runtime} {T : TextHost}.
Variable numberToString : Z -> string.

Definition getFinancialYear (date : Date) : FinYear.t :=
  let month := getMonth date in
  let year := getFullYear date in
  if (month <? 3)%Z
  then {| FinYear.startYear := (year - 1)%Z; FinYear.endYear := year |}
  else {| FinYear.startYear := year; FinYear.endYear := (year + 1)%Z |}.

Definition formatFy (fy : FinYear.t) : string :=
  let endYearShort := sliceFromEnd (numberToString (FinYear.endYear fy)) 2 in
  ("FY " ++ numberToString (FinYear.startYear fy) ++ "-" ++ endYearShort)%string.

Definition determineFyRange (trades : list TradeRecord) : string :=
  match trades with
  | [] => "No trades"
  | trade0 :: _ =>
      let sortedTrades :=
        sortBy (fun a b => (Trade.tradeDate a - Trade.tradeDate b)%Z) trades in
      let earliestDate := Trade.tradeDate (List.hd trade0 sortedTrades) in
      let latestDate := Trade.tradeDate (List.last sortedTrades trade0) in
      let earliestFy := getFinancialYear earliestDate in
      let latestFy := getFinancialYear latestDate in
      if (FinYear.startYear earliestFy =? FinYear.startYear latestFy)%Z
      then formatFy earliestFy
      else (formatFy earliestFy ++ " to " ++ formatFy latestFy)%string
  end.

Definition recalculateAllTrades (s : Tradebook.t) : Tradebook.t :=
  let allTradeArrays := mapValues (Tradebook.tradesPerFile s) in
  let merged := mergeTradebooks allTradeArrays in
  {| Tradebook.uploadedFiles := Tradebook.uploadedFiles s;
     Tradebook.allTrades := merged;
     Tradebook.parseErrors := Tradebook.parseErrors s;
     Tradebook.tradesPerFile := Tradebook.tradesPerFile s |}.

(** One iteration of the loop of [addTradebooks], on [tradesPerFile],
    [newErrors] and [newUploadedFiles]. *)
Definition addFile
    (st : JsMap (list TradeRecord) * JsMap string * list UploadedFile)
    (file : Incoming.t)
  : JsMap (list TradeRecord) * JsMap string * list UploadedFile :=
  let '(tradesPerFile, newErrors, newUploadedFiles) := st in
  let fileId := Incoming.fileId file in
  match Incoming.content file with
  | resolved content =>
      let trades := parseTradebook content in
      match trades with
      | [] =>
          (tradesPerFile,
           mapSet fileId
             ("No valid equity trades found in " ++ Incoming.name file
              ++ ". Please ensure this is a Zerodha Tradebook CSV with equity (EQ) segment trades.")%string
             newErrors,
           newUploadedFiles)
      | trade0 :: _ =>
          let tradesPerFile := mapSet fileId trades tradesPerFile in
          let sortedTrades :=
            sortBy (fun a b => (Trade.tradeDate a - Trade.tradeDate b)%Z) trades in
          let uploadedFile :=
            {| Uploaded.id := fileId;
               Uploaded.name := Incoming.name file;
               Uploaded.fyRange := determineFyRange trades;
               Uploaded.tradeCount := length trades;
               Uploaded.dateFrom := Trade.tradeDate (List.hd trade0 sortedTrades);
               Uploaded.dateTo := Trade.tradeDate (List.last sortedTrades trade0) |} in
          (tradesPerFile, mapDelete fileId newErrors, newUploadedFiles ++ [uploadedFile])
      end
  | rejected errorMessage =>
      (tradesPerFile,
       mapSet fileId
         ("Failed to read " ++ Incoming.name file ++ ": " ++ errorMessage)%string
         newErrors,
       newUploadedFiles)
  end.

Definition addTradebooks (files : list Incoming.t) (s : Tradebook.t) : Tradebook.t :=
  let currentErrors := Tradebook.parseErrors s in
  let '(tradesPerFile, newErrors, newUploadedFiles) :=
    fold_left addFile files (Tradebook.tradesPerFile s, currentErrors, []) in
  recalculateAllTrades
    {| Tradebook.uploadedFiles :=
         match newUploadedFiles with
         | [] => Tradebook.uploadedFiles s
         | _ => Tradebook.uploadedFiles s ++ newUploadedFiles
         end;
       Tradebook.allTrades := Tradebook.allTrades s;
       Tradebook.parseErrors := newErrors;
       Tradebook.tradesPerFile := tradesPerFile |}.

Definition removeTradebook (fileId : string) (s : Tradebook.t) : Tradebook.t :=
  recalculateAllTrades
    {| Tradebook.uploadedFiles :=
         List.filter (fun f => negb (String.eqb (Uploaded.id f) fileId))
           (Tradebook.uploadedFiles s);
       Tradebook.allTrades := Tradebook.allTrades s;
       Tradebook.parseErrors := mapDelete fileId (Tradebook.parseErrors s);
       Tradebook.tradesPerFile := mapDelete fileId (Tradebook.tradesPerFile s) |}.

Definition clearAllTradebooks (s : Tradebook.t) : Tradebook.t :=
  {| Tradebook.uploadedFiles := [];
     Tradebook.allTrades := [];
     Tradebook.parseErrors := [];
     Tradebook.tradesPerFile := [] |}.
End TradebookStore.

(** ** The FIFO sell on binary64 numbers

    [applyFifoSell], [removeEmptyLots] and [calculateTotalQuantity] once
    more, with the numbers of the source: [float] is IEEE 754 binary64, and
    its operations round to nearest, ties to even, as those of JavaScript
    do. A decimal literal denotes the nearest binary64 number, as it does
    in JavaScript. *)
Module Binary64.
Import PrimFloat.
#[local] Set Warnings "-inexact-float".
Local Open Scope float_scope.

Module Lot.
Record t := mk {
  quantity : float;
  purchaseDate : Date;
  purchasePrice : float
}.
End Lot.

Module Fifo.
Record t := mk {
  lots : list Lot.t;
  consumedLots : list Lot.t;
  avgPurchasePrice : float;
  oldestPurchaseDate : Date;
  warning : option float
}.
End Fifo.

Fixpoint fifoLoop (lots : list Lot.t) (remainingToSell : float)
  : list Lot.t * list Lot.t * float :=
  match lots with
  | [] => ([], [], remainingToSell)
  | lot :: rest =>
      if 0 <? remainingToSell then
        if Lot.quantity lot <=? remainingToSell then
          let '(rest', consumed, r) :=
            fifoLoop rest (remainingToSell - Lot.quantity lot) in
          (Lot.mk 0 (Lot.purchaseDate lot) (Lot.purchasePrice lot) :: rest',
           Lot.mk (Lot.quantity lot) (Lot.purchaseDate lot) (Lot.purchasePrice lot)
             :: consumed,
           r)
        else
          let '(rest', consumed, r) := fifoLoop rest 0 in
          (Lot.mk (Lot.quantity lot - remainingToSell)
                  (Lot.purchaseDate lot) (Lot.purchasePrice lot) :: rest',
           Lot.mk remainingToSell (Lot.purchaseDate lot) (Lot.purchasePrice lot)
             :: consumed,
           r)
      else (lot :: rest, [], remainingToSell)
  end.

Definition applyFifoSell (now : Date) (lots : list Lot.t) (sellQuantity : float)
  : Fifo.t :=
  let '(lots', consumedLots, remainingToSell) := fifoLoop lots sellQuantity in
  let warning := if 0 <? remainingToSell then Some remainingToSell else None in
  let oldestDate0 :=
    match consumedLots with c :: _ => Lot.purchaseDate c | [] => now end in
  let '(totalValue, totalQty, oldestDate) :=
    fold_left
      (fun '(totalValue, totalQty, oldestDate) consumed =>
         (totalValue + Lot.quantity consumed * Lot.purchasePrice consumed,
          totalQty + Lot.quantity consumed,
          if (Lot.purchaseDate consumed <? oldestDate)%Z
          then Lot.purchaseDate consumed else oldestDate))
      consumedLots (0, 0, oldestDate0) in
  {| Fifo.lots := lots';
     Fifo.consumedLots := consumedLots;
     Fifo.avgPurchasePrice := if 0 <? totalQty then totalValue / totalQty else 0;
     Fifo.oldestPurchaseDate := oldestDate;
     Fifo.warning := warning |}.

Definition removeEmptyLots (lots : list Lot.t) : list Lot.t :=
  List.filter (fun lot => 0 <? Lot.quantity lot) lots.

Definition calculateTotalQuantity (lots : list Lot.t) : float :=
  fold_left (fun sum lot => sum + Lot.quantity lot) lots 0.

(** [processTradesForHolding] on the lots of the accumulator: a buy pushes
    a lot, a sell applies [applyFifoSell] and then [removeEmptyLots]. *)
Module Trade.
Record t := mk {
  tradeDate : Date;
  tradeType : TradeType;
  quantity : float;
  price : float
}.
End Trade.

Definition processTrade (now : Date) (lots : list Lot.t) (trade : Trade.t)
  : list Lot.t :=
  match Trade.tradeType trade with
  | buy =>
      lots ++ [Lot.mk (Trade.quantity trade) (Trade.tradeDate trade) (Trade.price trade)]
  | sell =>
      removeEmptyLots (Fifo.lots (applyFifoSell now lots (Trade.quantity trade)))
  end.

(** The lots left by the trades of a group, taken in chronological order:
    the group yields a holding when this list is not empty. *)
Definition remainingLots (now : Date) (sortedTrades : list Trade.t) : list Lot.t :=
  fold_left (processTrade now) sortedTrades [].

(** The [quantity] fields of the entries pushed for a sell: one entry for
    each consumed lot, with the quantity of that lot. *)
Definition emittedQuantities (result : Fifo.t) : list float :=
  map Lot.quantity (Fifo.consumedLots result).

(** The rational number that a finite binary64 number is, in lowest
    terms. *)
Definition toQ (x : float) : option Q :=
  match FloatOps.Prim2SF x with
  | SpecFloat.S754_zero _ => Some 0%Q
  | SpecFloat.S754_finite negative mantissa exponent =>
      let m := if negative then Z.neg mantissa else Z.pos mantissa in
      Some (Qred (if (0 <=? exponent)%Z
                  then inject_Z (m * 2 ^ exponent)
                  else Qmake m (Z.to_pos (2 ^ (- exponent)))))
  | _ => None
  end.

(** The sum of binary64 numbers as real numbers, without rounding. *)
Definition exactSum (l : list float) : option Q :=
  fold_left
    (fun sum x =>
       match sum, toQ x with
       | Some s, Some q => Some (s + q)%Q
       | _, _ => None
       end)
    l (Some 0%Q).

(** Lots bought on days of January 2024, at 100. *)
Definition bought (quantity : float) (day : Z) : Lot.t :=
  Lot.mk quantity (Utc.date 2024 1 day) 100.

(** 0.2 and 5 held, 0.9 sold. *)
Definition heldFractions : list Lot.t := [bought 0.2 10; bought 5 11].
Definition soldFraction : float := 0.9.

(** Buys of 0.2, 0.2 and 0.5 and then a sell of 0.9, which is their sum. *)
Definition boughtFractions : list float := [0.2; 0.2; 0.5].
Definition fullySold : list Trade.t :=
  [Trade.mk (Utc.date 2024 1 10) buy 0.2 100;
   Trade.mk (Utc.date 2024 1 11) buy 0.2 100;
   Trade.mk (Utc.date 2024 1 12) buy 0.5 100;
   Trade.mk (Utc.date 2024 2 1) sell 0.9 110].

(** What is left of the third lot. *)
Definition residue : float := 0x1p-54.

(** 50 and 50 held, 70 sold. *)
Definition heldWhole : list Lot.t := [bought 50 10; bought 50 11].
Definition soldWhole : float := 70.
End Binary64.

(** ** stores/prices.ts: the quotes object as JavaScript reads it

    [fetchQuotes] builds its result as [{}] and fills it with
    [Object.assign]: a plain object whose own properties are the quotes
    received and whose prototype is [Object.prototype].
    [quotes[holding.symbol]] reads a property of that object: an own one,
    or else one that the object inherits. The map [quotes] holds the own
    properties. *)
Module PlainObject.

(** The properties of [Object.prototype]. The value of each is a function,
    and that of [__proto__] the prototype itself: it is truthy and has no
    property [lastPrice]. *)
Definition prototypeProperties : list string :=
  ["constructor"; "__defineGetter__"; "__defineSetter__"; "hasOwnProperty";
   "__lookupGetter__"; "__lookupSetter__"; "isPrototypeOf";
   "propertyIsEnumerable"; "toString"; "valueOf"; "__proto__"; "toLocaleString"].

Inductive Property :=
| own (quote : NseQuote)
| inherited
| absent.

(** [quotes[name]] *)
Definition get (quotes : gmap string NseQuote) (name : string) : Property :=
  match quotes !! name with
  | Some quote => own quote
  | None =>
      if existsb (String.eqb name) prototypeProperties then inherited else absent
  end.

(** The values that the overlay computes with. *)
Inductive Value :=
| number (q : Q)
| NaN
| undefined.

(** The conversion to a number that arithmetic and comparison apply, where
    [None] is [NaN]. *)
Definition toNumber (v : Value) : option Q :=
  match v with
  | number q => Some q
  | NaN | undefined => None
  end.

Definition ofNumber (n : option Q) : Value :=
  match n with
  | Some q => number q
  | None => NaN
  end.

Definition times (a b : Value) : Value :=
  ofNumber match toNumber a, toNumber b with
           | Some x, Some y => Some (x * y)
           | _, _ => None
           end.

Definition minus (a b : Value) : Value :=
  ofNumber match toNumber a, toNumber b with
           | Some x, Some y => Some (x - y)
           | _, _ => None
           end.

(** [a / b] for a divisor that is a number other than 0. *)
Definition dividedBy (a : Value) (b : Q) : Value :=
  ofNumber match toNumber a with
           | Some x => Some (x / b)
           | None => None
           end.

(** [a < b]: false when either side is [NaN]. *)
Definition lessThan (a b : Value) : bool :=
  match toNumber a, toNumber b with
  | Some x, Some y => Qltb x y
  | _, _ => false
  end.

(** [quote.lastPrice] for the value read from the object; [None] where
    [!quote] holds. *)
Definition lastPriceOf (quote : Property) : option Value :=
  match quote with
  | own quote => Some (number (Quote.lastPrice quote))
  | inherited => Some undefined
  | absent => None
  end.

Module Split.
Record t := mk {
  stQuantity : Q;
  ltQuantity : Q;
  stAvgPrice : Q;
  ltAvgPrice : Q;
  stPnl : Value;
  ltPnl : Value
}.
End Split.

(** The object that the overlay builds: the fields of the holding, spread,
    and the fields written after them. *)
Module Overlaid.
Record t := mk {
  holding : Holding;
  currentPrice : Value;
  pnl : Value;
  pnlPercent : Value;
  isLoss : bool;
  stQuantity : Q;
  ltQuantity : Q;
  stAvgPrice : Q;
  ltAvgPrice : Q;
  stPnl : Value;
  ltPnl : Value
}.
End Overlaid.

(** What the function mapped over the store returns: the holding it was
    given, or a new object. *)
Inductive Result :=
| returned (holding : Holding)
| built (object : Overlaid.t).

Section Overlay.
Context {R : Runtime}.

Definition classifyLotsByHoldingPeriod (now : Date) (lots : list HoldingLot)
    (currentPrice : Value) : Split.t :=
  let '(stQuantity, ltQuantity, stTotalCost, ltTotalCost) :=
    fold_left
      (fun '(stQuantity, ltQuantity, stTotalCost, ltTotalCost) lot =>
         let holdingDays := differenceInDays now (Lot.purchaseDate lot) in
         let lotCost := Lot.quantity lot * Lot.purchasePrice lot in
         if (holdingDays <=? 365)%Z
         then (stQuantity + Lot.quantity lot, ltQuantity,
               stTotalCost + lotCost, ltTotalCost)
         else (stQuantity, ltQuantity + Lot.quantity lot,
               stTotalCost, ltTotalCost + lotCost))
      lots (0, 0, 0, 0) in
  let stAvgPrice := if Qltb 0 stQuantity then stTotalCost / stQuantity else 0 in
  let ltAvgPrice := if Qltb 0 ltQuantity then ltTotalCost / ltQuantity else 0 in
  let stCurrentValue := times (number stQuantity) currentPrice in
  let ltCurrentValue := times (number ltQuantity) currentPrice in
  let stPnl := minus stCurrentValue (number stTotalCost) in
  let ltPnl := minus ltCurrentValue (number ltTotalCost) in
  {| Split.stQuantity := stQuantity;
     Split.ltQuantity := ltQuantity;
     Split.stAvgPrice := stAvgPrice;
     Split.ltAvgPrice := ltAvgPrice;
     Split.stPnl := stPnl;
     Split.ltPnl := ltPnl |}.

Definition updateHolding (now : Date) (quotes : gmap string NseQuote)
    (holding : Holding) : Result :=
  match lastPriceOf (get quotes (Holding.symbol holding)) with
  | None => returned holding
  | Some currentPrice =>
      let totalCost := Holding.avgPurchasePrice holding * Holding.totalQuantity holding in
      let currentValue := times currentPrice (number (Holding.totalQuantity holding)) in
      let pnl := minus currentValue (number totalCost) in
      let pnlPercent :=
        if Qltb 0 totalCost then times (dividedBy pnl totalCost) (number 100)
        else number 0 in
      let isLoss := lessThan pnl (number 0) in
      let lotClassification :=
        classifyLotsByHoldingPeriod now (Holding.lots holding) currentPrice in
      built {| Overlaid.holding := holding;
               Overlaid.currentPrice := currentPrice;
               Overlaid.pnl := pnl;
               Overlaid.pnlPercent := pnlPercent;
               Overlaid.isLoss := isLoss;
               Overlaid.stQuantity := Split.stQuantity lotClassification;
               Overlaid.ltQuantity := Split.ltQuantity lotClassification;
               Overlaid.stAvgPrice := Split.stAvgPrice lotClassification;
               Overlaid.ltAvgPrice := Split.ltAvgPrice lotClassification;
               Overlaid.stPnl := Split.stPnl lotClassification;
               Overlaid.ltPnl := Split.ltPnl lotClassification |}
  end.

Definition updateHoldingsWithPrices (now : Date) (quotes : gmap string NseQuote)
    (currentHoldings : list Holding) : list Result :=
  map (updateHolding now quotes) currentHoldings.
End Overlay.

(** The result in which a holding of the store stands for itself, and an
    overlaid holding whose price fields are all numbers stands for the
    object built from [source]. *)
Definition ofHolding (source result : Holding) : Result :=
  match Holding.currentPrice result, Holding.pnl result, Holding.pnlPercent result,
        Holding.isLoss result with
  | Some currentPrice, Some pnl, Some pnlPercent, Some isLoss =>
      match Holding.stQuantity result, Holding.ltQuantity result,
            Holding.stAvgPrice result, Holding.ltAvgPrice result,
            Holding.stPnl result, Holding.ltPnl result with
      | Some stQuantity, Some ltQuantity, Some stAvgPrice, Some ltAvgPrice,
        Some stPnl, Some ltPnl =>
          built {| Overlaid.holding := source;
                   Overlaid.currentPrice := number currentPrice;
                   Overlaid.pnl := number pnl;
                   Overlaid.pnlPercent := number pnlPercent;
                   Overlaid.isLoss := isLoss;
                   Overlaid.stQuantity := stQuantity;
                   Overlaid.ltQuantity := ltQuantity;
                   Overlaid.stAvgPrice := stAvgPrice;
                   Overlaid.ltAvgPrice := ltAvgPrice;
                   Overlaid.stPnl := number stPnl;
                   Overlaid.ltPnl := number ltPnl |}
      | _, _, _, _, _, _ => returned result
      end
  | _, _, _, _ => returned result
  end.
End PlainObject.

(** ** Vocabulary of the statements *)

(** The input contract on a trade record that the engine relies on. *)
Definition positiveQuantity (t : TradeRecord) : Prop := 0 < Trade.quantity t.

Definition isBuy (t : TradeRecord) : bool :=
  match Trade.tradeType t with buy => true | sell => false end.
Definition isSell (t : TradeRecord) : bool :=
  match Trade.tradeType t with buy => false | sell => true end.

Definition Qsum (l : list Q) : Q := fold_right Qplus 0 l.

Definition lotsQuantity (lots : list HoldingLot) : Q :=
  Qsum (map Lot.quantity lots).
Definition lotsCost (lots : list HoldingLot) : Q :=
  Qsum (map (fun lot => Lot.quantity lot * Lot.purchasePrice lot) lots).
Definition gainsQuantity (entries : list RealizedGainEntry) : Q :=
  Qsum (map Gain.quantity entries).

Definition totalBought (trades : list TradeRecord) : Q :=
  Qsum (map Trade.quantity (List.filter isBuy trades)).
Definition totalSold (trades : list TradeRecord) : Q :=
  Qsum (map Trade.quantity (List.filter isSell trades)).

(** A whole number up to 2^53. Binary64 holds each of them, and adds,
    subtracts and compares them without rounding as long as the result is
    one of them. *)
Definition wholeNumber (q : Q) : Prop :=
  exists n : Z, (0 <= n <= 2 ^ 53)%Z /\ q == inject_Z n.

(** Trades in whole quantities, whose buys together stay within 2^53: the
    quantities that the engine computes from them are whole numbers up to
    2^53, as held by binary64 as by the model. *)
Definition wholeQuantities (trades : list TradeRecord) : Prop :=
  Forall (fun t => wholeNumber (Trade.quantity t)) trades /\
  totalBought trades <= inject_Z (2 ^ 53).

(** No sell of the group asks for more than is held when it is processed:
    at every point of the chronological order, the quantity sold so far does
    not exceed the quantity bought so far. *)
Definition noOversell (trades : list TradeRecord) : Prop :=
  forall processed pending,
    sortTradesChronologically trades = processed ++ pending ->
    totalSold processed <= totalBought processed.

(** The grouping key of a trade, and one iteration of the grouping loop. *)
Definition holdingKey (t : TradeRecord) : string :=
  createHoldingKey (Trade.symbol t) (Trade.exchange t).

Definition groupStep (groups : JsMap (list TradeRecord)) (trade : TradeRecord) :=
  mapSet (holdingKey trade)
         (match mapGet (holdingKey trade) groups with Some g => g | None => [] end
          ++ [trade]) groups.

(** The holdings that one group adds to the result of [analyzePortfolio]. *)
Definition groupHoldings {R : Runtime} (now : Date) (g : list TradeRecord)
  : list Holding :=
  match HWG.accumulator (processTradesForHolding now g) with
  | Some acc => [holdingOfAccumulator now acc]
  | None => []
  end.

(** One iteration of the deduplication loop of [mergeTradebooks]. *)
Definition dedupStep (m : JsMap TradeRecord) (trade : TradeRecord) : JsMap TradeRecord :=
  if negb (mapHas (Trade.tradeId trade) m)
  then mapSet (Trade.tradeId trade) trade m
  else m.

(** A string without the separator of [createHoldingKey]. *)
Fixpoint noColon (s : string) : Prop :=
  match s with
  | EmptyString => True
  | String c s' => c <> ":"%char /\ noColon s'
  end.

(** [t] stands in [l] at a position before which its [tradeId] does not occur. *)
Definition firstOccurrence (l : list TradeRecord) (t : TradeRecord) : Prop :=
  exists before after,
    l = before ++ t :: after /\
    forall u, In u before -> Trade.tradeId u <> Trade.tradeId t.

(** Keep the records whose [tradeId] is not in [seen] and not met earlier. *)
Fixpoint keepFirst (seen : list string) (l : list TradeRecord) : list TradeRecord :=
  match l with
  | [] => []
  | t :: l' =>
      if existsb (String.eqb (Trade.tradeId t)) seen
      then keepFirst seen l'
      else t :: keepFirst (Trade.tradeId t :: seen) l'
  end.

(** The summary as the specification words it: a filter on the sell date,
    four sums of magnitudes selected by classification and sign, two
    differences. *)
Module SummarySpec.


End SummarySpec.

(** The holding period of a lot at [now], as the overlay tests it. *)
Definition isShortTermLot {R : Runtime} (now : Date) (lot : HoldingLot) : bool :=
  (differenceInDays now (Lot.purchaseDate lot) <=? 365)%Z.

Definition shortTermLots {R : Runtime} (now : Date) (lots : list HoldingLot)
  : list HoldingLot :=
  List.filter (isShortTermLot now) lots.
Definition longTermLots {R : Runtime} (now : Date) (lots : list HoldingLot)
  : list HoldingLot :=
  List.filter (fun lot => negb (isShortTermLot now lot)) lots.

(** ** Sample data on the UTC host *)
Module Sample.
Definition now : Date := Utc.date 2024 6 1.

Definition trade (id sym exch : string) (d : Date) (ty : TradeType) (q p : Q)
  : TradeRecord :=
  {| Trade.tradeId := id; Trade.symbol := sym; Trade.isin := "INE002A01018";
     Trade.tradeDate := d; Trade.exchange := exch; Trade.tradeType := ty;
     Trade.quantity := q; Trade.price := p |}.

Definition buy1 := trade "T1" "RELIANCE" "NSE" (Utc.date 2024 1 10) buy 50 2400.
Definition buy2 := trade "T2" "RELIANCE" "NSE" (Utc.date 2024 2 15) buy 50 2600.
Definition sell30 := trade "T3" "RELIANCE" "NSE" (Utc.date 2024 3 1) sell 30 2700.
Definition sell50 := trade "T4" "RELIANCE" "NSE" (Utc.date 2024 3 1) sell 50 2700.

(** A sell dated before the only buy of its group. *)
Definition sellEarly := trade "T5" "INFY" "NSE" (Utc.date 2024 1 5) sell 10 1500.
Definition buyLate := trade "T6" "INFY" "NSE" (Utc.date 2024 2 5) buy 10 1400.

(** A holding that an earlier overlay has priced. *)
Definition pricedHolding : Holding :=
  {| Holding.symbol := "RELIANCE"; Holding.isin := "INE002A01018";
     Holding.exchange := "NSE";
     Holding.lots := [Lot.mk 20 (Utc.date 2024 1 10) 2400];
     Holding.totalQuantity := 20; Holding.avgPurchasePrice := 2400;
     Holding.oldestPurchaseDate := Utc.date 2024 1 10;
     Holding.newestPurchaseDate := Utc.date 2024 1 10;
     Holding.classification := SHORT_TERM;
     Holding.currentPrice := Some 2300; Holding.pnl := Some (-2000);
     Holding.pnlPercent := Some (-25 # 6); Holding.isLoss := Some true;
     Holding.stQuantity := Some 20; Holding.ltQuantity := Some 0;
     Holding.stAvgPrice := Some 2400; Holding.ltAvgPrice := Some 0;
     Holding.stPnl := Some (-2000); Holding.ltPnl := Some 0 |}.

(** A partial price fetch: a quote for INFY only. *)
Definition infyQuote : gmap string NseQuote := {[ "INFY" := Quote.mk 1350 (-5) (-1 # 3) ]}.

(** A holding with one lot on each side of the 365-day boundary. *)
Definition straddling : Holding :=
  {| Holding.symbol := "INFY"; Holding.isin := "INE009A01021";
     Holding.exchange := "NSE";
     Holding.lots := [Lot.mk 10 (Utc.date 2022 5 1) 1500; Lot.mk 5 (Utc.date 2024 2 5) 1400];
     Holding.totalQuantity := 15; Holding.avgPurchasePrice := 4400 # 3;
     Holding.oldestPurchaseDate := Utc.date 2022 5 1;
     Holding.newestPurchaseDate := Utc.date 2024 2 5;
     Holding.classification := LONG_TERM;
     Holding.currentPrice := None; Holding.pnl := None;
     Holding.pnlPercent := None; Holding.isLoss := None;
     Holding.stQuantity := None; Holding.ltQuantity := None;
     Holding.stAvgPrice := None; Holding.ltAvgPrice := None;
     Holding.stPnl := None; Holding.ltPnl := None |}.


(** A tradebook with a buy of INFY and a buy of a symbol that names a
    property of [Object.prototype]; and a holding of that symbol with price
    fields set. *)
Definition constructorCsv : string :=
  (Plain.header ++ Plain.nl
   ++ "INFY,INE009A01021,2024-02-05,NSE,EQ,buy,10,1400,ORD1,TRD200" ++ Plain.nl
   ++ "constructor,INE002A01018,2024-01-10,NSE,EQ,buy,20,2400,ORD2,TRD201")%string.

Definition constructorHolding : Holding :=
  {| Holding.symbol := "constructor"; Holding.isin := "INE002A01018";
     Holding.exchange := "NSE";
     Holding.lots := [Lot.mk 20 (Utc.date 2024 1 10) 2400];
     Holding.totalQuantity := 20; Holding.avgPurchasePrice := 2400;
     Holding.oldestPurchaseDate := Utc.date 2024 1 10;
     Holding.newestPurchaseDate := Utc.date 2024 1 10;
     Holding.classification := SHORT_TERM;
     Holding.currentPrice := Some 2300; Holding.pnl := Some (-2000);
     Holding.pnlPercent := Some (-25 # 6); Holding.isLoss := Some true;
     Holding.stQuantity := Some 20; Holding.ltQuantity := Some 0;
     Holding.stAvgPrice := Some 2400; Holding.ltAvgPrice := Some 0;
     Holding.stPnl := Some (-2000); Holding.ltPnl := Some 0 |}.

(** Two trades of different (symbol, exchange) pairs with one grouping key. *)
Definition buyColon := trade "K1" "A:B" "C" (Utc.date 2024 1 10) buy 10 100.
Definition sellColon := trade "K2" "A" "B:C" (Utc.date 2024 2 15) sell 10 90.

Definition relianceQuote : gmap string NseQuote :=
  {[ "RELIANCE" := Quote.mk 2500 10 (2 # 5) ]}.
End Sample.

(** ** Vocabulary of the further properties *)

(** The lot that a buy trade appends. *)
Definition lotOfBuy (t : TradeRecord) : HoldingLot :=
  Lot.mk (Trade.quantity t) (Trade.tradeDate t) (Trade.price t).

(** [lot] is what is left of the buy [b]: same date and price, a positive
    quantity that does not exceed the one bought. *)
Definition lotOf (b : TradeRecord) (lot : HoldingLot) : Prop :=
  Trade.tradeType b = buy /\
  Lot.purchaseDate lot = Trade.tradeDate b /\
  Lot.purchasePrice lot = Trade.price b /\
  0 < Lot.quantity lot /\ Lot.quantity lot <= Trade.quantity b.

(** [e] records units of the buy [b] sold by the sell [s]. *)
Definition gainOf (b s : TradeRecord) (e : RealizedGainEntry) : Prop :=
  Trade.tradeType b = buy /\ Trade.tradeType s = sell /\
  Gain.symbol e = Trade.symbol s /\ Gain.exchange e = Trade.exchange s /\
  Gain.sellDate e = Trade.tradeDate s /\ Gain.sellPrice e = Trade.price s /\
  Gain.purchaseDate e = Trade.tradeDate b /\ Gain.purchasePrice e = Trade.price b /\
  0 < Gain.quantity e /\ Gain.quantity e <= Trade.quantity s /\
  Gain.quantity e <= Trade.quantity b.

(** The first non-empty ISIN of a list of trades, or the empty string. *)
Fixpoint firstIsin (trades : list TradeRecord) : string :=
  match trades with
  | [] => ""
  | t :: rest => if truthy (Trade.isin t) then Trade.isin t else firstIsin rest
  end.

(** All the orders that [handleHarvest] builds. *)
Definition harvestOrders (holdings : list Holding)
    (stclSelected ltclSelected : gset string) : list SellOrder :=
  ltclOrders (ltclOpportunities holdings) ltclSelected
    (stclOrders (stclOpportunities holdings) stclSelected []).

(** [o] sells the short-term part of [h], resp. its long-term part. *)
Definition sellsShortTermOf (h : Holding) (o : SellOrder) : Prop :=
  Order.symbol o = Holding.symbol h /\ Order.exchange o = Holding.exchange h /\
  Order.purchaseDate o = Holding.oldestPurchaseDate h /\
  Holding.currentPrice h = Some (Order.currentPrice o) /\
  Holding.stQuantity h = Some (Order.quantity o) /\
  Order.purchasePrice o = nullish (Holding.stAvgPrice h) (Holding.avgPurchasePrice h) /\
  exists pnl, Holding.stPnl h = Some pnl /\ pnl < 0 /\ Order.expectedLoss o == - pnl.

Definition sellsLongTermOf (h : Holding) (o : SellOrder) : Prop :=
  Order.symbol o = Holding.symbol h /\ Order.exchange o = Holding.exchange h /\
  Order.purchaseDate o = Holding.oldestPurchaseDate h /\
  Holding.currentPrice h = Some (Order.currentPrice o) /\
  Holding.ltQuantity h = Some (Order.quantity o) /\
  Order.purchasePrice o = nullish (Holding.ltAvgPrice h) (Holding.avgPurchasePrice h) /\
  exists pnl, Holding.ltPnl h = Some pnl /\ pnl < 0 /\ Order.expectedLoss o == - pnl.

(** What the loops of [handleHarvest] push for one opportunity. *)
Definition stclOrderOf (stclSelected : gset string) (opp : Holding) : list SellOrder :=
  stclOrders [opp] stclSelected [].
Definition ltclOrderOf (ltclSelected : gset string) (opp : Holding) : list SellOrder :=
  ltclOrders [opp] ltclSelected [].

(** The quote for [symbol] in the answer to the request number [j] of a
    call of [fetchQuotes], if that request succeeded and its answer has
    one. *)
Definition answeredQuote (fetchQuotesBatch : nat -> list string -> Outcome NseQuotesResponse)
    (chunks : list (list string)) (j : nat) (symbol : string) : option NseQuote :=
  match chunks !! j with
  | Some chunk =>
      match fetchQuotesBatch j chunk with
      | resolved response => default ∅ (Response.quotes response) !! symbol
      | rejected _ => None
      end
  | None => None
  end.

(** Twelve symbols, and an edge function whose first request fails and
    whose later requests quote one symbol. *)
Definition twelveSymbols : list string :=
  ["A"; "B"; "C"; "D"; "E"; "F"; "G"; "H"; "I"; "J"; "K"; "L"].

Definition flakyEdge (i : nat) (chunk : list string) : Outcome NseQuotesResponse :=
  match i with
  | O => rejected "Failed to fetch quotes: 502"
  | S _ => resolved (Response.mk (Some {[ "K" := Quote.mk 120 1 (5 # 6) ]}) None)
  end.

(** The store before any upload. *)
Definition emptyTradebook : Tradebook.t := Tradebook.mk [] [] [] [].

Section TradebookSteps.
Context {R : Runtime} {T : TextHost}.
Variable numberToString : Z -> string.

(** What a user can do to the store, and the stores so obtained. *)
Inductive storeStep : Tradebook.t -> Tradebook.t -> Prop :=
| step_add (files : list Incoming.t) (s : Tradebook.t) :
    storeStep s (addTradebooks numberToString files s)
| step_remove (fileId : string) (s : Tradebook.t) :
    storeStep s (removeTradebook fileId s)
| step_clear (s : Tradebook.t) :
    storeStep s (clearAllTradebooks s).

Inductive reachable : Tradebook.t -> Prop :=
| reachable_empty : reachable emptyTradebook
| reachable_step (s s' : Tradebook.t) :
    reachable s -> storeStep s s' -> reachable s'.
End TradebookSteps.

(** The sample text as a file read without error. *)
Definition sampleFile : Incoming.t :=
  Incoming.mk "file_1" "tradebook.csv" (resolved Plain.sampleCsv).

(** What every store that can be reached keeps: the merged trades are the
    merge of the trades kept per file; each file kept has trades, all of
    positive quantity and of a price that is not negative; each uploaded
    file counts at least one trade and its date range is in order. *)
Definition storeInvariant (s : Tradebook.t) : Prop :=
  Tradebook.allTrades s = mergeTradebooks (mapValues (Tradebook.tradesPerFile s)) /\
  Forall (fun entry =>
            snd entry <> [] /\
            Forall (fun t => 0 < Trade.quantity t /\ 0 <= Trade.price t) (snd entry))
         (Tradebook.tradesPerFile s) /\
  Forall (fun f => (0 < Uploaded.tradeCount f)%nat /\
                   (Uploaded.dateFrom f <= Uploaded.dateTo f)%Z)
         (Tradebook.uploadedFiles s).

(** * Properties *)

(** ** Comparisons on numbers *)

Lemma Qltb_lt (a b : Q) : Qltb a b = true <-> a < b.
Proof.
  unfold Qltb. rewrite Qlt_alt. destruct (a ?= b); intuition congruence.
Qed.

Lemma Qltb_ge (a b : Q) : Qltb a b = false <-> b <= a.
Proof.
  pose proof (Qltb_lt a b) as H. destruct (Qltb a b).
  - split; [discriminate | intros Hle].
    assert (a < b) by (apply H; reflexivity). lra.
  - split; [intros _ | reflexivity].
    apply Qnot_lt_le. intros Hlt. apply H in Hlt. discriminate.
Qed.

Lemma Qleb_le (a b : Q) : Qleb a b = true <-> a <= b.
Proof.
  unfold Qleb. rewrite Qle_alt. destruct (a ?= b); intuition congruence.
Qed.

Lemma Qleb_gt (a b : Q) : Qleb a b = false <-> b < a.
Proof.
  pose proof (Qleb_le a b) as H. destruct (Qleb a b).
  - split; [discriminate | intros Hlt].
    assert (a <= b) by (apply H; reflexivity). lra.
  - split; [intros _ | reflexivity].
    apply Qnot_le_lt. intros Hle. apply H in Hle. discriminate.
Qed.

(** ** The loop of [applyFifoSell] *)

Lemma fifoLoop_cons (lot : HoldingLot) (rest : list HoldingLot) (r : Q) :
  fifoLoop (lot :: rest) r =
  if Qltb 0 r then
    if Qleb (Lot.quantity lot) r then
      let '(rest', consumed, r') := fifoLoop rest (r - Lot.quantity lot) in
      (Lot.mk 0 (Lot.purchaseDate lot) (Lot.purchasePrice lot) :: rest',
       Lot.mk (Lot.quantity lot) (Lot.purchaseDate lot) (Lot.purchasePrice lot)
         :: consumed, r')
    else
      let '(rest', consumed, r') := fifoLoop rest 0 in
      (Lot.mk (Lot.quantity lot - r) (Lot.purchaseDate lot) (Lot.purchasePrice lot)
         :: rest',
       Lot.mk r (Lot.purchaseDate lot) (Lot.purchasePrice lot) :: consumed, r')
  else (lot :: rest, [], r).
Proof. reflexivity. Qed.

Lemma fifoLoop_stop (lots : list HoldingLot) (r : Q) :
  r <= 0 -> fifoLoop lots r = (lots, [], r).
Proof.
  intros Hr. destruct lots as [| lot rest]; [reflexivity |].
  rewrite fifoLoop_cons. rewrite (proj2 (Qltb_ge 0 r) Hr). reflexivity.
Qed.

(** ** Sums *)

Lemma Qsum_nil : Qsum [] = 0.
Proof. reflexivity. Qed.

Lemma Qsum_cons (x : Q) (l : list Q) : Qsum (x :: l) = x + Qsum l.
Proof. reflexivity. Qed.

Lemma Qsum_app (l1 l2 : list Q) : Qsum (l1 ++ l2) == Qsum l1 + Qsum l2.
Proof.
  induction l1 as [| x l1 IH]; cbn [app]; rewrite ?Qsum_nil, ?Qsum_cons;
    [lra | rewrite IH; lra].
Qed.

Lemma Qsum_nonneg (l : list Q) : Forall (fun x => 0 <= x) l -> 0 <= Qsum l.
Proof.
  induction 1 as [| x l Hx _ IH]; rewrite ?Qsum_nil, ?Qsum_cons; lra.
Qed.

Lemma Qsum_pos (l : list Q) : Forall (fun x => 0 < x) l -> l <> [] -> 0 < Qsum l.
Proof.
  intros Hall Hne. destruct Hall as [| x l Hx Hl]; [congruence |].
  rewrite Qsum_cons.
  assert (0 <= Qsum l)
    by (apply Qsum_nonneg; eapply Forall_impl; [exact Hl | cbn; intros; lra]).
  lra.
Qed.

Lemma Qsum_permutation (l1 l2 : list Q) : Permutation l1 l2 -> Qsum l1 == Qsum l2.
Proof.
  induction 1; rewrite ?Qsum_nil, ?Qsum_cons; lra.
Qed.

Lemma fold_left_Qplus {A : Type} (f : A -> Q) (l : list A) (a : Q) :
  fold_left (fun sum x => sum + f x) l a == a + Qsum (map f l).
Proof.
  revert a. induction l as [| x l IH]; intros a; cbn [fold_left map];
    rewrite ?Qsum_nil, ?Qsum_cons; [lra |].
  rewrite IH. lra.
Qed.

Lemma calculateTotalQuantity_sum (lots : list HoldingLot) :
  calculateTotalQuantity lots == lotsQuantity lots.
Proof.
  unfold calculateTotalQuantity, lotsQuantity. rewrite fold_left_Qplus. lra.
Qed.

Lemma lotsQuantity_nil : lotsQuantity [] = 0.
Proof. reflexivity. Qed.

Lemma lotsQuantity_cons (lot : HoldingLot) (lots : list HoldingLot) :
  lotsQuantity (lot :: lots) = Lot.quantity lot + lotsQuantity lots.
Proof. reflexivity. Qed.

Lemma lotsQuantity_app (l1 l2 : list HoldingLot) :
  lotsQuantity (l1 ++ l2) == lotsQuantity l1 + lotsQuantity l2.
Proof. unfold lotsQuantity. rewrite map_app. apply Qsum_app. Qed.

Lemma lotsQuantity_pos (lots : list HoldingLot) :
  Forall (fun lot => 0 < Lot.quantity lot) lots -> lots <> [] -> 0 < lotsQuantity lots.
Proof.
  intros Hall Hne. apply Qsum_pos.
  - apply Forall_map. exact Hall.
  - destruct lots; [congruence | discriminate].
Qed.

Lemma lotsQuantity_nonneg (lots : list HoldingLot) :
  Forall (fun lot => 0 <= Lot.quantity lot) lots -> 0 <= lotsQuantity lots.
Proof. intros Hall. apply Qsum_nonneg. apply Forall_map. exact Hall. Qed.

(** What one run of the loop does to positive lots. *)
Lemma fifoLoop_spec (lots : list HoldingLot) :
  Forall (fun lot => 0 < Lot.quantity lot) lots ->
  forall (r : Q) lots' consumed r',
    0 <= r ->
    fifoLoop lots r = (lots', consumed, r') ->
    lotsQuantity consumed == Qmin r (lotsQuantity lots) /\
    lotsQuantity lots' == lotsQuantity lots - lotsQuantity consumed /\
    r' == r - lotsQuantity consumed /\
    Forall (fun lot => 0 <= Lot.quantity lot) lots' /\
    Forall (fun c => 0 < Lot.quantity c) consumed /\
    Forall2 (fun lot lot' =>
               Lot.purchaseDate lot' = Lot.purchaseDate lot /\
               Lot.purchasePrice lot' = Lot.purchasePrice lot /\
               Lot.quantity lot' <= Lot.quantity lot) lots lots'.
Proof.
  induction 1 as [| lot rest Hlot Hrest IH]; intros r lots' consumed r' Hr Hloop.
  - cbn in Hloop. injection Hloop as <- <- <-.
    rewrite lotsQuantity_nil.
    repeat split; try constructor; try lra.
    rewrite Q.min_r by lra. lra.
  - assert (Hsum : 0 <= lotsQuantity rest)
      by (apply lotsQuantity_nonneg; eapply Forall_impl; [exact Hrest | cbn; intros; lra]).
    rewrite fifoLoop_cons in Hloop. rewrite lotsQuantity_cons.
    destruct (Qltb 0 r) eqn:Epos.
    + apply Qltb_lt in Epos.
      destruct (Qleb (Lot.quantity lot) r) eqn:Efull.
      * apply Qleb_le in Efull.
        destruct (fifoLoop rest (r - Lot.quantity lot)) as [[rest' cs] rr] eqn:Erec.
        injection Hloop as <- <- <-.
        destruct (IH (r - Lot.quantity lot) _ _ _ ltac:(lra) Erec) as (Hc & Hl & Hr' & Hnn & Hcp & Hsame).
        rewrite !lotsQuantity_cons. cbn [Lot.quantity].
        repeat split.
        -- rewrite Hc.
           destruct (Qlt_le_dec (r - Lot.quantity lot) (lotsQuantity rest)).
           ++ rewrite Q.min_l by lra. rewrite Q.min_l by lra. lra.
           ++ rewrite Q.min_r by lra. rewrite Q.min_r by lra. lra.
        -- rewrite Hl. lra.
        -- rewrite Hr'. lra.
        -- constructor; [cbn; lra | exact Hnn].
        -- constructor; [exact Hlot | exact Hcp].
        -- constructor; [cbn; repeat split; lra | exact Hsame].
      * apply Qleb_gt in Efull.
        rewrite fifoLoop_stop in Hloop by lra.
        injection Hloop as <- <- <-.
        rewrite !lotsQuantity_cons, lotsQuantity_nil. cbn [Lot.quantity].
        repeat split.
        -- rewrite Q.min_l by lra. lra.
        -- lra.
        -- lra.
        -- constructor; [cbn; lra |].
           eapply Forall_impl; [exact Hrest | cbn; intros; lra].
        -- constructor; [exact Epos | constructor].
        -- constructor; [cbn; repeat split; lra |].
           clear. induction rest; constructor; [repeat split; lra | assumption].
    + apply Qltb_ge in Epos. injection Hloop as <- <- <-.
      assert (Hr0 : r == 0) by lra.
      rewrite !lotsQuantity_cons, lotsQuantity_nil.
      repeat split.
      * rewrite Q.min_l by lra. lra.
      * lra.
      * lra.
      * constructor; [lra |]. eapply Forall_impl; [exact Hrest | cbn; intros; lra].
      * constructor.
      * constructor; [repeat split; lra |].
        clear. induction rest; constructor; [repeat split; lra | assumption].
Qed.

(** ** The sell and its clean-up *)

Lemma applyFifoSell_lots (now : Date) (lots : list HoldingLot) (q : Q) :
  Fifo.lots (applyFifoSell now lots q) = fst (fst (fifoLoop lots q)).
Proof.
  unfold applyFifoSell. destruct (fifoLoop lots q) as [[lots' consumed] r].
  destruct (fold_left _ consumed _) as [[tv tq] od]. reflexivity.
Qed.

Lemma applyFifoSell_consumedLots (now : Date) (lots : list HoldingLot) (q : Q) :
  Fifo.consumedLots (applyFifoSell now lots q) = snd (fst (fifoLoop lots q)).
Proof.
  unfold applyFifoSell. destruct (fifoLoop lots q) as [[lots' consumed] r].
  destruct (fold_left _ consumed _) as [[tv tq] od]. reflexivity.
Qed.

Lemma applyFifoSell_warning (now : Date) (lots : list HoldingLot) (q : Q) :
  Fifo.warning (applyFifoSell now lots q) =
  if Qltb 0 (snd (fifoLoop lots q)) then Some (snd (fifoLoop lots q)) else None.
Proof.
  unfold applyFifoSell. destruct (fifoLoop lots q) as [[lots' consumed] r].
  destruct (fold_left _ consumed _) as [[tv tq] od]. reflexivity.
Qed.

Lemma removeEmptyLots_positive (lots : list HoldingLot) :
  Forall (fun lot => 0 < Lot.quantity lot) (removeEmptyLots lots).
Proof.
  apply List.Forall_forall. intros lot Hin.
  apply filter_In in Hin. apply Qltb_lt. apply Hin.
Qed.

Lemma removeEmptyLots_quantity (lots : list HoldingLot) :
  Forall (fun lot => 0 <= Lot.quantity lot) lots ->
  lotsQuantity (removeEmptyLots lots) == lotsQuantity lots.
Proof.
  induction 1 as [| lot lots Hlot _ IH]; [reflexivity |].
  cbn [removeEmptyLots List.filter]. fold (removeEmptyLots lots).
  destruct (Qltb 0 (Lot.quantity lot)) eqn:E.
  - rewrite !lotsQuantity_cons, IH. reflexivity.
  - apply Qltb_ge in E. rewrite lotsQuantity_cons, IH. lra.
Qed.

Lemma removeEmptyLots_length (lots : list HoldingLot) :
  (length (removeEmptyLots lots) <= length lots)%nat.
Proof.
  induction lots as [| lot lots IH]; [reflexivity |].
  cbn [removeEmptyLots List.filter]. fold (removeEmptyLots lots).
  destruct (Qltb 0 (Lot.quantity lot)); cbn [length]; lia.
Qed.

Lemma gainsQuantity_entries {R : Runtime} (trade : TradeRecord) (consumed : list HoldingLot) :
  gainsQuantity (map (realizedGainEntry trade) consumed) = lotsQuantity consumed.
Proof.
  unfold gainsQuantity, lotsQuantity. rewrite map_map. reflexivity.
Qed.

Section EngineSteps.
Context {R : Runtime}.

Lemma processTrade_buy (now : Date) (acc : HoldingAccumulator)
    (gains : list RealizedGainEntry) (t : TradeRecord) :
  Trade.tradeType t = buy ->
  Acc.lots (fst (processTrade now (acc, gains) t)) =
    Acc.lots acc ++ [Lot.mk (Trade.quantity t) (Trade.tradeDate t) (Trade.price t)] /\
  snd (processTrade now (acc, gains) t) = gains.
Proof. intros Ht. unfold processTrade. rewrite Ht. split; reflexivity. Qed.

Lemma processTrade_sell (now : Date) (acc : HoldingAccumulator)
    (gains : list RealizedGainEntry) (t : TradeRecord) :
  Trade.tradeType t = sell ->
  Acc.lots (fst (processTrade now (acc, gains) t)) =
    removeEmptyLots (Fifo.lots (applyFifoSell now (Acc.lots acc) (Trade.quantity t))) /\
  snd (processTrade now (acc, gains) t) =
    gains ++ map (realizedGainEntry t)
                 (Fifo.consumedLots (applyFifoSell now (Acc.lots acc) (Trade.quantity t))).
Proof. intros Ht. unfold processTrade. rewrite Ht. split; reflexivity. Qed.

Lemma processTrade_identity (now : Date) (st : HoldingAccumulator * list RealizedGainEntry)
    (t : TradeRecord) :
  Acc.symbol (fst (processTrade now st t)) = Acc.symbol (fst st) /\
  Acc.exchange (fst (processTrade now st t)) = Acc.exchange (fst st).
Proof.
  destruct st as [acc gains]. unfold processTrade.
  destruct (Trade.tradeType t); split; reflexivity.
Qed.

Lemma processTrade_positive (now : Date) (st : HoldingAccumulator * list RealizedGainEntry)
    (t : TradeRecord) :
  positiveQuantity t ->
  Forall (fun lot => 0 < Lot.quantity lot) (Acc.lots (fst st)) ->
  Forall (fun lot => 0 < Lot.quantity lot) (Acc.lots (fst (processTrade now st t))).
Proof.
  intros Ht Hpos. destruct st as [acc gains]. cbn [fst] in Hpos.
  destruct (Trade.tradeType t) eqn:Ety.
  - rewrite (proj1 (processTrade_buy now acc gains t Ety)).
    apply Forall_app. split; [exact Hpos |]. constructor; [exact Ht | constructor].
  - rewrite (proj1 (processTrade_sell now acc gains t Ety)).
    apply removeEmptyLots_positive.
Qed.

Lemma engine_positive (now : Date) (processed : list TradeRecord)
    (st : HoldingAccumulator * list RealizedGainEntry) :
  Forall positiveQuantity processed ->
  Forall (fun lot => 0 < Lot.quantity lot) (Acc.lots (fst st)) ->
  Forall (fun lot => 0 < Lot.quantity lot)
         (Acc.lots (fst (fold_left (processTrade now) processed st))).
Proof.
  intros Hvalid. revert st.
  induction Hvalid as [| t l Ht _ IH]; intros st Hpos; [exact Hpos |].
  cbn [fold_left]. apply IH. apply processTrade_positive; assumption.
Qed.

(** The effect of one sell on an accumulator with positive lots. *)
Lemma sell_step (now : Date) (acc : HoldingAccumulator)
    (gains : list RealizedGainEntry) (s : TradeRecord) :
  Forall (fun lot => 0 < Lot.quantity lot) (Acc.lots acc) ->
  positiveQuantity s ->
  Trade.tradeType s = sell ->
  let result := applyFifoSell now (Acc.lots acc) (Trade.quantity s) in
  let emitted := map (realizedGainEntry s) (Fifo.consumedLots result) in
  let st' := processTrade now (acc, gains) s in
  snd st' = gains ++ emitted /\
  gainsQuantity emitted == Qmin (Trade.quantity s) (lotsQuantity (Acc.lots acc)) /\
  Forall (fun e => 0 < Gain.quantity e) emitted /\
  Forall (fun lot => 0 <= Lot.quantity lot) (Fifo.lots result) /\
  Acc.lots (fst st') = removeEmptyLots (Fifo.lots result) /\
  lotsQuantity (Acc.lots (fst st')) ==
    lotsQuantity (Acc.lots acc) - gainsQuantity emitted /\
  (lotsQuantity (Acc.lots acc) < Trade.quantity s ->
   exists unmatched, Fifo.warning result = Some unmatched /\
     unmatched == Trade.quantity s - lotsQuantity (Acc.lots acc)) /\
  (Trade.quantity s <= lotsQuantity (Acc.lots acc) -> Fifo.warning result = None).
Proof.
  intros Hpos Hs Hty result emitted st'.
  destruct (processTrade_sell now acc gains s Hty) as [Hlots Hgains].
  fold result in Hlots, Hgains. fold emitted in Hgains. fold st' in Hlots, Hgains.
  destruct (fifoLoop (Acc.lots acc) (Trade.quantity s)) as [[lots' consumed] r] eqn:Eloop.
  assert (Hk : 0 <= Trade.quantity s) by (unfold positiveQuantity in Hs; lra).
  destruct (fifoLoop_spec _ Hpos _ _ _ _ Hk Eloop)
    as (Hc & Hl & Hr & Hnn & Hcp & _).
  assert (Erl : Fifo.lots result = lots')
    by (unfold result; rewrite applyFifoSell_lots, Eloop; reflexivity).
  assert (Erc : Fifo.consumedLots result = consumed)
    by (unfold result; rewrite applyFifoSell_consumedLots, Eloop; reflexivity).
  assert (Erw : Fifo.warning result = if Qltb 0 r then Some r else None)
    by (unfold result; rewrite applyFifoSell_warning, Eloop; reflexivity).
  assert (Eq : gainsQuantity emitted = lotsQuantity consumed)
    by (unfold emitted; rewrite Erc; apply gainsQuantity_entries).
  split; [exact Hgains |].
  split; [rewrite Eq; exact Hc |].
  split.
  { unfold emitted. rewrite Erc. apply Forall_map.
    eapply Forall_impl; [exact Hcp | cbn; intros; assumption]. }
  split; [rewrite Erl; exact Hnn |].
  split; [exact Hlots |].
  split.
  { rewrite Hlots, Erl, removeEmptyLots_quantity by exact Hnn.
    rewrite Eq. exact Hl. }
  split.
  - intros Hover. exists r. rewrite Erw.
    assert (Hrv : r == Trade.quantity s - lotsQuantity (Acc.lots acc)).
    { rewrite Hr, Hc. rewrite Q.min_r by lra. reflexivity. }
    rewrite (proj2 (Qltb_lt 0 r)) by lra. split; [reflexivity | exact Hrv].
  - intros Hfit. rewrite Erw.
    assert (Hrv : r == 0).
    { rewrite Hr, Hc. rewrite Q.min_l by lra. lra. }
    rewrite (proj2 (Qltb_ge 0 r)) by lra. reflexivity.
Qed.
End EngineSteps.

(** ** The stable sort *)

Lemma insertBy_permutation {A : Type} (cmp : A -> A -> Z) (x : A) (l : list A) :
  Permutation (insertBy cmp x l) (x :: l).
Proof.
  induction l as [| y l IH]; cbn [insertBy]; [reflexivity |].
  destruct (cmp x y <=? 0)%Z; [reflexivity |].
  rewrite IH. apply perm_swap.
Qed.

Lemma sortBy_permutation {A : Type} (cmp : A -> A -> Z) (l : list A) :
  Permutation (sortBy cmp l) l.
Proof.
  induction l as [| x l IH]; [reflexivity |].
  unfold sortBy in *. cbn [fold_right].
  rewrite insertBy_permutation. apply perm_skip. exact IH.
Qed.

Lemma sortBy_In {A : Type} (cmp : A -> A -> Z) (l : list A) (x : A) :
  In x (sortBy cmp l) <-> In x l.
Proof.
  split; apply Permutation_in;
    [apply sortBy_permutation | symmetry; apply sortBy_permutation].
Qed.

Lemma sortBy_Forall {A : Type} (cmp : A -> A -> Z) (P : A -> Prop) (l : list A) :
  Forall P l -> Forall P (sortBy cmp l).
Proof.
  intros Hall. apply List.Forall_forall. intros x Hx. apply sortBy_In in Hx.
  exact (proj1 (List.Forall_forall _ _) Hall x Hx).
Qed.

Lemma sortBy_nonempty {A : Type} (cmp : A -> A -> Z) (l : list A) :
  l <> [] -> sortBy cmp l <> [].
Proof.
  intros Hne Hnil. apply Hne.
  pose proof (sortBy_permutation cmp l) as P. rewrite Hnil in P.
  apply Permutation_nil in P. exact P.
Qed.

(** ** The insertion-ordered map *)

Lemma mapSet_absent {V : Type} (k : string) (v : V) (m : JsMap V) :
  mapGet k m = None -> mapSet k v m = m ++ [(k, v)].
Proof.
  induction m as [| [k' v'] m IH]; cbn [mapGet mapSet app]; [reflexivity |].
  destruct (String.eqb k k'); [discriminate |].
  intros Hnone. rewrite IH by exact Hnone. reflexivity.
Qed.

Lemma mapGet_mapSet_eq {V : Type} (k : string) (v : V) (m : JsMap V) :
  mapGet k (mapSet k v m) = Some v.
Proof.
  induction m as [| [k' v'] m IH]; cbn [mapGet mapSet].
  - rewrite String.eqb_refl. reflexivity.
  - destruct (String.eqb k k') eqn:E; cbn [mapGet]; rewrite E; [reflexivity | exact IH].
Qed.

Lemma mapGet_mapSet_ne {V : Type} (k k0 : string) (v : V) (m : JsMap V) :
  k0 <> k -> mapGet k0 (mapSet k v m) = mapGet k0 m.
Proof.
  intros Hne. induction m as [| [k' v'] m IH]; cbn [mapGet mapSet].
  - rewrite (proj2 (String.eqb_neq k0 k) Hne). reflexivity.
  - destruct (String.eqb k k') eqn:E; cbn [mapGet].
    + apply String.eqb_eq in E. subst k'.
      rewrite (proj2 (String.eqb_neq k0 k) Hne). reflexivity.
    + rewrite IH. reflexivity.
Qed.

Lemma mapGet_None_keys {V : Type} (k : string) (m : JsMap V) :
  mapGet k m = None <-> ~ In k (map fst m).
Proof.
  induction m as [| [k' v'] m IH]; cbn [mapGet map fst In]; [tauto |].
  destruct (String.eqb k k') eqn:E.
  - apply String.eqb_eq in E. subst. split; [discriminate | tauto].
  - apply String.eqb_neq in E. rewrite IH. split; [intros H [Hk | Hin] | ]; try tauto.
    congruence.
Qed.

Lemma mapSet_keys {V : Type} (k : string) (v : V) (m : JsMap V) :
  map fst (mapSet k v m) =
  if mapHas k m then map fst m else map fst m ++ [k].
Proof.
  unfold mapHas.
  induction m as [| [k' v'] m IH]; cbn [mapGet mapSet map fst app]; [reflexivity |].
  destruct (String.eqb k k') eqn:E; [reflexivity |].
  cbn [map fst]. rewrite IH. destruct (mapGet k m); reflexivity.
Qed.

Lemma mapSet_NoDup {V : Type} (k : string) (v : V) (m : JsMap V) :
  NoDup (map fst m) -> NoDup (map fst (mapSet k v m)).
Proof.
  intros Hnd. rewrite mapSet_keys. unfold mapHas.
  destruct (mapGet k m) eqn:E; [exact Hnd |].
  apply mapGet_None_keys in E.
  apply NoDup_app. split; [exact Hnd |]. split.
  - intros x Hx Hin. apply list_elem_of_In in Hx, Hin.
    destruct Hin as [<- | []]. contradiction.
  - apply NoDup_singleton.
Qed.

Lemma mapGet_In {V : Type} (k : string) (v : V) (m : JsMap V) :
  NoDup (map fst m) -> In (k, v) m -> mapGet k m = Some v.
Proof.
  induction m as [| [k' v'] m IH]; cbn [mapGet map fst In]; [tauto |].
  intros Hnd [Heq | Hin].
  - injection Heq as -> ->. rewrite String.eqb_refl. reflexivity.
  - apply NoDup_cons in Hnd. destruct Hnd as [Hk' Hnd].
    destruct (String.eqb k k') eqn:E.
    + apply String.eqb_eq in E. subst k'. exfalso. apply Hk'.
      apply list_elem_of_In. apply (in_map fst) in Hin. exact Hin.
    + apply IH; assumption.
Qed.

Lemma mapGet_Some_In {V : Type} (k : string) (v : V) (m : JsMap V) :
  mapGet k m = Some v -> In (k, v) m.
Proof.
  induction m as [| [k' v'] m IH]; cbn [mapGet In]; [discriminate |].
  destruct (String.eqb k k') eqn:E.
  - apply String.eqb_eq in E. subst. intros [= ->]. left. reflexivity.
  - intros H. right. apply IH. exact H.
Qed.

(** ** Groups *)

Lemma groupTradesByHolding_fold (trades : list TradeRecord) :
  groupTradesByHolding trades = fold_left groupStep trades [].
Proof. reflexivity. Qed.

Lemma group_fold_get (k : string) (trades : list TradeRecord) :
  forall m : JsMap (list TradeRecord),
    mapGet k (fold_left groupStep trades m) =
    match mapGet k m, List.filter (fun t => String.eqb k (holdingKey t)) trades with
    | None, [] => None
    | None, g => Some g
    | Some g0, g => Some (g0 ++ g)
    end.
Proof.
  induction trades as [| t l IH]; intros m; cbn [fold_left List.filter].
  - destruct (mapGet k m); [rewrite app_nil_r |]; reflexivity.
  - rewrite IH. unfold groupStep.
    destruct (String.eqb k (holdingKey t)) eqn:E.
    + apply String.eqb_eq in E. subst k. rewrite mapGet_mapSet_eq.
      destruct (mapGet (holdingKey t) m) as [g0 |].
      * rewrite <- app_assoc. reflexivity.
      * reflexivity.
    + apply String.eqb_neq in E. rewrite mapGet_mapSet_ne by exact E. reflexivity.
Qed.

Lemma group_fold_NoDup (trades : list TradeRecord) :
  forall m : JsMap (list TradeRecord),
    NoDup (map fst m) -> NoDup (map fst (fold_left groupStep trades m)).
Proof.
  induction trades as [| t l IH]; intros m Hnd; [exact Hnd |].
  cbn [fold_left]. apply IH. apply mapSet_NoDup. exact Hnd.
Qed.

Lemma groups_NoDup (trades : list TradeRecord) :
  NoDup (map fst (groupTradesByHolding trades)).
Proof.
  rewrite groupTradesByHolding_fold. apply group_fold_NoDup. constructor.
Qed.

(** A group is the sub-sequence of the trades with its key, in input order. *)
Lemma group_members (trades : list TradeRecord) (k : string) (g : list TradeRecord) :
  In (k, g) (groupTradesByHolding trades) <->
  g = List.filter (fun t => String.eqb k (holdingKey t)) trades /\ g <> [].
Proof.
  pose proof (group_fold_get k trades []) as Hget.
  rewrite <- groupTradesByHolding_fold in Hget. cbn [mapGet] in Hget.
  split.
  - intros Hin. apply mapGet_In in Hin; [| apply groups_NoDup].
    rewrite Hin in Hget.
    destruct (List.filter _ trades) as [| t f]; [discriminate |].
    injection Hget as ->. split; [reflexivity | discriminate].
  - intros [-> Hne]. apply mapGet_Some_In. rewrite Hget.
    destruct (List.filter _ trades); [congruence | reflexivity].
Qed.

Lemma group_subset (trades : list TradeRecord) (k : string) (g : list TradeRecord) :
  In (k, g) (groupTradesByHolding trades) ->
  forall t, In t g -> In t trades /\ holdingKey t = k.
Proof.
  intros Hin t Ht. apply group_members in Hin. destruct Hin as [-> _].
  apply filter_In in Ht. destruct Ht as [Ht Hk].
  apply String.eqb_eq in Hk. split; [exact Ht | congruence].
Qed.

(** ** One group, then all groups *)

Section Analysis.
Context {R : Runtime}.

(** [processTradesForHolding] is a run of [processTrade] over the sorted
    group from an accumulator without lots. *)
Lemma processTradesForHolding_run (now : Date) (trades : list TradeRecord) :
  exists acc0,
    Acc.lots acc0 = [] /\
    let st := fold_left (processTrade now) (sortTradesChronologically trades) (acc0, []) in
    HWG.realizedGains (processTradesForHolding now trades) = snd st /\
    HWG.accumulator (processTradesForHolding now trades) =
      match Acc.lots (fst st) with [] => None | _ => Some (fst st) end.
Proof.
  unfold processTradesForHolding.
  destruct trades as [| t0 l].
  - exists (Acc.mk "" "" "" []). cbn. repeat split.
  - destruct (sortTradesChronologically (t0 :: l)) as [| firstTrade rest] eqn:Es.
    + exfalso. revert Es. apply sortBy_nonempty. discriminate.
    + exists (Acc.mk (Trade.symbol firstTrade) (Trade.isin firstTrade)
                     (Trade.exchange firstTrade) []).
      split; [| cbv zeta].
      2:{ destruct (fold_left (processTrade now) (firstTrade :: rest) _)
            as [acc gains] eqn:Ef.
          cbn [fst snd]. destruct (Acc.lots acc); split; reflexivity. }
      reflexivity.
Qed.

Lemma processGroup_fold (now : Date) (groups : list (list TradeRecord)) :
  forall holdings gains,
    fold_left (processGroup now) groups (holdings, gains) =
    (holdings ++ flat_map (groupHoldings now) groups,
     gains ++ flat_map (fun g => HWG.realizedGains (processTradesForHolding now g)) groups).
Proof.
  induction groups as [| g l IH]; intros holdings gains; cbn [fold_left flat_map].
  - rewrite !app_nil_r. reflexivity.
  - unfold processGroup at 2.
    assert (Hg : groupHoldings now g =
                 match HWG.accumulator (processTradesForHolding now g) with
                 | Some acc => [holdingOfAccumulator now acc]
                 | None => []
                 end) by reflexivity.
    rewrite Hg.
    destruct (HWG.accumulator (processTradesForHolding now g));
      rewrite IH; rewrite <- ?app_assoc; reflexivity.
Qed.

(** The holdings returned are those of the groups whose accumulator
    survives. *)
Lemma analyzePortfolio_holdings (now : Date) (trades : list TradeRecord) (h : Holding) :
  In h (Portfolio.holdings (analyzePortfolio now trades)) <->
  exists k g acc,
    In (k, g) (groupTradesByHolding trades) /\
    HWG.accumulator (processTradesForHolding now g) = Some acc /\
    h = holdingOfAccumulator now acc.
Proof.
  unfold analyzePortfolio. destruct trades as [| t0 l].
  - cbn. split; [tauto | intros (k & g & acc & [] & _)].
  - set (trades := t0 :: l).
    rewrite processGroup_fold. cbn [Portfolio.holdings app].
    rewrite sortBy_In, in_flat_map. unfold mapValues. split.
    + intros (g & Hg & Hh). apply in_map_iff in Hg.
      destruct Hg as ([k g'] & <- & Hin). cbn [snd] in Hh.
      unfold groupHoldings in Hh.
      destruct (HWG.accumulator (processTradesForHolding now g')) as [acc |] eqn:Ea;
        [| destruct Hh].
      destruct Hh as [<- | []]. exists k, g', acc. repeat split; assumption.
    + intros (k & g & acc & Hin & Ha & ->). exists g. split.
      * apply in_map_iff. exists (k, g). split; [reflexivity | exact Hin].
      * unfold groupHoldings. rewrite Ha. left. reflexivity.
Qed.

Lemma analyzePortfolio_gains (now : Date) (trades : list TradeRecord)
    (e : RealizedGainEntry) :
  In e (Summary.entries (Portfolio.realizedGains (analyzePortfolio now trades))) ->
  exists k g,
    In (k, g) (groupTradesByHolding trades) /\
    In e (HWG.realizedGains (processTradesForHolding now g)).
Proof.
  unfold analyzePortfolio. destruct trades as [| t0 l].
  - cbn. tauto.
  - set (trades := t0 :: l).
    rewrite processGroup_fold. cbn [Portfolio.realizedGains app].
    unfold summarizeRealizedGains.
    destruct (fold_left _ _ (0, 0, 0, 0)) as [[[a b] c] d].
    cbn [Summary.entries]. intros Hin. apply filter_In in Hin.
    destruct Hin as [Hin _]. apply in_flat_map in Hin.
    destruct Hin as (g & Hg & He). unfold mapValues in Hg.
    apply in_map_iff in Hg. destruct Hg as ([k g'] & <- & Hin).
    exists k, g'. split; assumption.
Qed.
Lemma accumulator_lots_positive (now : Date) (g : list TradeRecord)
    (acc : HoldingAccumulator) :
  Forall positiveQuantity g ->
  HWG.accumulator (processTradesForHolding now g) = Some acc ->
  Acc.lots acc <> [] /\ Forall (fun lot => 0 < Lot.quantity lot) (Acc.lots acc).
Proof.
  intros Hvalid Hacc.
  destruct (processTradesForHolding_run now g) as (acc0 & Hempty & _ & Ha).
  rewrite Ha in Hacc.
  assert (Hpos : Forall (fun lot => 0 < Lot.quantity lot)
            (Acc.lots (fst (fold_left (processTrade now)
                              (sortTradesChronologically g) (acc0, []))))).
  { apply engine_positive.
    - apply sortBy_Forall. exact Hvalid.
    - cbn [fst]. rewrite Hempty. constructor. }
  destruct (Acc.lots (fst (fold_left _ _ _))) as [| lot lots] eqn:El; [discriminate |].
  injection Hacc as <-. rewrite El. split; [discriminate | exact Hpos].
Qed.

(** What [analyzePortfolio] returns as a holding. *)
Lemma returned_holding_shape (now : Date) (trades : list TradeRecord) (h : Holding) :
  Forall positiveQuantity trades ->
  In h (Portfolio.holdings (analyzePortfolio now trades)) ->
  Holding.lots h <> [] /\
  Forall (fun lot => 0 < Lot.quantity lot) (Holding.lots h) /\
  Holding.totalQuantity h = calculateTotalQuantity (Holding.lots h) /\
  Holding.avgPurchasePrice h = calculateAvgPurchasePrice (Holding.lots h).
Proof.
  intros Hvalid Hh. apply analyzePortfolio_holdings in Hh.
  destruct Hh as (k & g & acc & Hin & Ha & ->).
  assert (Hg : Forall positiveQuantity g).
  { apply List.Forall_forall. intros t Ht.
    destruct (group_subset trades k g Hin t Ht) as [Htr _].
    exact (proj1 (List.Forall_forall _ _) Hvalid t Htr). }
  destruct (accumulator_lots_positive now g acc Hg Ha) as [Hne Hpos].
  cbn [holdingOfAccumulator Holding.lots Holding.totalQuantity Holding.avgPurchasePrice].
  repeat split; assumption.
Qed.
End Analysis.

(** ** The per-lot split of the overlay *)

Lemma lotsCost_nil : lotsCost [] = 0.
Proof. reflexivity. Qed.

Lemma lotsCost_cons (lot : HoldingLot) (lots : list HoldingLot) :
  lotsCost (lot :: lots) = Lot.quantity lot * Lot.purchasePrice lot + lotsCost lots.
Proof. reflexivity. Qed.

Section Split.
Context {R : Runtime}.

Lemma split_fold (now : Date) (lots : list HoldingLot) :
  forall stQuantity ltQuantity stTotalCost ltTotalCost : Q,
    let '(stQuantity', ltQuantity', stTotalCost', ltTotalCost') :=
      fold_left
        (fun '(stQuantity, ltQuantity, stTotalCost, ltTotalCost) lot =>
           let holdingDays := differenceInDays now (Lot.purchaseDate lot) in
           let lotCost := Lot.quantity lot * Lot.purchasePrice lot in
           if (holdingDays <=? 365)%Z
           then (stQuantity + Lot.quantity lot, ltQuantity,
                 stTotalCost + lotCost, ltTotalCost)
           else (stQuantity, ltQuantity + Lot.quantity lot,
                 stTotalCost, ltTotalCost + lotCost))
        lots (stQuantity, ltQuantity, stTotalCost, ltTotalCost) in
    stQuantity' == stQuantity + lotsQuantity (shortTermLots now lots) /\
    ltQuantity' == ltQuantity + lotsQuantity (longTermLots now lots) /\
    stTotalCost' == stTotalCost + lotsCost (shortTermLots now lots) /\
    ltTotalCost' == ltTotalCost + lotsCost (longTermLots now lots).
Proof.
  induction lots as [| lot lots IH]; intros a b c d; cbn [fold_left].
  - unfold shortTermLots, longTermLots. cbn [List.filter].
    rewrite lotsQuantity_nil, lotsCost_nil. repeat split; lra.
  - unfold shortTermLots, longTermLots in *. cbn [List.filter].
    cbv zeta.
    change (differenceInDays now (Lot.purchaseDate lot) <=? 365)%Z
      with (isShortTermLot now lot).
    destruct (isShortTermLot now lot); cbn [negb].
    + specialize (IH (a + Lot.quantity lot) b
                     (c + Lot.quantity lot * Lot.purchasePrice lot) d).
      destruct (fold_left _ lots _) as [[[a' b'] c'] d'].
      destruct IH as (Ha & Hb & Hc & Hd).
      rewrite lotsQuantity_cons, lotsCost_cons.
      repeat split; try assumption; [rewrite Ha | rewrite Hc]; lra.
    + specialize (IH a (b + Lot.quantity lot) c
                     (d + Lot.quantity lot * Lot.purchasePrice lot)).
      destruct (fold_left _ lots _) as [[[a' b'] c'] d'].
      destruct IH as (Ha & Hb & Hc & Hd).
      rewrite lotsQuantity_cons, lotsCost_cons.
      repeat split; try assumption; [rewrite Hb | rewrite Hd]; lra.
Qed.

Lemma split_partition (now : Date) (lots : list HoldingLot) :
  lotsQuantity (shortTermLots now lots) + lotsQuantity (longTermLots now lots)
    == lotsQuantity lots /\
  lotsCost (shortTermLots now lots) + lotsCost (longTermLots now lots)
    == lotsCost lots.
Proof.
  unfold shortTermLots, longTermLots.
  induction lots as [| lot lots [IHq IHc]]; cbn [List.filter].
  - rewrite lotsQuantity_nil, lotsCost_nil. split; lra.
  - destruct (isShortTermLot now lot); cbn [negb];
      rewrite !lotsQuantity_cons, !lotsCost_cons; split; lra.
Qed.

(** The fields of [classifyLotsByHoldingPeriod] in terms of the two
    sub-lists of lots. *)
Lemma classifyLots_fields (now : Date) (lots : list HoldingLot) (currentPrice : Q) :
  let c := classifyLotsByHoldingPeriod now lots currentPrice in
  let st := shortTermLots now lots in
  let lt := longTermLots now lots in
  LotClass.stQuantity c == lotsQuantity st /\
  LotClass.ltQuantity c == lotsQuantity lt /\
  LotClass.stPnl c == lotsQuantity st * currentPrice - lotsCost st /\
  LotClass.ltPnl c == lotsQuantity lt * currentPrice - lotsCost lt /\
  (Forall (fun lot => 0 < Lot.quantity lot) lots ->
   LotClass.stQuantity c * LotClass.stAvgPrice c == lotsCost st /\
   LotClass.ltQuantity c * LotClass.ltAvgPrice c == lotsCost lt).
Proof.
  intros c st lt. unfold c, classifyLotsByHoldingPeriod.
  pose proof (split_fold now lots 0 0 0 0) as Hfold.
  destruct (fold_left _ lots (0, 0, 0, 0)) as [[[sq lq] sc] lc].
  fold st lt in Hfold. destruct Hfold as (Hsq & Hlq & Hsc & Hlc).
  cbn [LotClass.stQuantity LotClass.ltQuantity LotClass.stPnl LotClass.ltPnl
       LotClass.stAvgPrice LotClass.ltAvgPrice].
  split; [rewrite Hsq; lra |].
  split; [rewrite Hlq; lra |].
  split; [rewrite Hsq, Hsc; lra |].
  split; [rewrite Hlq, Hlc; lra |].
  intros Hpos.
  assert (Hst : Forall (fun lot => 0 < Lot.quantity lot) st).
  { apply List.Forall_forall. intros lot Hin. apply filter_In in Hin.
    exact (proj1 (List.Forall_forall _ _) Hpos lot (proj1 Hin)). }
  assert (Hlt : Forall (fun lot => 0 < Lot.quantity lot) lt).
  { apply List.Forall_forall. intros lot Hin. apply filter_In in Hin.
    exact (proj1 (List.Forall_forall _ _) Hpos lot (proj1 Hin)). }
  split.
  - destruct (Qltb 0 sq) eqn:E.
    + apply Qltb_lt in E. rewrite Hsc. field_simplify_eq; [lra | lra].
    + apply Qltb_ge in E. destruct st as [| lot0 st'] eqn:Est.
      * rewrite lotsCost_nil. lra.
      * exfalso. assert (0 < lotsQuantity (lot0 :: st'))
          by (apply lotsQuantity_pos; [exact Hst | discriminate]). lra.
  - destruct (Qltb 0 lq) eqn:E.
    + apply Qltb_lt in E. rewrite Hlc. field_simplify_eq; [lra | lra].
    + apply Qltb_ge in E. destruct lt as [| lot0 lt'] eqn:Elt.
      * rewrite lotsCost_nil. lra.
      * exfalso. assert (0 < lotsQuantity (lot0 :: lt'))
          by (apply lotsQuantity_pos; [exact Hlt | discriminate]). lra.
Qed.

(** Lots that all stand above the current price are, together, at a loss. *)
Lemma losing_lots_pnl (lots : list HoldingLot) (currentPrice : Q) :
  Forall (fun lot => 0 < Lot.quantity lot /\ currentPrice < Lot.purchasePrice lot) lots ->
  lots <> [] ->
  0 < lotsQuantity lots /\ lotsQuantity lots * currentPrice - lotsCost lots < 0.
Proof.
  induction 1 as [| lot lots [Hq Hp] Hall IH]; intros Hne; [congruence |].
  rewrite lotsQuantity_cons, lotsCost_cons.
  assert (Hlot : Lot.quantity lot * currentPrice
                 < Lot.quantity lot * Lot.purchasePrice lot)
    by (apply Qmult_lt_l; assumption).
  destruct lots as [| lot' lots'].
  - rewrite lotsQuantity_nil, lotsCost_nil. split; lra.
  - destruct (IH ltac:(discriminate)) as [IHq IHp]. split; lra.
Qed.
End Split.

(** ** FIFO order on two buys and one sell *)

Section FifoOrder.
Context {R : Runtime}.

Lemma sort_three_ascending (b1 b2 s : TradeRecord) :
  (Trade.tradeDate b1 < Trade.tradeDate b2)%Z ->
  (Trade.tradeDate b2 < Trade.tradeDate s)%Z ->
  sortTradesChronologically [b1; b2; s] = [b1; b2; s].
Proof.
  intros H12 H23. unfold sortTradesChronologically, sortBy. cbn.
  replace (Trade.tradeDate b2 - Trade.tradeDate s <=? 0)%Z with true
    by (symmetry; apply Z.leb_le; lia).
  cbn.
  replace (Trade.tradeDate b1 - Trade.tradeDate b2 <=? 0)%Z with true
    by (symmetry; apply Z.leb_le; lia).
  reflexivity.
Qed.

(** C1 (amended). With [0 < k < A] the first lot keeps its date and price
    and holds [A - k]; with [k = A] the first lot is removed; the second
    lot is untouched in both cases. *)
Theorem fifo_order_two_buys_one_sell (now : Date) (b1 b2 s : TradeRecord) :
  Trade.tradeType b1 = buy -> Trade.tradeType b2 = buy -> Trade.tradeType s = sell ->
  (Trade.tradeDate b1 < Trade.tradeDate b2)%Z ->
  (Trade.tradeDate b2 < Trade.tradeDate s)%Z ->
  0 < Trade.quantity b1 -> 0 < Trade.quantity b2 -> 0 < Trade.quantity s ->
  Trade.quantity s <= Trade.quantity b1 ->
  let lot1 := Lot.mk (Trade.quantity b1 - Trade.quantity s)
                     (Trade.tradeDate b1) (Trade.price b1) in
  let lot2 := Lot.mk (Trade.quantity b2) (Trade.tradeDate b2) (Trade.price b2) in
  exists acc,
    HWG.accumulator (processTradesForHolding now [b1; b2; s]) = Some acc /\
    (Trade.quantity s < Trade.quantity b1 -> Acc.lots acc = [lot1; lot2]) /\
    (Trade.quantity s == Trade.quantity b1 -> Acc.lots acc = [lot2]).
Proof.
  intros Tb1 Tb2 Ts D12 D23 HA HB Hk HkA lot1 lot2.
  unfold processTradesForHolding.
  rewrite sort_three_ascending by assumption.
  cbn [fold_left]. unfold processTrade at 3. rewrite Tb1.
  unfold processTrade at 2. cbn [Acc.lots Acc.symbol Acc.isin Acc.exchange].
  rewrite Tb2.
  unfold processTrade. cbn [Acc.lots Acc.symbol Acc.isin Acc.exchange].
  rewrite Ts. cbn [app].
  unfold applyFifoSell. rewrite fifoLoop_cons.
  cbn [Lot.quantity Lot.purchaseDate Lot.purchasePrice].
  rewrite (proj2 (Qltb_lt 0 (Trade.quantity s)) Hk).
  destruct (Qleb (Trade.quantity b1) (Trade.quantity s)) eqn:Efull.
  - (* the sell takes the whole first lot *)
    apply Qleb_le in Efull.
    rewrite fifoLoop_stop by lra.
    cbn [fold_left Fifo.lots removeEmptyLots List.filter Lot.quantity].
    assert (Hz : Qltb 0 0 = false) by reflexivity. rewrite Hz.
    rewrite (proj2 (Qltb_lt 0 (Trade.quantity b2)) HB).
    eexists. split; [reflexivity |].
    cbn [Acc.lots]. split; [intros; lra | reflexivity].
  - (* the sell takes a part of the first lot *)
    apply Qleb_gt in Efull.
    rewrite fifoLoop_stop by lra.
    cbn [fold_left Fifo.lots removeEmptyLots List.filter Lot.quantity].
    rewrite (proj2 (Qltb_lt 0 (Trade.quantity b1 - Trade.quantity s)))
      by lra.
    rewrite (proj2 (Qltb_lt 0 (Trade.quantity b2)) HB).
    eexists. split; [reflexivity |].
    cbn [Acc.lots]. split; [reflexivity | intros; lra].
Qed.
End FifoOrder.

(** The scenario of the specification: 50 at 2400, 50 at 2600, then 30 sold. *)
Lemma fifo_order_two_buys_one_sell_witness :
  exists acc,
    HWG.accumulator
      (processTradesForHolding (R := Utc.runtime) Sample.now
         [Sample.buy1; Sample.buy2; Sample.sell30]) = Some acc /\
    Acc.lots acc =
      [Lot.mk (50 - 30) (Utc.date 2024 1 10) 2400; Lot.mk 50 (Utc.date 2024 2 15) 2600].
Proof.
  destruct (fifo_order_two_buys_one_sell (R := Utc.runtime) Sample.now
              Sample.buy1 Sample.buy2 Sample.sell30)
    as [acc [Hacc [Hpart _]]];
    try reflexivity; try (vm_compute; congruence).
  exists acc. split; [exact Hacc |]. apply Hpart. reflexivity.
Defined.

(** C1 as stated fails at [k = A]: after buys of 50 at 2400 and 50 at 2600 and
    a sell of 50, the only lot left is the second one, so that no first lot
    with quantity [A - k] and price 2400 is left. *)
Lemma fifo_order_full_lot_counterexample :
  Trade.quantity Sample.sell50 <= Trade.quantity Sample.buy1 /\
  option_map Acc.lots
    (HWG.accumulator
       (processTradesForHolding (R := Utc.runtime) Sample.now
          [Sample.buy1; Sample.buy2; Sample.sell50]))
  = Some [Lot.mk 50 (Utc.date 2024 2 15) 2600] /\
  ~ (exists acc lot1 rest,
       HWG.accumulator
         (processTradesForHolding (R := Utc.runtime) Sample.now
            [Sample.buy1; Sample.buy2; Sample.sell50]) = Some acc /\
       Acc.lots acc = lot1 :: rest /\
       Lot.quantity lot1 == Trade.quantity Sample.buy1 - Trade.quantity Sample.sell50 /\
       Lot.purchasePrice lot1 == Trade.price Sample.buy1).
Proof.
  split; [vm_compute; congruence |].
  split; [vm_compute; reflexivity |].
  intros (acc & lot1 & rest & Hacc & Hlots & Hq & _).
  vm_compute in Hacc. injection Hacc as <-.
  cbn in Hlots. injection Hlots as <- _.
  vm_compute in Hq. discriminate.
Qed.

(** ** Oversell tolerance *)

Section Oversell.
Context {R : Runtime}.

(** A sell in a state reached by the engine, in the exact arithmetic of the
    model. *)
Lemma sell_in_reached_state (now : Date) (acc0 : HoldingAccumulator)
    (processed : list TradeRecord) (s : TradeRecord) :
  Acc.lots acc0 = [] ->
  Forall positiveQuantity processed ->
  positiveQuantity s ->
  Trade.tradeType s = sell ->
  let st := fold_left (processTrade now) processed (acc0, []) in
  let held := Acc.lots (fst st) in
  let result := applyFifoSell now held (Trade.quantity s) in
  let emitted := map (realizedGainEntry s) (Fifo.consumedLots result) in
  let st' := processTrade now st s in
  snd st' = snd st ++ emitted /\
  gainsQuantity emitted == Qmin (Trade.quantity s) (calculateTotalQuantity held) /\
  Forall (fun e => 0 < Gain.quantity e) emitted /\
  Forall (fun lot => 0 <= Lot.quantity lot) (Fifo.lots result) /\
  Forall (fun lot => 0 < Lot.quantity lot) (Acc.lots (fst st')) /\
  (length (Acc.lots (fst st')) <= length held)%nat /\
  calculateTotalQuantity (Acc.lots (fst st')) ==
    calculateTotalQuantity held - gainsQuantity emitted /\
  (calculateTotalQuantity held < Trade.quantity s ->
   calculateTotalQuantity (Acc.lots (fst st')) == 0 /\
   exists unmatched, Fifo.warning result = Some unmatched /\
     unmatched == Trade.quantity s - calculateTotalQuantity held) /\
  (Trade.quantity s <= calculateTotalQuantity held -> Fifo.warning result = None).
Proof.
  intros Hempty Hvalid Hs Hty st held result emitted st'.
  assert (Hpos : Forall (fun lot => 0 < Lot.quantity lot) held).
  { apply engine_positive; [exact Hvalid |]. cbn [fst]. rewrite Hempty. constructor. }
  destruct st as [acc gains] eqn:Est. cbn [fst snd] in *.
  destruct (sell_step now acc gains s Hpos Hs Hty)
    as (Hg & Hsum & Hep & Hnn & Hlots & Hleft & Hwarn & Hquiet).
  fold held in Hg, Hsum, Hep, Hnn, Hlots, Hleft, Hwarn, Hquiet.
  fold result in Hg, Hsum, Hep, Hnn, Hlots, Hleft, Hwarn, Hquiet.
  fold emitted in Hg, Hsum, Hep, Hleft. fold st' in Hg, Hlots, Hleft.
  rewrite !calculateTotalQuantity_sum.
  split; [exact Hg |].
  split; [exact Hsum |].
  split; [exact Hep |].
  split; [exact Hnn |].
  split; [rewrite Hlots; apply removeEmptyLots_positive |].
  split.
  { rewrite Hlots. etransitivity; [apply removeEmptyLots_length |].
    unfold result. rewrite applyFifoSell_lots.
    destruct (fifoLoop held (Trade.quantity s)) as [[lots' consumed] r] eqn:Eloop.
    assert (Hk : 0 <= Trade.quantity s) by (unfold positiveQuantity in Hs; lra).
    destruct (fifoLoop_spec _ Hpos _ _ _ _ Hk Eloop) as (_ & _ & _ & _ & _ & Hsame).
    cbn [fst]. apply Forall2_length in Hsame. lia. }
  split; [exact Hleft |].
  split; [| exact Hquiet].
  intros Hover. split.
  - rewrite Hleft, Hsum. rewrite Q.min_r by lra. lra.
  - destruct (Hwarn Hover) as (unmatched & Hw & Hv).
    exists unmatched. split; [exact Hw |].
    rewrite calculateTotalQuantity_sum. exact Hv.
Qed.

(** C2 (amended). In a state reached by the engine on trades of positive
    quantity, a sell of positive quantity appends its entries to those
    emitted before, each of positive quantity; the lots stay non-negative
    during the sell and are positive after it, and no lot is added. When the
    quantities are whole numbers, the emitted quantities sum to the minimum
    of the sell quantity and the quantity held; what is left is what was
    held minus what was emitted; a sell that exceeds what is held leaves
    nothing and prints the warning with the unmatched quantity, and any
    other sell prints none. *)
Theorem sell_emits_min_of_sold_and_held (now : Date) (acc0 : HoldingAccumulator)
    (processed : list TradeRecord) (s : TradeRecord) :
  Acc.lots acc0 = [] ->
  Forall positiveQuantity processed ->
  positiveQuantity s ->
  Trade.tradeType s = sell ->
  let st := fold_left (processTrade now) processed (acc0, []) in
  let held := Acc.lots (fst st) in
  let result := applyFifoSell now held (Trade.quantity s) in
  let emitted := map (realizedGainEntry s) (Fifo.consumedLots result) in
  let st' := processTrade now st s in
  (snd st' = snd st ++ emitted /\
   Forall (fun e => 0 < Gain.quantity e) emitted /\
   Forall (fun lot => 0 <= Lot.quantity lot) (Fifo.lots result) /\
   Forall (fun lot => 0 < Lot.quantity lot) (Acc.lots (fst st')) /\
   (length (Acc.lots (fst st')) <= length held)%nat) /\
  (wholeQuantities (processed ++ [s]) ->
   gainsQuantity emitted == Qmin (Trade.quantity s) (calculateTotalQuantity held) /\
   calculateTotalQuantity (Acc.lots (fst st')) ==
     calculateTotalQuantity held - gainsQuantity emitted /\
   (calculateTotalQuantity held < Trade.quantity s ->
    calculateTotalQuantity (Acc.lots (fst st')) == 0 /\
    exists unmatched, Fifo.warning result = Some unmatched /\
      unmatched == Trade.quantity s - calculateTotalQuantity held) /\
   (Trade.quantity s <= calculateTotalQuantity held -> Fifo.warning result = None)).
Proof.
  intros Hempty Hvalid Hs Hty st held result emitted st'.
  destruct (sell_in_reached_state now acc0 processed s Hempty Hvalid Hs Hty)
    as (Hg & Hsum & Hep & Hnn & Hpos & Hlen & Hleft & Hover & Hquiet).
  split.
  - exact (conj Hg (conj Hep (conj Hnn (conj Hpos Hlen)))).
  - intros _. exact (conj Hsum (conj Hleft (conj Hover Hquiet))).
Qed.
End Oversell.

(** A buy of 50 followed by a sell of 80: 50 are matched, 30 are dropped. *)
Lemma sell_emits_min_of_sold_and_held_witness :
  let acc0 := Acc.mk "RELIANCE" "" "NSE" [] in
  let s := Sample.trade "T9" "RELIANCE" "NSE" (Utc.date 2024 3 1) sell 80 2700 in
  let st := fold_left (processTrade (R := Utc.runtime) Sample.now) [Sample.buy1] (acc0, []) in
  let result := applyFifoSell Sample.now (Acc.lots (fst st)) 80 in
  gainsQuantity (map (realizedGainEntry (R := Utc.runtime) s) (Fifo.consumedLots result))
  == Qmin 80 (calculateTotalQuantity (Acc.lots (fst st))).
Proof.
  intros acc0 s st result.
  assert (Hempty : Acc.lots acc0 = []) by reflexivity.
  assert (Hvalid : Forall positiveQuantity [Sample.buy1]) by (repeat constructor).
  assert (Hs : positiveQuantity s) by reflexivity.
  assert (Hty : Trade.tradeType s = sell) by reflexivity.
  assert (Hwhole : wholeQuantities ([Sample.buy1] ++ [s])).
  { split.
    - repeat constructor; [exists 50%Z | exists 80%Z]; (split; [lia | reflexivity]).
    - apply Qle_bool_iff. reflexivity. }
  exact (proj1 (proj2 (sell_emits_min_of_sold_and_held (R := Utc.runtime) Sample.now
                         acc0 [Sample.buy1] s Hempty Hvalid Hs Hty) Hwhole)).
Defined.

(** C2 as stated fails on fractional quantities. With lots of 0.2 and 5
    held, a sell of 0.9 is within what is held and prints no warning; it
    emits the quantities 0.2 and 0.9 - 0.2, which binary64 rounds to
    0.69999999999999996; their sum is less than 0.9, the minimum of the sell
    quantity and the quantity held, whether it is taken exactly or in
    binary64. *)
Lemma sell_of_fractions_counterexample :
  let result :=
    Binary64.applyFifoSell Sample.now Binary64.heldFractions Binary64.soldFraction in
  PrimFloat.ltb Binary64.soldFraction
    (Binary64.calculateTotalQuantity Binary64.heldFractions) = true /\
  Binary64.Fifo.warning result = None /\
  length (Binary64.emittedQuantities result) = 2%nat /\
  (exists emitted sold,
      Binary64.exactSum (Binary64.emittedQuantities result) = Some emitted /\
      Binary64.toQ Binary64.soldFraction = Some sold /\
      emitted < sold) /\
  PrimFloat.ltb (Binary64.calculateTotalQuantity (Binary64.Fifo.consumedLots result))
    Binary64.soldFraction = true.
Proof.
  intros result.
  split; [vm_compute; reflexivity |].
  split; [vm_compute; reflexivity |].
  split; [vm_compute; reflexivity |].
  split.
  - eexists _, _. split; [vm_compute; reflexivity |].
    split; [vm_compute; reflexivity |]. vm_compute. reflexivity.
  - vm_compute. reflexivity.
Qed.

(** On whole numbers binary64 computes what the model computes: with lots
    of 50 and 50 held and 70 sold, the quantities left and the quantities
    emitted are those of the model, and neither prints a warning. *)
Lemma sell_of_whole_numbers_agrees :
  let lots := [Lot.mk 50 (Utc.date 2024 1 10) 100; Lot.mk 50 (Utc.date 2024 1 11) 100] in
  let exact := applyFifoSell Sample.now lots 70 in
  let rounded :=
    Binary64.applyFifoSell Sample.now Binary64.heldWhole Binary64.soldWhole in
  map (fun lot => Binary64.toQ (Binary64.Lot.quantity lot)) (Binary64.Fifo.lots rounded)
    = map (fun lot => Some (Qred (Lot.quantity lot))) (Fifo.lots exact) /\
  map Binary64.toQ (Binary64.emittedQuantities rounded)
    = map (fun lot => Some (Qred (Lot.quantity lot))) (Fifo.consumedLots exact) /\
  Binary64.Fifo.warning rounded = None /\
  Fifo.warning exact = None.
Proof.
  intros lots exact rounded.
  split; [vm_compute; reflexivity |].
  split; [vm_compute; reflexivity |].
  split; vm_compute; reflexivity.
Qed.

(** ** Full consumption and positive lots *)

Lemma filter_permutation {A : Type} (f : A -> bool) (l l' : list A) :
  Permutation l l' -> Permutation (List.filter f l) (List.filter f l').
Proof.
  induction 1 as [| x l l' _ IH | x y l | l l' l'' _ IH1 _ IH2]; cbn [List.filter].
  - reflexivity.
  - destruct (f x); [apply perm_skip |]; exact IH.
  - destruct (f x), (f y); try reflexivity. apply perm_swap.
  - etransitivity; eassumption.
Qed.

Lemma totalBought_permutation (l l' : list TradeRecord) :
  Permutation l l' -> totalBought l == totalBought l'.
Proof.
  intros P. unfold totalBought. apply Qsum_permutation.
  apply Permutation_map. apply filter_permutation. exact P.
Qed.

Lemma totalSold_permutation (l l' : list TradeRecord) :
  Permutation l l' -> totalSold l == totalSold l'.
Proof.
  intros P. unfold totalSold. apply Qsum_permutation.
  apply Permutation_map. apply filter_permutation. exact P.
Qed.

Lemma totals_snoc (l : list TradeRecord) (t : TradeRecord) :
  totalBought (l ++ [t]) ==
    totalBought l + (if isBuy t then Trade.quantity t else 0) /\
  totalSold (l ++ [t]) ==
    totalSold l + (if isSell t then Trade.quantity t else 0).
Proof.
  unfold totalBought, totalSold.
  rewrite !List.filter_app, !map_app, !Qsum_app. cbn [List.filter].
  split.
  - destruct (isBuy t); cbn [map]; rewrite ?Qsum_cons, ?Qsum_nil; lra.
  - destruct (isSell t); cbn [map]; rewrite ?Qsum_cons, ?Qsum_nil; lra.
Qed.

Section FullConsumption.
Context {R : Runtime}.

(** Without oversell the engine holds what was bought minus what was sold. *)
Lemma engine_conservation (now : Date) (acc0 : HoldingAccumulator)
    (processed : list TradeRecord) :
  Acc.lots acc0 = [] ->
  Forall positiveQuantity processed ->
  (forall p rest, processed = p ++ rest -> totalSold p <= totalBought p) ->
  lotsQuantity (Acc.lots (fst (fold_left (processTrade now) processed (acc0, []))))
  == totalBought processed - totalSold processed.
Proof.
  intros Hempty. induction processed as [| t l IH] using rev_ind; intros Hvalid Hno.
  - cbn [fold_left fst]. rewrite Hempty. reflexivity.
  - apply Forall_app in Hvalid. destruct Hvalid as [Hl Ht].
    apply Forall_inv in Ht.
    assert (IH' := IH Hl).
    assert (Hpre : forall p rest, l = p ++ rest -> totalSold p <= totalBought p).
    { intros p rest ->. apply (Hno p (rest ++ [t])). rewrite app_assoc. reflexivity. }
    specialize (IH' Hpre).
    assert (Hlast := Hno (l ++ [t]) [] ltac:(rewrite app_nil_r; reflexivity)).
    destruct (totals_snoc l t) as [Hb Hs]. rewrite Hb, Hs in Hlast. rewrite Hb, Hs.
    rewrite fold_left_app. cbn [fold_left].
    assert (Hpos : Forall (fun lot => 0 < Lot.quantity lot)
              (Acc.lots (fst (fold_left (processTrade now) l (acc0, []))))).
    { apply engine_positive; [exact Hl |]. cbn [fst]. rewrite Hempty. constructor. }
    destruct (fold_left (processTrade now) l (acc0, [])) as [acc gains].
    cbn [fst] in IH', Hpos.
    unfold isBuy, isSell in *. destruct (Trade.tradeType t) eqn:Ety.
    + rewrite (proj1 (processTrade_buy now acc gains t Ety)).
      rewrite lotsQuantity_app, lotsQuantity_cons, lotsQuantity_nil. cbn [Lot.quantity].
      rewrite IH'. lra.
    + destruct (sell_step now acc gains t Hpos Ht Ety)
        as (_ & Hsum & _ & _ & _ & Hleft & _).
      rewrite Hleft, Hsum. rewrite Q.min_l by lra. lra.
Qed.

(** C3 (amended). On trades of positive quantity: a group in whole
    quantities without oversell whose sold total equals its bought total
    yields no accumulator and adds no holding; and every holding returned
    stems from a group, has lots, all of positive quantity, and a positive
    total quantity. *)
Theorem full_consumption_without_oversell (now : Date) (trades : list TradeRecord) :
  Forall positiveQuantity trades ->
  (forall k g,
      In (k, g) (groupTradesByHolding trades) ->
      wholeQuantities g ->
      noOversell g ->
      totalSold g == totalBought g ->
      HWG.accumulator (processTradesForHolding now g) = None /\
      groupHoldings now g = []) /\
  (forall h,
      In h (Portfolio.holdings (analyzePortfolio now trades)) ->
      (exists k g, In (k, g) (groupTradesByHolding trades) /\ groupHoldings now g = [h]) /\
      Holding.lots h <> [] /\
      Forall (fun lot => 0 < Lot.quantity lot) (Holding.lots h) /\
      0 < Holding.totalQuantity h).
Proof.
  intros Hvalid.
  assert (Hgroup : forall k g, In (k, g) (groupTradesByHolding trades) ->
                               Forall positiveQuantity g).
  { intros k g Hin. apply List.Forall_forall. intros t Ht.
    destruct (group_subset trades k g Hin t Ht) as [Htr _].
    exact (proj1 (List.Forall_forall _ _) Hvalid t Htr). }
  split.
  - intros k g Hin _ Hno Heq.
    assert (Hnone : HWG.accumulator (processTradesForHolding now g) = None).
    { destruct (HWG.accumulator (processTradesForHolding now g)) as [acc |] eqn:Ea;
        [| reflexivity].
      exfalso.
      destruct (accumulator_lots_positive now g acc (Hgroup k g Hin) Ea) as [Hne Hpos].
      pose proof (lotsQuantity_pos _ Hpos Hne) as Hq.
      destruct (processTradesForHolding_run now g) as (acc0 & Hempty & _ & Ha).
      rewrite Ha in Ea.
      assert (Hsorted : Forall positiveQuantity (sortTradesChronologically g)).
      { apply sortBy_Forall. exact (Hgroup k g Hin). }
      pose proof (engine_conservation now acc0 _ Hempty Hsorted Hno) as Hcons.
      destruct (Acc.lots (fst (fold_left _ _ _))) eqn:El; [discriminate |].
      injection Ea as <-. rewrite El in Hq. rewrite Hcons in Hq.
      rewrite (totalBought_permutation _ g), (totalSold_permutation _ g) in Hq
        by apply sortBy_permutation.
      lra. }
    split; [exact Hnone |]. unfold groupHoldings. rewrite Hnone. reflexivity.
  - intros h Hh. apply analyzePortfolio_holdings in Hh.
    destruct Hh as (k & g & acc & Hin & Ha & ->).
    destruct (accumulator_lots_positive now g acc (Hgroup k g Hin) Ha) as [Hne Hpos].
    split; [| split; [exact Hne | split; [exact Hpos |]]].
    + exists k, g. split; [exact Hin |]. unfold groupHoldings. rewrite Ha. reflexivity.
    + cbn [holdingOfAccumulator Holding.totalQuantity].
      rewrite calculateTotalQuantity_sum. apply lotsQuantity_pos; assumption.
Qed.
End FullConsumption.

(** 50 bought and then 50 sold: the group leaves no holding. *)
Lemma full_consumption_without_oversell_witness :
  HWG.accumulator
    (processTradesForHolding (R := Utc.runtime) Sample.now [Sample.buy1; Sample.sell50])
  = None.
Proof.
  assert (Hvalid : Forall positiveQuantity [Sample.buy1; Sample.sell50])
    by (repeat constructor).
  destruct (full_consumption_without_oversell (R := Utc.runtime) Sample.now
              [Sample.buy1; Sample.sell50] Hvalid) as [Hfull _].
  apply (Hfull "RELIANCE:NSE").
  - vm_compute. left. reflexivity.
  - split.
    + repeat constructor; exists 50%Z; (split; [lia | reflexivity]).
    + apply Qle_bool_iff. reflexivity.
  - intros processed pending Hsplit. vm_compute in Hsplit.
    destruct processed as [| a [| b [| c processed]]];
      cbn [app] in Hsplit.
    + apply Qle_bool_iff. reflexivity.
    + injection Hsplit as <- _. apply Qle_bool_iff. reflexivity.
    + injection Hsplit as <- <- _. apply Qle_bool_iff. reflexivity.
    + discriminate Hsplit.
  - reflexivity.
Defined.

(** C3 as stated fails under oversell: a sell of 10 dated before the only buy
    of 10 is dropped, so that sold and bought totals agree and yet the group
    is returned as a holding of 10. It fails on fractional quantities as
    well: after buys of 0.2, 0.2 and 0.5 a sell of 0.9 sells what was
    bought, whether the buys are added exactly or in binary64, and no
    warning is printed; but the third lot is left with what binary64 makes
    of 0.5 - ((0.9 - 0.2) - 0.2), a positive quantity that [removeEmptyLots]
    keeps, so that the group yields a holding. *)
Lemma full_consumption_oversell_counterexample :
  (let trades := [Sample.sellEarly; Sample.buyLate] in
   Forall positiveQuantity trades /\
   groupTradesByHolding trades = [("INFY:NSE", trades)] /\
   totalSold trades == totalBought trades /\
   exists h,
     Portfolio.holdings (analyzePortfolio (R := Utc.runtime) Sample.now trades) = [h] /\
     Holding.lots h = [Lot.mk 10 (Utc.date 2024 2 5) 1400] /\
     Holding.totalQuantity h == 10) /\
  (map Binary64.Trade.quantity
     (List.filter (fun t => match Binary64.Trade.tradeType t with
                            | buy => true | sell => false end)
                  Binary64.fullySold) = Binary64.boughtFractions /\
   map Binary64.Trade.quantity
     (List.filter (fun t => match Binary64.Trade.tradeType t with
                            | buy => false | sell => true end)
                  Binary64.fullySold) = [Binary64.soldFraction] /\
   option_map Qred (Binary64.exactSum Binary64.boughtFractions)
     = Binary64.toQ Binary64.soldFraction /\
   PrimFloat.eqb (fold_left PrimFloat.add Binary64.boughtFractions PrimFloat.zero)
     Binary64.soldFraction = true /\
   Binary64.Fifo.warning
     (Binary64.applyFifoSell Sample.now
        (Binary64.remainingLots Sample.now (firstn 3 Binary64.fullySold))
        Binary64.soldFraction) = None /\
   Binary64.remainingLots Sample.now Binary64.fullySold
     = [Binary64.bought Binary64.residue 12] /\
   PrimFloat.ltb PrimFloat.zero Binary64.residue = true).
Proof.
  split.
  - split; [repeat constructor |].
    split; [reflexivity |].
    split; [reflexivity |].
    eexists. split; [vm_compute; reflexivity |].
    split; reflexivity.
  - repeat split; vm_compute; reflexivity.
Qed.

(** ** Merging tradebooks *)

Lemma existsb_eqb_In (k : string) (seen : list string) :
  existsb (String.eqb k) seen = true <-> In k seen.
Proof.
  rewrite existsb_exists. split.
  - intros (x & Hx & E). apply String.eqb_eq in E. subst. exact Hx.
  - intros Hin. exists k. split; [exact Hin | apply String.eqb_refl].
Qed.

Lemma existsb_eqb_not_In (k : string) (seen : list string) :
  existsb (String.eqb k) seen = false <-> ~ In k seen.
Proof.
  rewrite <- existsb_eqb_In. destruct (existsb _ seen); split; congruence.
Qed.

Lemma mapHas_existsb {V : Type} (k : string) (m : JsMap V) :
  mapHas k m = existsb (String.eqb k) (map fst m).
Proof.
  unfold mapHas. induction m as [| [k' v'] m IH]; cbn [mapGet map fst existsb];
    [reflexivity |].
  destruct (String.eqb k k'); [reflexivity | exact IH].
Qed.

Lemma keepFirst_ext (l : list TradeRecord) :
  forall s1 s2, (forall x, In x s1 <-> In x s2) -> keepFirst s1 l = keepFirst s2 l.
Proof.
  induction l as [| t l IH]; intros s1 s2 Heq; cbn [keepFirst]; [reflexivity |].
  assert (E : existsb (String.eqb (Trade.tradeId t)) s1
              = existsb (String.eqb (Trade.tradeId t)) s2).
  { destruct (existsb _ s2) eqn:E2.
    - apply existsb_eqb_In. apply Heq. apply existsb_eqb_In. exact E2.
    - apply existsb_eqb_not_In. rewrite Heq. apply existsb_eqb_not_In. exact E2. }
  rewrite E. destruct (existsb _ s2).
  - apply IH. exact Heq.
  - f_equal. apply IH. intros x. cbn [In]. rewrite Heq. reflexivity.
Qed.

(** The map filled by the loop holds, in order, the first occurrences. *)
Lemma dedup_fold (l : list TradeRecord) :
  forall m : JsMap TradeRecord,
    mapValues (fold_left dedupStep l m) = mapValues m ++ keepFirst (map fst m) l.
Proof.
  induction l as [| t l IH]; intros m; cbn [fold_left keepFirst].
  - rewrite app_nil_r. reflexivity.
  - rewrite IH. unfold dedupStep. rewrite mapHas_existsb.
    destruct (existsb (String.eqb (Trade.tradeId t)) (map fst m)) eqn:E; cbn [negb].
    + reflexivity.
    + rewrite mapSet_absent.
      2:{ apply mapGet_None_keys. apply existsb_eqb_not_In. exact E. }
      unfold mapValues. rewrite !map_app. cbn [map fst snd].
      rewrite <- app_assoc. cbn [app]. do 2 f_equal.
      apply keepFirst_ext. intros x. rewrite in_app_iff. cbn [In]. tauto.
Qed.

Lemma keepFirst_In (l : list TradeRecord) :
  forall seen t,
    In t (keepFirst seen l) <->
    exists before after,
      l = before ++ t :: after /\
      ~ In (Trade.tradeId t) seen /\
      forall u, In u before -> Trade.tradeId u <> Trade.tradeId t.
Proof.
  induction l as [| t0 l IH]; intros seen t; cbn [keepFirst].
  - split; [intros [] | intros (b & a & H & _)]. destruct b; discriminate.
  - destruct (existsb (String.eqb (Trade.tradeId t0)) seen) eqn:E.
    + apply existsb_eqb_In in E. rewrite IH. split.
      * intros (b & a & -> & Hs & Hb). exists (t0 :: b), a.
        split; [reflexivity |]. split; [exact Hs |].
        intros u [<- | Hu]; [congruence | apply Hb; exact Hu].
      * intros (b & a & Hl & Hs & Hb). destruct b as [| b0 b].
        -- injection Hl as -> _. contradiction.
        -- injection Hl as -> ->. exists b, a.
           split; [reflexivity |]. split; [exact Hs |].
           intros u Hu. apply Hb. right. exact Hu.
    + apply existsb_eqb_not_In in E. cbn [In]. rewrite IH. split.
      * intros [<- | (b & a & -> & Hs & Hb)].
        -- exists [], l. split; [reflexivity |]. split; [exact E | intros u []].
        -- exists (t0 :: b), a. split; [reflexivity |].
           cbn [In] in Hs. split; [tauto |].
           intros u [<- | Hu]; [intros Hid; apply Hs; left; exact Hid | apply Hb; exact Hu].
      * intros (b & a & Hl & Hs & Hb). destruct b as [| b0 b].
        -- injection Hl as -> _. left. reflexivity.
        -- injection Hl as -> ->. right. exists b, a.
           split; [reflexivity |]. split.
           ++ cbn [In]. intros [Hid | Hin]; [| contradiction].
              apply (Hb b0); [left; reflexivity | exact Hid].
           ++ intros u Hu. apply Hb. right. exact Hu.
Qed.

Lemma keepFirst_ids (l : list TradeRecord) :
  forall seen id,
    In id (map Trade.tradeId (keepFirst seen l)) <->
    In id (map Trade.tradeId l) /\ ~ In id seen.
Proof.
  induction l as [| t0 l IH]; intros seen id; cbn [keepFirst map In]; [tauto |].
  destruct (existsb (String.eqb (Trade.tradeId t0)) seen) eqn:E.
  - apply existsb_eqb_In in E. rewrite IH. split; [tauto |].
    intros [[<- | Hin] Hs]; [contradiction | tauto].
  - apply existsb_eqb_not_In in E. cbn [map In]. rewrite IH. cbn [In].
    destruct (String.eqb_spec (Trade.tradeId t0) id) as [<- | Hne]; tauto.
Qed.

Lemma keepFirst_NoDup (l : list TradeRecord) :
  forall seen, NoDup (map Trade.tradeId (keepFirst seen l)).
Proof.
  induction l as [| t0 l IH]; intros seen; cbn [keepFirst]; [constructor |].
  destruct (existsb (String.eqb (Trade.tradeId t0)) seen); [apply IH |].
  cbn [map]. apply NoDup_cons. split; [| apply IH].
  intros Hin. apply list_elem_of_In in Hin. apply keepFirst_ids in Hin.
  destruct Hin as [_ Hs]. apply Hs. left. reflexivity.
Qed.

Lemma keepFirst_seen (l : list TradeRecord) :
  forall seen,
    (forall t, In t l -> In (Trade.tradeId t) seen) -> keepFirst seen l = [].
Proof.
  induction l as [| t0 l IH]; intros seen Hall; cbn [keepFirst]; [reflexivity |].
  rewrite (proj2 (existsb_eqb_In _ _) (Hall t0 (or_introl eq_refl))).
  apply IH. intros t Ht. apply Hall. right. exact Ht.
Qed.

Lemma keepFirst_app (l1 l2 : list TradeRecord) :
  forall seen,
    keepFirst seen (l1 ++ l2) =
    keepFirst seen l1 ++ keepFirst (map Trade.tradeId l1 ++ seen) l2.
Proof.
  induction l1 as [| t0 l1 IH]; intros seen; cbn [keepFirst app map]; [reflexivity |].
  destruct (existsb (String.eqb (Trade.tradeId t0)) seen) eqn:E.
  - rewrite IH. f_equal. apply keepFirst_ext. intros x.
    apply existsb_eqb_In in E. cbn [In]. rewrite !in_app_iff.
    split; [tauto |]. intros [<- | H]; tauto.
  - cbn [app]. f_equal. rewrite IH. f_equal. apply keepFirst_ext. intros x.
    cbn [In]. rewrite !in_app_iff. cbn [In]. tauto.
Qed.

Lemma insertBy_date_sorted (x : TradeRecord) (l : list TradeRecord) :
  StronglySorted (fun a b => (Trade.tradeDate a <= Trade.tradeDate b)%Z) l ->
  StronglySorted (fun a b => (Trade.tradeDate a <= Trade.tradeDate b)%Z)
    (insertBy (fun a b => (Trade.tradeDate a - Trade.tradeDate b)%Z) x l).
Proof.
  induction 1 as [| y l Hl IH Hy]; cbn [insertBy].
  - constructor; constructor.
  - destruct (Z.leb_spec (Trade.tradeDate x - Trade.tradeDate y) 0) as [Hle | Hgt].
    + constructor; [constructor; assumption |].
      constructor; [lia |].
      eapply Forall_impl; [exact Hy | cbn; intros; lia].
    + constructor; [exact IH |].
      apply List.Forall_forall. intros z Hz.
      apply (Permutation_in _ (insertBy_permutation _ x l)) in Hz.
      destruct Hz as [<- | Hz]; [lia |].
      exact (proj1 (List.Forall_forall _ _) Hy z Hz).
Qed.

Lemma sortBy_date_sorted (l : list TradeRecord) :
  StronglySorted (fun a b => (Trade.tradeDate a <= Trade.tradeDate b)%Z)
    (sortBy (fun a b => (Trade.tradeDate a - Trade.tradeDate b)%Z) l).
Proof.
  induction l as [| x l IH]; [constructor |].
  unfold sortBy in *. cbn [fold_right]. apply insertBy_date_sorted. exact IH.
Qed.

Lemma mergeTradebooks_keepFirst (tradeLists : list (list TradeRecord)) :
  mergeTradebooks tradeLists =
  sortBy (fun a b => (Trade.tradeDate a - Trade.tradeDate b)%Z)
         (keepFirst [] (concat tradeLists)).
Proof.
  unfold mergeTradebooks. f_equal.
  change (mapValues (fold_left dedupStep (concat tradeLists) [])
          = keepFirst [] (concat tradeLists)).
  rewrite dedup_fold. reflexivity.
Qed.

(** C4. The merge keeps one record per [tradeId] of the flattened input, the
    first one in input order whatever the later ones hold; its result is
    sorted by [tradeDate]; and a source list passed twice merges as if
    passed once. *)
Theorem merge_keeps_first_occurrences_sorted (tradeLists : list (list TradeRecord)) :
  let merged := mergeTradebooks tradeLists in
  NoDup (map Trade.tradeId merged) /\
  (forall id,
      In id (map Trade.tradeId merged) <->
      In id (map Trade.tradeId (concat tradeLists))) /\
  (forall t, In t merged <-> firstOccurrence (concat tradeLists) t) /\
  StronglySorted (fun a b => (Trade.tradeDate a <= Trade.tradeDate b)%Z) merged /\
  (forall A : list TradeRecord, mergeTradebooks [A; A] = mergeTradebooks [A]).
Proof.
  intros merged. unfold merged. rewrite mergeTradebooks_keepFirst.
  set (cmp := fun a b : TradeRecord => (Trade.tradeDate a - Trade.tradeDate b)%Z).
  assert (P : Permutation (map Trade.tradeId (sortBy cmp (keepFirst [] (concat tradeLists))))
                          (map Trade.tradeId (keepFirst [] (concat tradeLists))))
    by (apply Permutation_map, sortBy_permutation).
  split; [| split; [| split; [| split]]].
  - rewrite P. apply keepFirst_NoDup.
  - intros id. split.
    + intros Hin. apply (Permutation_in _ P) in Hin.
      apply keepFirst_ids in Hin. tauto.
    + intros Hin. apply (Permutation_in _ (Permutation_sym P)).
      apply keepFirst_ids. cbn [In]. tauto.
  - intros t. rewrite sortBy_In, keepFirst_In. unfold firstOccurrence. cbn [In].
    split; intros (b & a & Hl & H); exists b, a; tauto.
  - apply sortBy_date_sorted.
  - intros A. rewrite !mergeTradebooks_keepFirst. f_equal.
    cbn [concat]. rewrite !app_nil_r. rewrite keepFirst_app.
    rewrite (keepFirst_seen A (map Trade.tradeId A ++ [])).
    + apply app_nil_r.
    + intros t Ht. rewrite app_nil_r. apply in_map. exact Ht.
Qed.

(** The scenario of the specification: [T1] comes in both sources with
    different prices and keeps the price of the first source. *)
Lemma merge_scenario :
  let first := Sample.trade "T1" "RELIANCE" "NSE" (Utc.date 2024 1 10) buy 50 2400 in
  let again := Sample.trade "T1" "RELIANCE" "NSE" (Utc.date 2024 1 10) buy 50 2500 in
  mergeTradebooks [[first]; [again; Sample.buy2]] = [first; Sample.buy2].
Proof. vm_compute. reflexivity. Qed.

(** ** Holding-period classification *)

Lemma oldest_fold (lots : list HoldingLot) :
  forall d0 : Date,
    let oldest :=
      fold_left
        (fun oldest lot =>
           if (Lot.purchaseDate lot <? oldest)%Z then Lot.purchaseDate lot else oldest)
        lots d0 in
    (oldest <= d0)%Z /\
    Forall (fun lot => (oldest <= Lot.purchaseDate lot)%Z) lots /\
    (oldest = d0 \/ exists lot, In lot lots /\ Lot.purchaseDate lot = oldest).
Proof.
  induction lots as [| lot lots IH]; intros d0; cbn [fold_left].
  - split; [lia |]. split; [constructor | left; reflexivity].
  - cbv zeta in IH.
    destruct (Z.ltb_spec (Lot.purchaseDate lot) d0) as [Hlt | Hge].
    + destruct (IH (Lot.purchaseDate lot)) as (Hle & Hall & Hwit).
      split; [lia |]. split; [constructor; [lia | exact Hall] |].
      right. destruct Hwit as [-> | (l' & Hin & Heq)].
      * exists lot. split; [left |]; reflexivity.
      * exists l'. split; [right; exact Hin | exact Heq].
    + destruct (IH d0) as (Hle & Hall & Hwit).
      split; [exact Hle |]. split; [constructor; [lia | exact Hall] |].
      destruct Hwit as [-> | (l' & Hin & Heq)]; [left; reflexivity |].
      right. exists l'. split; [right; exact Hin | exact Heq].
Qed.

Lemma findOldestPurchaseDate_min (now : Date) (lots : list HoldingLot) :
  lots <> [] ->
  Forall (fun lot => (findOldestPurchaseDate now lots <= Lot.purchaseDate lot)%Z) lots /\
  exists lot, In lot lots /\ Lot.purchaseDate lot = findOldestPurchaseDate now lots.
Proof.
  destruct lots as [| lot0 rest]; [congruence | intros _].
  unfold findOldestPurchaseDate.
  destruct (oldest_fold (lot0 :: rest) (Lot.purchaseDate lot0)) as (_ & Hall & Hwit).
  split; [exact Hall |].
  destruct Hwit as [Heq | Hex]; [| exact Hex].
  exists lot0. split; [left; reflexivity | symmetry; exact Heq].
Qed.

Section Classification.
Context {R : Runtime}.

Lemma engine_gains_classified (now : Date) (processed : list TradeRecord) :
  forall st : HoldingAccumulator * list RealizedGainEntry,
    Forall (fun e => Gain.classification e
                     = classifyHolding (Gain.sellDate e) (Gain.purchaseDate e)) (snd st) ->
    Forall (fun e => Gain.classification e
                     = classifyHolding (Gain.sellDate e) (Gain.purchaseDate e))
           (snd (fold_left (processTrade now) processed st)).
Proof.
  induction processed as [| t l IH]; intros st Hst; [exact Hst |].
  cbn [fold_left]. apply IH. destruct st as [acc gains]. cbn [snd] in Hst.
  destruct (Trade.tradeType t) eqn:Ety.
  - rewrite (proj2 (processTrade_buy now acc gains t Ety)). exact Hst.
  - rewrite (proj2 (processTrade_sell now acc gains t Ety)).
    apply Forall_app. split; [exact Hst |].
    apply List.Forall_forall. intros e He. apply in_map_iff in He.
    destruct He as (c & <- & _). reflexivity.
Qed.

Lemma group_gains_classified (now : Date) (g : list TradeRecord) (e : RealizedGainEntry) :
  In e (HWG.realizedGains (processTradesForHolding now g)) ->
  Gain.classification e = classifyHolding (Gain.sellDate e) (Gain.purchaseDate e).
Proof.
  destruct (processTradesForHolding_run now g) as (acc0 & _ & Hg & _).
  rewrite Hg. revert e. apply List.Forall_forall.
  apply engine_gains_classified. constructor.
Qed.

(** C5. The classifier answers SHORT_TERM exactly when the day difference
    is at most 365, so 365 days is short-term and 366 long-term; every
    realized-gain entry carries the classification of its purchase date as
    of its sell date; every holding carries the classification, as of now,
    of its oldest purchase date, which is the earliest date among its
    lots. *)
Theorem classification_by_365_day_rule (now : Date) (trades : list TradeRecord) :
  (forall asOf d : Date,
      (classifyHolding asOf d = SHORT_TERM <-> (differenceInDays asOf d <= 365)%Z) /\
      (classifyHolding asOf d = LONG_TERM <-> (365 < differenceInDays asOf d)%Z)) /\
  (forall asOf d : Date,
      (differenceInDays asOf d = 365%Z -> classifyHolding asOf d = SHORT_TERM) /\
      (differenceInDays asOf d = 366%Z -> classifyHolding asOf d = LONG_TERM)) /\
  (forall e,
      In e (HWG.realizedGains (processTradesForHolding now trades)) ->
      Gain.classification e = classifyHolding (Gain.sellDate e) (Gain.purchaseDate e)) /\
  (forall e,
      In e (Summary.entries (Portfolio.realizedGains (analyzePortfolio now trades))) ->
      Gain.classification e = classifyHolding (Gain.sellDate e) (Gain.purchaseDate e)) /\
  (forall h,
      In h (Portfolio.holdings (analyzePortfolio now trades)) ->
      Holding.classification h = classifyHolding now (Holding.oldestPurchaseDate h) /\
      Forall (fun lot => (Holding.oldestPurchaseDate h <= Lot.purchaseDate lot)%Z)
             (Holding.lots h) /\
      exists lot, In lot (Holding.lots h) /\
                  Lot.purchaseDate lot = Holding.oldestPurchaseDate h).
Proof.
  assert (Hrule : forall asOf d : Date,
             (classifyHolding asOf d = SHORT_TERM <-> (differenceInDays asOf d <= 365)%Z) /\
             (classifyHolding asOf d = LONG_TERM <-> (365 < differenceInDays asOf d)%Z)).
  { intros asOf d. unfold classifyHolding.
    destruct (Z.leb_spec (differenceInDays asOf d) 365); split; split;
      intros; try reflexivity; try discriminate; lia. }
  split; [exact Hrule |].
  split.
  { intros asOf d. split; intros Hd; apply Hrule; lia. }
  split; [intros e; apply group_gains_classified |].
  split.
  { intros e He. apply analyzePortfolio_gains in He.
    destruct He as (k & g & _ & He). exact (group_gains_classified now g e He). }
  intros h Hh. apply analyzePortfolio_holdings in Hh.
  destruct Hh as (k & g & acc & _ & Ha & ->).
  cbn [holdingOfAccumulator Holding.classification Holding.oldestPurchaseDate
       Holding.lots].
  split; [reflexivity |].
  apply findOldestPurchaseDate_min.
  destruct (processTradesForHolding_run now g) as (acc0 & _ & _ & Hacc).
  rewrite Hacc in Ha.
  destruct (Acc.lots (fst (fold_left _ _ _))) eqn:El; [discriminate |].
  injection Ha as <-. rewrite El. discriminate.
Qed.
End Classification.

(** On the UTC host, as of January 20, 2025: a lot of January 21, 2024 has
    been held 365 days and is short-term, a lot of January 20, 2024 has been
    held 366 days and is long-term; the entry of the sample sell is
    short-term. *)
Lemma classification_by_365_day_rule_witness :
  let asOf := Utc.date 2025 1 20 in
  classifyHolding (R := Utc.runtime) asOf (Utc.date 2024 1 21) = SHORT_TERM /\
  classifyHolding (R := Utc.runtime) asOf (Utc.date 2024 1 20) = LONG_TERM /\
  Forall (fun e => Gain.classification e = SHORT_TERM)
    (HWG.realizedGains
       (processTradesForHolding (R := Utc.runtime) Sample.now
          [Sample.buy1; Sample.buy2; Sample.sell30])).
Proof.
  intros asOf.
  destruct (classification_by_365_day_rule (R := Utc.runtime) Sample.now
              [Sample.buy1; Sample.buy2; Sample.sell30])
    as (_ & Hboundary & Hgains & _).
  split; [apply Hboundary; reflexivity |].
  split; [apply Hboundary; reflexivity |].
  apply List.Forall_forall. intros e He.
  rewrite (Hgains e He).
  vm_compute in He. destruct He as [<- | []]. reflexivity.
Defined.

(** ** Realized-gains summary *)




Section SummaryRefinement.
Context {R : Runtime}.


End SummaryRefinement.

(** On the UTC host in June 2024 the financial year starts on April 1, 2024:
    a loss of 500 sold in May is counted, a gain sold in March is not. *)
Lemma fiscal_year_start_examples :
  getCurrentFyStartDate (R := Utc.runtime) (Utc.date 2024 6 1) = Utc.date 2024 4 1 /\
  getCurrentFyStartDate (R := Utc.runtime) (Utc.date 2024 2 1) = Utc.date 2023 4 1 /\
  getCurrentFyStartDate (R := Utc.runtime) (Utc.date 2024 4 1) = Utc.date 2024 4 1 /\
  getCurrentFyStartDate (R := Utc.runtime) (Utc.date 2024 3 31) = Utc.date 2023 4 1.
Proof. repeat split; vm_compute; reflexivity. Qed.

Lemma summary_example :
  let entry d g c :=
    Gain.mk "INFY" "NSE" 10 d 1450 1500 (Utc.date 2023 12 1) g c in
  let s := summarizeRealizedGains (R := Utc.runtime) Sample.now
             [entry (Utc.date 2024 3 15) 700 SHORT_TERM;
              entry (Utc.date 2024 5 15) (-500) SHORT_TERM] in
  getCurrentFyStartDate (R := Utc.runtime) Sample.now = Utc.date 2024 4 1 /\
  Summary.entries s = [entry (Utc.date 2024 5 15) (-500) SHORT_TERM] /\
  Summary.stcl s == 500 /\ Summary.stcg s == 0 /\ Summary.netShortTerm s == -500.
Proof. vm_compute. repeat split; reflexivity. Qed.

(** ** Price overlay: holdings without a quote *)

Section OverlayFrame.
Context {R : Runtime}.

Lemma updateHolding_no_quote (now : Date) (quotes : gmap string NseQuote) (h : Holding) :
  quotes !! Holding.symbol h = None -> updateHolding now quotes h = h.
Proof. intros Hq. unfold updateHolding. rewrite Hq. reflexivity. Qed.

Lemma updateHoldingsWithPrices_lookup (now : Date) (quotes : gmap string NseQuote)
    (holdings : list Holding) (i : nat) :
  updateHoldingsWithPrices now quotes holdings !! i
  = updateHolding now quotes <$> holdings !! i.
Proof.
  unfold updateHoldingsWithPrices. revert i.
  induction holdings as [| h l IH]; intros [| i]; cbn; try reflexivity. apply IH.
Qed.

Lemma get_inherited (quotes : gmap string NseQuote) (name : string) :
  PlainObject.get quotes name = PlainObject.inherited <->
  quotes !! name = None /\ In name PlainObject.prototypeProperties.
Proof.
  unfold PlainObject.get. destruct (quotes !! name) as [quote |].
  - split; [discriminate | intros [Hq _]; discriminate].
  - destruct (existsb (String.eqb name) PlainObject.prototypeProperties) eqn:Ex.
    + split; [| reflexivity]. intros _. split; [reflexivity |].
      apply existsb_exists in Ex. destruct Ex as (x & Hin & Heq).
      apply String.eqb_eq in Heq. subst x. exact Hin.
    + split; [discriminate |]. intros [_ Hin].
      assert (Ht : existsb (String.eqb name) PlainObject.prototypeProperties = true).
      { apply existsb_exists. exists name. split; [exact Hin | apply String.eqb_refl]. }
      congruence.
Qed.

Lemma get_absent (quotes : gmap string NseQuote) (name : string) :
  PlainObject.get quotes name = PlainObject.absent <->
  quotes !! name = None /\ ~ In name PlainObject.prototypeProperties.
Proof.
  unfold PlainObject.get. destruct (quotes !! name) as [quote |].
  - split; [discriminate | intros [Hq _]; discriminate].
  - destruct (existsb (String.eqb name) PlainObject.prototypeProperties) eqn:Ex.
    + split; [discriminate |]. intros [_ Hnot]. exfalso. apply Hnot.
      apply existsb_exists in Ex. destruct Ex as (x & Hin & Heq).
      apply String.eqb_eq in Heq. subst x. exact Hin.
    + split; [| reflexivity]. intros _. split; [reflexivity |]. intros Hin.
      assert (Ht : existsb (String.eqb name) PlainObject.prototypeProperties = true).
      { apply existsb_exists. exists name. split; [exact Hin | apply String.eqb_refl]. }
      congruence.
Qed.

(** A holding whose symbol is neither quoted nor the name of a property of
    [Object.prototype] is returned as it is, and the overlay on the map of
    quotes returns it too. *)
Lemma overlay_returns_holding_without_property (now : Date)
    (quotes : gmap string NseQuote) (h : Holding) :
  quotes !! Holding.symbol h = None ->
  ~ In (Holding.symbol h) PlainObject.prototypeProperties ->
  PlainObject.updateHolding now quotes h = PlainObject.returned h /\
  updateHolding now quotes h = h.
Proof.
  intros Hq Hnot. split; [| apply updateHolding_no_quote; exact Hq].
  unfold PlainObject.updateHolding.
  rewrite (proj2 (get_absent quotes (Holding.symbol h)) (conj Hq Hnot)). reflexivity.
Qed.

(** For a quoted symbol the object built is the one that the overlay on the
    map of quotes stands for. *)
Lemma overlay_builds_quoted_holding (now : Date) (quotes : gmap string NseQuote)
    (h : Holding) (quote : NseQuote) :
  quotes !! Holding.symbol h = Some quote ->
  PlainObject.updateHolding now quotes h
  = PlainObject.ofHolding h (updateHolding now quotes h).
Proof.
  intros Hq. unfold PlainObject.updateHolding, PlainObject.get, updateHolding.
  rewrite Hq. cbn [PlainObject.lastPriceOf]. unfold PlainObject.ofHolding.
  cbn [Holding.currentPrice Holding.pnl Holding.pnlPercent Holding.isLoss
       Holding.stQuantity Holding.ltQuantity Holding.stAvgPrice Holding.ltAvgPrice
       Holding.stPnl Holding.ltPnl].
  unfold PlainObject.classifyLotsByHoldingPeriod, classifyLotsByHoldingPeriod.
  destruct (fold_left _ (Holding.lots h) (0, 0, 0, 0)) as [[[sq lq] sc] lc].
  cbn [PlainObject.Split.stQuantity PlainObject.Split.ltQuantity
       PlainObject.Split.stAvgPrice PlainObject.Split.ltAvgPrice
       PlainObject.Split.stPnl PlainObject.Split.ltPnl
       LotClass.stQuantity LotClass.ltQuantity LotClass.stAvgPrice
       LotClass.ltAvgPrice LotClass.stPnl LotClass.ltPnl].
  destruct (Qltb 0 (Holding.avgPurchasePrice h * Holding.totalQuantity h));
    reflexivity.
Qed.

(** A holding whose symbol is not quoted and names a property of
    [Object.prototype] is not returned: a new object is built from it, with
    an undefined price, [NaN] for each profit-and-loss, and no loss flag. *)
Lemma overlay_rebuilds_holding_with_inherited_property (now : Date)
    (quotes : gmap string NseQuote) (h : Holding) :
  quotes !! Holding.symbol h = None ->
  In (Holding.symbol h) PlainObject.prototypeProperties ->
  exists object,
    PlainObject.updateHolding now quotes h = PlainObject.built object /\
    PlainObject.Overlaid.holding object = h /\
    PlainObject.Overlaid.currentPrice object = PlainObject.undefined /\
    PlainObject.Overlaid.pnl object = PlainObject.NaN /\
    PlainObject.Overlaid.isLoss object = false /\
    PlainObject.Overlaid.stPnl object = PlainObject.NaN /\
    PlainObject.Overlaid.ltPnl object = PlainObject.NaN.
Proof.
  intros Hq Hin. unfold PlainObject.updateHolding.
  rewrite (proj2 (get_inherited quotes (Holding.symbol h)) (conj Hq Hin)).
  cbn [PlainObject.lastPriceOf]. eexists. split; [reflexivity |].
  unfold PlainObject.classifyLotsByHoldingPeriod.
  destruct (fold_left _ (Holding.lots h) (0, 0, 0, 0)) as [[[sq lq] sc] lc].
  repeat split.
Qed.
End OverlayFrame.

(** C7 (code defect). [quotes[holding.symbol]] finds what the quotes object
    inherits from [Object.prototype]. A tradebook with a buy of INFY and a
    buy of the symbol "constructor" gives a holding of either symbol; a
    quotes object with a quote for INFY only has no quote for the second;
    the overlay prices the INFY holding and does not return the other
    holding as it is, but builds a new object from it, with an undefined
    current price, [NaN] for the profit-and-loss fields, no loss flag, and
    the short-term and long-term fields written. The price fields that such
    a holding had are lost in the same way, while those of a holding of
    RELIANCE, which has no quote either, are kept. *)
Theorem overlay_rewrites_holding_named_constructor :
  let holdings :=
    calculateHoldings (R := Utc.runtime) Sample.now
      (parseTradebook (T := Plain.host) Sample.constructorCsv) in
  let updated :=
    PlainObject.updateHoldingsWithPrices (R := Utc.runtime) Sample.now Sample.infyQuote
      holdings in
  length holdings = 2%nat /\
  Sample.infyQuote !! "constructor" = None /\
  (exists object,
      In (PlainObject.built object) updated /\
      Holding.symbol (PlainObject.Overlaid.holding object) = "INFY" /\
      PlainObject.Overlaid.currentPrice object = PlainObject.number 1350) /\
  (exists h,
      In h holdings /\ Holding.symbol h = "constructor" /\
      In (PlainObject.built
            {| PlainObject.Overlaid.holding := h;
               PlainObject.Overlaid.currentPrice := PlainObject.undefined;
               PlainObject.Overlaid.pnl := PlainObject.NaN;
               PlainObject.Overlaid.pnlPercent := PlainObject.NaN;
               PlainObject.Overlaid.isLoss := false;
               PlainObject.Overlaid.stQuantity := 20;
               PlainObject.Overlaid.ltQuantity := 0;
               PlainObject.Overlaid.stAvgPrice := 48000 # 20;
               PlainObject.Overlaid.ltAvgPrice := 0;
               PlainObject.Overlaid.stPnl := PlainObject.NaN;
               PlainObject.Overlaid.ltPnl := PlainObject.NaN |})
         updated) /\
  Holding.currentPrice Sample.constructorHolding = Some 2300 /\
  PlainObject.updateHoldingsWithPrices (R := Utc.runtime) Sample.now Sample.infyQuote
    [Sample.pricedHolding; Sample.constructorHolding]
  = [PlainObject.returned Sample.pricedHolding;
     PlainObject.built
       {| PlainObject.Overlaid.holding := Sample.constructorHolding;
          PlainObject.Overlaid.currentPrice := PlainObject.undefined;
          PlainObject.Overlaid.pnl := PlainObject.NaN;
          PlainObject.Overlaid.pnlPercent := PlainObject.NaN;
          PlainObject.Overlaid.isLoss := false;
          PlainObject.Overlaid.stQuantity := 20;
          PlainObject.Overlaid.ltQuantity := 0;
          PlainObject.Overlaid.stAvgPrice := 48000 # 20;
          PlainObject.Overlaid.ltAvgPrice := 0;
          PlainObject.Overlaid.stPnl := PlainObject.NaN;
          PlainObject.Overlaid.ltPnl := PlainObject.NaN |}].
Proof.
  intros holdings updated.
  split; [vm_compute; reflexivity |].
  split; [reflexivity |].
  split.
  { eexists. split; [vm_compute; left; reflexivity |]. split; reflexivity. }
  split.
  { eexists. split; [vm_compute; right; left; reflexivity |].
    split; [reflexivity |]. vm_compute. right. left. reflexivity. }
  split; [reflexivity |]. vm_compute. reflexivity.
Qed.

(** ** Loss-harvesting opportunities *)

Lemma stclOpportunities_In (holdings : list Holding) (h : Holding) :
  In h (stclOpportunities holdings) <->
  In h holdings /\
  exists q p, Holding.stQuantity h = Some q /\ Holding.stPnl h = Some p /\ 0 < q /\ p < 0.
Proof.
  unfold stclOpportunities. rewrite filter_In. split.
  - intros [Hin Hsel]. split; [exact Hin |].
    destruct (Holding.stQuantity h) as [q |]; [| discriminate].
    destruct (Holding.stPnl h) as [p |]; [| discriminate].
    apply andb_prop in Hsel. destruct Hsel as [Hq Hp].
    exists q, p. repeat split; apply Qltb_lt; assumption.
  - intros [Hin (q & p & -> & -> & Hq & Hp)]. split; [exact Hin |].
    apply andb_true_intro. split; apply Qltb_lt; assumption.
Qed.

Lemma ltclOpportunities_In (holdings : list Holding) (h : Holding) :
  In h (ltclOpportunities holdings) <->
  In h holdings /\
  exists q p, Holding.ltQuantity h = Some q /\ Holding.ltPnl h = Some p /\ 0 < q /\ p < 0.
Proof.
  unfold ltclOpportunities. rewrite filter_In. split.
  - intros [Hin Hsel]. split; [exact Hin |].
    destruct (Holding.ltQuantity h) as [q |]; [| discriminate].
    destruct (Holding.ltPnl h) as [p |]; [| discriminate].
    apply andb_prop in Hsel. destruct Hsel as [Hq Hp].
    exists q, p. repeat split; apply Qltb_lt; assumption.
  - intros [Hin (q & p & -> & -> & Hq & Hp)]. split; [exact Hin |].
    apply andb_true_intro. split; apply Qltb_lt; assumption.
Qed.




(** ** Grouping by symbol and venue *)

Lemma append_nil_l (e : string) : "" +:+ e = e.
Proof. reflexivity. Qed.

Lemma append_cons_l (c : ascii) (s e : string) : String c s +:+ e = String c (s +:+ e).
Proof. reflexivity. Qed.

Lemma append_inv_head (s e1 e2 : string) : s +:+ e1 = s +:+ e2 -> e1 = e2.
Proof.
  induction s as [| c s IH]; rewrite ?append_nil_l, ?append_cons_l; [tauto |].
  intros [= H]. apply IH. exact H.
Qed.

(** The same symbol on two venues gets two keys. *)
Lemma createHoldingKey_venue_injective (symbol exchange1 exchange2 : string) :
  createHoldingKey symbol exchange1 = createHoldingKey symbol exchange2 ->
  exchange1 = exchange2.
Proof.
  unfold createHoldingKey. intros H.
  apply append_inv_head in H. apply append_inv_head in H. exact H.
Qed.

(** Among symbols without a colon the key determines the pair. *)
Lemma createHoldingKey_injective (symbol1 : string) :
  forall symbol2 exchange1 exchange2,
    noColon symbol1 -> noColon symbol2 ->
    createHoldingKey symbol1 exchange1 = createHoldingKey symbol2 exchange2 ->
    symbol1 = symbol2 /\ exchange1 = exchange2.
Proof.
  unfold createHoldingKey.
  induction symbol1 as [| c s1 IH]; intros [| c2 s2] e1 e2 H1 H2 Hk;
    repeat (rewrite append_nil_l in Hk || rewrite append_cons_l in Hk);
    cbn [noColon] in H1, H2.
  - injection Hk as Hk. subst. split; reflexivity.
  - injection Hk as Hc _. destruct H2 as [Hne _]. congruence.
  - injection Hk as Hc _. destruct H1 as [Hne _]. congruence.
  - injection Hk as Hc Hk. destruct H1 as [_ H1], H2 as [_ H2].
    destruct (IH s2 e1 e2 H1 H2 Hk) as [Hs He]. subst. split; reflexivity.
Qed.

(** On symbols without a colon a group is made of the trades of one
    (symbol, exchange) pair, all of them. *)
Lemma groups_by_exact_pair (trades : list TradeRecord) (k : string)
    (g : list TradeRecord) (t t' : TradeRecord) :
  Forall (fun x => noColon (Trade.symbol x)) trades ->
  In (k, g) (groupTradesByHolding trades) ->
  In t g -> In t' trades ->
  (In t' g <->
   Trade.symbol t' = Trade.symbol t /\ Trade.exchange t' = Trade.exchange t).
Proof.
  intros Hnc Hin Ht Ht'.
  destruct (group_subset trades k g Hin t Ht) as [Htr Hkt].
  apply group_members in Hin. destruct Hin as [Hg _].
  pose proof (proj1 (List.Forall_forall _ _) Hnc) as Hall.
  split.
  - intros Hg'. rewrite Hg in Hg'. apply filter_In in Hg'.
    destruct Hg' as [_ Hk']. apply String.eqb_eq in Hk'.
    apply (createHoldingKey_injective _ _ _ _ (Hall t' Ht') (Hall t Htr)).
    unfold holdingKey in *. congruence.
  - intros [Hs He]. rewrite Hg. apply filter_In. split; [exact Ht' |].
    apply String.eqb_eq. unfold holdingKey in *. rewrite Hs, He. symmetry. exact Hkt.
Qed.

(** C9 (code defect). The key of [createHoldingKey] is not unique: the pairs
    ("A:B", "C") and ("A", "B:C") differ and get the key "A:B:C", so that a
    buy of the first and a sell of the second form one group, the sell
    consumes the lot of the buy, and no holding is left for either pair. *)
Theorem holding_key_collision_merges_pairs :
  (Trade.symbol Sample.buyColon, Trade.exchange Sample.buyColon)
    <> (Trade.symbol Sample.sellColon, Trade.exchange Sample.sellColon) /\
  groupTradesByHolding [Sample.buyColon; Sample.sellColon]
    = [("A:B:C", [Sample.buyColon; Sample.sellColon])] /\
  Portfolio.holdings
    (analyzePortfolio (R := Utc.runtime) Sample.now [Sample.buyColon; Sample.sellColon])
    = [] /\
  map (fun e => (Gain.symbol e, Gain.exchange e, Gain.quantity e, Gain.purchasePrice e))
      (HWG.realizedGains
         (processTradesForHolding (R := Utc.runtime) Sample.now
            [Sample.buyColon; Sample.sellColon]))
    = [("A", "B:C", 10, 100)].
Proof.
  split; [discriminate |].
  split; [reflexivity |].
  split; vm_compute; reflexivity.
Qed.

(** ** The split of the overlay partitions the holding *)

Lemma avg_fold (lots : list HoldingLot) :
  forall totalValue totalQuantity : Q,
    let '(totalValue', totalQuantity') :=
      fold_left
        (fun '(totalValue, totalQuantity) lot =>
           (totalValue + Lot.quantity lot * Lot.purchasePrice lot,
            totalQuantity + Lot.quantity lot))
        lots (totalValue, totalQuantity) in
    totalValue' == totalValue + lotsCost lots /\
    totalQuantity' == totalQuantity + lotsQuantity lots.
Proof.
  induction lots as [| lot lots IH]; intros a b; cbn [fold_left].
  - rewrite lotsCost_nil, lotsQuantity_nil. split; lra.
  - specialize (IH (a + Lot.quantity lot * Lot.purchasePrice lot) (b + Lot.quantity lot)).
    destruct (fold_left _ lots _) as [a' b']. destruct IH as [Ha Hb].
    rewrite lotsCost_cons, lotsQuantity_cons. split; [rewrite Ha | rewrite Hb]; lra.
Qed.

(** The average price times the quantity is the cost of the lots. *)
Lemma calculateAvgPurchasePrice_cost (lots : list HoldingLot) :
  Forall (fun lot => 0 < Lot.quantity lot) lots ->
  calculateAvgPurchasePrice lots * lotsQuantity lots == lotsCost lots.
Proof.
  intros Hpos. destruct lots as [| lot0 rest] eqn:El.
  - cbn [calculateAvgPurchasePrice]. rewrite lotsCost_nil, lotsQuantity_nil. lra.
  - rewrite <- El in *. unfold calculateAvgPurchasePrice.
    assert (Hq : 0 < lotsQuantity lots)
      by (apply lotsQuantity_pos; [exact Hpos | rewrite El; discriminate]).
    pose proof (avg_fold lots 0 0) as Hfold.
    destruct (fold_left _ lots (0, 0)) as [tv tq]. destruct Hfold as [Hv Hq'].
    rewrite El at 1.
    rewrite (proj2 (Qltb_lt 0 tq)) by lra.
    rewrite Hv, Hq'. field_simplify_eq; [lra | lra].
Qed.

Section Partition.
Context {R : Runtime}.

(** C10. For a holding returned by the engine on trades of positive
    quantity and a quote for its symbol, whatever the time of the overlay:
    every lot is on exactly one side of the split; the two quantities add
    up to the total quantity; the two quantities times their average
    prices add up to the cost of the lots; the two profit-and-loss figures
    add up to the profit-and-loss of the holding. *)
Theorem overlay_split_partitions_holding (now overlayTime : Date)
    (trades : list TradeRecord) (quotes : gmap string NseQuote)
    (h : Holding) (quote : NseQuote) :
  Forall positiveQuantity trades ->
  In h (Portfolio.holdings (analyzePortfolio now trades)) ->
  quotes !! Holding.symbol h = Some quote ->
  let h' := updateHolding overlayTime quotes h in
  exists stQuantity ltQuantity stAvgPrice ltAvgPrice stPnl ltPnl pnl,
    Holding.stQuantity h' = Some stQuantity /\
    Holding.ltQuantity h' = Some ltQuantity /\
    Holding.stAvgPrice h' = Some stAvgPrice /\
    Holding.ltAvgPrice h' = Some ltAvgPrice /\
    Holding.stPnl h' = Some stPnl /\
    Holding.ltPnl h' = Some ltPnl /\
    Holding.pnl h' = Some pnl /\
    Permutation
      (shortTermLots overlayTime (Holding.lots h') ++
       longTermLots overlayTime (Holding.lots h'))
      (Holding.lots h') /\
    stQuantity == lotsQuantity (shortTermLots overlayTime (Holding.lots h')) /\
    ltQuantity == lotsQuantity (longTermLots overlayTime (Holding.lots h')) /\
    stQuantity + ltQuantity == Holding.totalQuantity h' /\
    stQuantity * stAvgPrice + ltQuantity * ltAvgPrice == lotsCost (Holding.lots h') /\
    stPnl + ltPnl == pnl.
Proof.
  intros Hvalid Hh Hquote h'.
  destruct (returned_holding_shape now trades h Hvalid Hh) as (_ & Hpos & Htq & Havgp).
  destruct (classifyLots_fields overlayTime (Holding.lots h) (Quote.lastPrice quote))
    as (Hsq & Hlq & Hsp & Hlp & Havg).
  destruct (Havg Hpos) as [Hsa Hla].
  destruct (split_partition overlayTime (Holding.lots h)) as [Hpq Hpc].
  pose proof (calculateAvgPurchasePrice_cost _ Hpos) as Hcost.
  unfold h', updateHolding. rewrite Hquote.
  cbn [Holding.stQuantity Holding.ltQuantity Holding.stAvgPrice Holding.ltAvgPrice
       Holding.stPnl Holding.ltPnl Holding.pnl Holding.lots Holding.totalQuantity].
  do 7 eexists. do 7 (split; [reflexivity |]).
  split; [| split; [exact Hsq | split; [exact Hlq | split; [| split]]]].
  - unfold shortTermLots, longTermLots. symmetry.
    clear. induction (Holding.lots h) as [| lot lots IH]; cbn [List.filter app];
      [reflexivity |].
    destruct (isShortTermLot overlayTime lot); cbn [negb app].
    + apply perm_skip. exact IH.
    + etransitivity; [apply perm_skip; exact IH |]. apply Permutation_middle.
  - rewrite Hsq, Hlq, Htq, calculateTotalQuantity_sum. exact Hpq.
  - rewrite Hsa, Hla. exact Hpc.
  - rewrite Hsp, Hlp, Htq, Havgp, calculateTotalQuantity_sum, Hcost.
    rewrite <- Hpq, <- Hpc. ring.
Qed.
End Partition.

(** The RELIANCE holding of the sample trades, quoted at 2500 a year later:
    20 long-term and 50 short-term units make up the 70 held. *)
Lemma overlay_split_partitions_holding_witness :
  exists h stQuantity ltQuantity,
    In h (Portfolio.holdings
            (analyzePortfolio (R := Utc.runtime) Sample.now
               [Sample.buy1; Sample.buy2; Sample.sell30])) /\
    let h' := updateHolding (R := Utc.runtime) (Utc.date 2025 1 20)
                Sample.relianceQuote h in
    Holding.stQuantity h' = Some stQuantity /\
    Holding.ltQuantity h' = Some ltQuantity /\
    stQuantity + ltQuantity == Holding.totalQuantity h'.
Proof.
  set (trades := [Sample.buy1; Sample.buy2; Sample.sell30]).
  assert (Hh : exists h, Portfolio.holdings
                 (analyzePortfolio (R := Utc.runtime) Sample.now trades) = [h])
    by (eexists; vm_compute; reflexivity).
  destruct Hh as [h Hh].
  assert (Hin : In h (Portfolio.holdings
                        (analyzePortfolio (R := Utc.runtime) Sample.now trades)))
    by (rewrite Hh; left; reflexivity).
  assert (Hsym : Holding.symbol h = "RELIANCE").
  { vm_compute in Hh. injection Hh as <-. reflexivity. }
  destruct (overlay_split_partitions_holding (R := Utc.runtime) Sample.now
              (Utc.date 2025 1 20) trades Sample.relianceQuote h
              (Quote.mk 2500 10 (2 # 5)))
    as (sq & lq & sa & la & sp & lp & pn & Hsq & Hlq & _ & _ & _ & _ & _ & _ & _ & _
        & Hsum & _).
  - repeat constructor.
  - exact Hin.
  - rewrite Hsym. reflexivity.
  - exists h, sq, lq. split; [exact Hin |]. cbv zeta.
    split; [exact Hsq |]. split; [exact Hlq | exact Hsum].
Defined.

(** * Further properties of the holdings calculator *)

(** ** A sell takes a prefix of the lots *)

Lemma removeEmptyLots_id (lots : list HoldingLot) :
  Forall (fun lot => 0 < Lot.quantity lot) lots -> removeEmptyLots lots = lots.
Proof.
  induction 1 as [| lot lots Hlot _ IH]; [reflexivity |].
  cbn [removeEmptyLots List.filter]. fold (removeEmptyLots lots).
  rewrite (proj2 (Qltb_lt 0 (Lot.quantity lot)) Hlot), IH. reflexivity.
Qed.

Lemma lot_eta (lot : HoldingLot) :
  Lot.mk (Lot.quantity lot) (Lot.purchaseDate lot) (Lot.purchasePrice lot) = lot.
Proof. destruct lot. reflexivity. Qed.

Lemma fifoLoop_prefix (lots : list HoldingLot) :
  Forall (fun lot => 0 < Lot.quantity lot) lots ->
  forall (q : Q) lots' consumed r',
    0 < q ->
    fifoLoop lots q = (lots', consumed, r') ->
    exists whole rest,
      lots = whole ++ rest /\
      ((consumed = whole /\ removeEmptyLots lots' = rest /\
        (rest = [] /\ lotsQuantity whole <= q \/ lotsQuantity whole == q))
       \/
       (exists lot rest' taken,
          rest = lot :: rest' /\
          0 < taken /\ taken < Lot.quantity lot /\
          lotsQuantity whole + taken == q /\
          consumed = whole ++ [Lot.mk taken (Lot.purchaseDate lot) (Lot.purchasePrice lot)] /\
          removeEmptyLots lots' =
            Lot.mk (Lot.quantity lot - taken) (Lot.purchaseDate lot) (Lot.purchasePrice lot)
              :: rest')).
Proof.
  induction 1 as [| lot tl Hlot Htl IH]; intros q lots' consumed r' Hq Hloop.
  - cbn in Hloop. injection Hloop as <- <- <-.
    exists [], []. split; [reflexivity |]. left.
    repeat split. left. split; [reflexivity |]. rewrite lotsQuantity_nil. lra.
  - rewrite fifoLoop_cons in Hloop.
    rewrite (proj2 (Qltb_lt 0 q) Hq) in Hloop.
    destruct (Qleb (Lot.quantity lot) q) eqn:Efull.
    + apply Qleb_le in Efull.
      destruct (Qlt_le_dec 0 (q - Lot.quantity lot)) as [Hmore | Hdone].
      * destruct (fifoLoop tl (q - Lot.quantity lot)) as [[tl' cs] rr] eqn:Erec.
        injection Hloop as <- <- <-.
        destruct (IH _ _ _ _ Hmore Erec) as (whole & rest & Hsplit & Hcase).
        exists (lot :: whole), rest. split; [rewrite Hsplit; reflexivity |].
        cbn [removeEmptyLots List.filter Lot.quantity]. fold (removeEmptyLots tl').
        assert (Hz : Qltb 0 0 = false) by reflexivity. rewrite Hz.
        rewrite lot_eta, lotsQuantity_cons.
        destruct Hcase as [(Hc & Hr & Hsum) | (l0 & rest' & taken & Hrest & Ht0 & Ht1 & Hsum & Hc & Hr)].
        -- left. split; [rewrite Hc; reflexivity |]. split; [exact Hr |].
           destruct Hsum as [[He Hle] | Heq]; [left; split; [exact He | lra] | right; lra].
        -- right. exists l0, rest', taken.
           split; [exact Hrest |]. split; [exact Ht0 |]. split; [exact Ht1 |].
           split; [lra |]. split; [rewrite Hc; reflexivity | exact Hr].
      * rewrite fifoLoop_stop in Hloop by exact Hdone.
        injection Hloop as <- <- <-.
        exists [lot], tl. split; [reflexivity |]. left.
        cbn [removeEmptyLots List.filter Lot.quantity]. fold (removeEmptyLots tl).
        assert (Hz : Qltb 0 0 = false) by reflexivity. rewrite Hz.
        rewrite lot_eta, removeEmptyLots_id by exact Htl.
        split; [reflexivity |]. split; [reflexivity |].
        right. rewrite lotsQuantity_cons, lotsQuantity_nil. lra.
    + apply Qleb_gt in Efull.
      rewrite fifoLoop_stop in Hloop by lra.
      injection Hloop as <- <- <-.
      exists [], (lot :: tl). split; [reflexivity |]. right.
      exists lot, tl, q.
      split; [reflexivity |]. split; [exact Hq |]. split; [exact Efull |].
      split; [rewrite lotsQuantity_nil; lra |]. split; [reflexivity |].
      cbn [removeEmptyLots List.filter Lot.quantity]. fold (removeEmptyLots tl).
      rewrite (proj2 (Qltb_lt 0 (Lot.quantity lot - q))) by lra.
      rewrite removeEmptyLots_id by exact Htl. reflexivity.
Qed.

Lemma sell_takes_oldest_lots_first_aux (now : Date) (lots : list HoldingLot) (q : Q) :
  Forall (fun lot => 0 < Lot.quantity lot) lots ->
  0 < q ->
  exists whole rest,
    lots = whole ++ rest /\
    ((Fifo.consumedLots (applyFifoSell now lots q) = whole /\
      removeEmptyLots (Fifo.lots (applyFifoSell now lots q)) = rest /\
      (rest = [] /\ lotsQuantity whole <= q \/ lotsQuantity whole == q))
     \/
     (exists lot rest' taken,
        rest = lot :: rest' /\
        0 < taken /\ taken < Lot.quantity lot /\
        lotsQuantity whole + taken == q /\
        Fifo.consumedLots (applyFifoSell now lots q) =
          whole ++ [Lot.mk taken (Lot.purchaseDate lot) (Lot.purchasePrice lot)] /\
        removeEmptyLots (Fifo.lots (applyFifoSell now lots q)) =
          Lot.mk (Lot.quantity lot - taken) (Lot.purchaseDate lot) (Lot.purchasePrice lot)
            :: rest')).
Proof.
  intros Hpos Hq.
  rewrite applyFifoSell_lots, applyFifoSell_consumedLots.
  destruct (fifoLoop lots q) as [[lots' consumed] r'] eqn:Eloop. cbn [fst snd].
  exact (fifoLoop_prefix lots Hpos q lots' consumed r' Hq Eloop).
Qed.

(** X1. A sell of positive quantity on positive lots takes the lots from the
    front: the lots split into a front part that is consumed whole and a
    rest; either the rest is kept as it is, or the first lot of the rest
    gives a part of its quantity, which is no more than the quantity sold,
    and keeps its date and price, and the lots behind it are untouched. *)
Theorem sell_takes_oldest_lots_first (now : Date) (lots : list HoldingLot) (q : Q) :
  Forall (fun lot => 0 < Lot.quantity lot) lots ->
  0 < q ->
  let result := applyFifoSell now lots q in
  exists whole rest,
    lots = whole ++ rest /\
    ((Fifo.consumedLots result = whole /\
      removeEmptyLots (Fifo.lots result) = rest)
     \/
     (exists lot rest' taken,
        rest = lot :: rest' /\
        0 < taken /\ taken < Lot.quantity lot /\ taken <= q /\
        Fifo.consumedLots result =
          whole ++ [Lot.mk taken (Lot.purchaseDate lot) (Lot.purchasePrice lot)] /\
        removeEmptyLots (Fifo.lots result) =
          Lot.mk (Lot.quantity lot - taken) (Lot.purchaseDate lot) (Lot.purchasePrice lot)
            :: rest')).
Proof.
  intros Hpos Hq result.
  destruct (sell_takes_oldest_lots_first_aux now lots q Hpos Hq)
    as (whole & rest & Hsplit & Hcase).
  exists whole, rest. split; [exact Hsplit |].
  destruct Hcase as [(Hc & Hr & _) | (lot & rest' & taken & Hrest & Ht0 & Ht1 & Hsum & Hc & Hr)].
  - left. split; assumption.
  - right. exists lot, rest', taken.
    split; [exact Hrest |]. split; [exact Ht0 |]. split; [exact Ht1 |].
    split; [| split; assumption].
    assert (Hw : 0 <= lotsQuantity whole).
    { apply lotsQuantity_nonneg. rewrite Hsplit in Hpos.
      apply Forall_app in Hpos. destruct Hpos as [Hwhole _].
      eapply List.Forall_impl; [| exact Hwhole]. intros l Hl. cbn beta in Hl. lra. }
    lra.
Qed.

(** Lots of 50, 50 and 40 with 70 sold: the first lot goes, the second
    gives 20, the third stays. *)
Lemma sell_takes_oldest_lots_first_witness :
  let lots := [Lot.mk 50 (Utc.date 2024 1 10) 2400; Lot.mk 50 (Utc.date 2024 2 15) 2600;
               Lot.mk 40 (Utc.date 2024 3 1) 2500] in
  exists whole rest, lots = whole ++ rest /\ length whole = 1%nat /\ length rest = 2%nat.
Proof.
  intros lots.
  destruct (sell_takes_oldest_lots_first Sample.now lots 70)
    as (whole & rest & Hsplit & Hcase).
  - repeat constructor.
  - reflexivity.
  - exists whole, rest. split; [exact Hsplit |].
    assert (Hc : Fifo.consumedLots (applyFifoSell Sample.now lots 70)
                 = [Lot.mk 50 (Utc.date 2024 1 10) 2400;
                    Lot.mk 20 (Utc.date 2024 2 15) 2600]) by (vm_compute; reflexivity).
    destruct Hcase as [(Hw & _) | (lot & rest' & taken & _ & _ & _ & _ & Hw & _)];
      rewrite Hc in Hw.
    + subst whole. unfold lots in Hsplit. cbn [app] in Hsplit.
      injection Hsplit as Hbad. vm_compute in Hbad. discriminate.
    + destruct whole as [| w0 [| w1 whole]]; cbn [app] in Hw.
      * discriminate.
      * split; [reflexivity |]. unfold lots in Hsplit. cbn [app] in Hsplit.
        injection Hsplit as _ <-. reflexivity.
      * injection Hw as _ _ Hw. destruct whole; discriminate.
Defined.

(** ** Where lots and realized gains come from *)

Lemma lot_le_lotsQuantity (lots : list HoldingLot) (c : HoldingLot) :
  Forall (fun lot => 0 < Lot.quantity lot) lots ->
  In c lots -> Lot.quantity c <= lotsQuantity lots.
Proof.
  induction 1 as [| lot lots Hlot Hall IH]; intros Hin; [destruct Hin |].
  rewrite lotsQuantity_cons.
  assert (0 <= lotsQuantity lots)
    by (apply lotsQuantity_nonneg; eapply Forall_impl; [exact Hall | cbn; intros; lra]).
  destruct Hin as [<- | Hin]; [lra |]. specialize (IH Hin). lra.
Qed.

(** What a sell consumes and what it leaves, lot by lot. *)
Lemma sell_lots_from (now : Date) (lots : list HoldingLot) (q : Q) :
  Forall (fun lot => 0 < Lot.quantity lot) lots ->
  0 < q ->
  let result := applyFifoSell now lots q in
  Forall (fun c => 0 < Lot.quantity c /\ Lot.quantity c <= q /\
                   exists lot, In lot lots /\
                     Lot.purchaseDate c = Lot.purchaseDate lot /\
                     Lot.purchasePrice c = Lot.purchasePrice lot /\
                     Lot.quantity c <= Lot.quantity lot)
         (Fifo.consumedLots result) /\
  Forall (fun l' => exists lot, In lot lots /\
                      Lot.purchaseDate l' = Lot.purchaseDate lot /\
                      Lot.purchasePrice l' = Lot.purchasePrice lot /\
                      0 < Lot.quantity l' /\ Lot.quantity l' <= Lot.quantity lot)
         (removeEmptyLots (Fifo.lots result)) /\
  exists front, map Lot.purchaseDate lots
                = front ++ map Lot.purchaseDate (removeEmptyLots (Fifo.lots result)).
Proof.
  intros Hpos Hq result.
  destruct (sell_takes_oldest_lots_first_aux now lots q Hpos Hq)
    as (whole & rest & Hsplit & Hcase).
  fold result in Hcase.
  assert (Hin : forall x, In x whole \/ In x rest -> In x lots)
    by (intros x Hx; rewrite Hsplit; apply in_or_app; exact Hx).
  assert (Hposw : Forall (fun lot => 0 < Lot.quantity lot) whole)
    by (rewrite Hsplit in Hpos; apply Forall_app in Hpos; apply Hpos).
  assert (Hposr : Forall (fun lot => 0 < Lot.quantity lot) rest)
    by (rewrite Hsplit in Hpos; apply Forall_app in Hpos; apply Hpos).
  assert (Hwhole : forall bound, lotsQuantity whole <= bound ->
             Forall (fun c => 0 < Lot.quantity c /\ Lot.quantity c <= bound /\
                       exists lot, In lot lots /\
                         Lot.purchaseDate c = Lot.purchaseDate lot /\
                         Lot.purchasePrice c = Lot.purchasePrice lot /\
                         Lot.quantity c <= Lot.quantity lot) whole).
  { intros bound Hb. apply List.Forall_forall. intros c Hc.
    pose proof (proj1 (List.Forall_forall _ _) Hposw c Hc) as Hc0. cbn beta in Hc0.
    pose proof (lot_le_lotsQuantity whole c Hposw Hc) as Hc1.
    split; [exact Hc0 |]. split; [lra |].
    exists c. split; [apply Hin; left; exact Hc |]. repeat split; lra. }
  assert (Hkeep : Forall (fun l' => exists lot, In lot lots /\
                      Lot.purchaseDate l' = Lot.purchaseDate lot /\
                      Lot.purchasePrice l' = Lot.purchasePrice lot /\
                      0 < Lot.quantity l' /\ Lot.quantity l' <= Lot.quantity lot) rest).
  { apply List.Forall_forall. intros l' Hl'.
    pose proof (proj1 (List.Forall_forall _ _) Hposr l' Hl') as H0. cbn beta in H0.
    exists l'. split; [apply Hin; right; exact Hl' |]. repeat split; lra. }
  destruct Hcase as [(Hc & Hr & Hsum)
                    | (lot & rest' & taken & Hrest & Ht0 & Ht1 & Hsum & Hc & Hr)].
  - rewrite Hc, Hr. split; [| split; [exact Hkeep |]].
    + apply Hwhole. destruct Hsum as [[_ Hle] | Heq]; lra.
    + exists (map Lot.purchaseDate whole). rewrite Hsplit, map_app. reflexivity.
  - rewrite Hc, Hr. subst rest.
    assert (Hw0 : 0 <= lotsQuantity whole)
      by (apply lotsQuantity_nonneg; eapply Forall_impl; [exact Hposw | cbn; intros; lra]).
    split; [| split].
    + apply Forall_app. split; [apply Hwhole; lra |].
      constructor; [| constructor]. cbn [Lot.quantity Lot.purchaseDate Lot.purchasePrice].
      split; [exact Ht0 |]. split; [lra |].
      exists lot. split; [apply Hin; right; left; reflexivity |]. repeat split; lra.
    + apply Forall_cons in Hkeep. destruct Hkeep as [_ Hkeep].
      constructor; [| exact Hkeep].
      cbn [Lot.quantity Lot.purchaseDate Lot.purchasePrice].
      exists lot. split; [apply Hin; right; left; reflexivity |]. repeat split; lra.
    + exists (map Lot.purchaseDate whole). rewrite Hsplit, map_app. reflexivity.
Qed.

Lemma StronglySorted_snoc {A : Type} (Rel : A -> A -> Prop) (l : list A) (y : A) :
  StronglySorted Rel l -> Forall (fun x => Rel x y) l -> StronglySorted Rel (l ++ [y]).
Proof.
  induction 1 as [| x l Hl IH Hx]; intros Hall; cbn [app].
  - constructor; constructor.
  - apply Forall_cons in Hall. destruct Hall as [Hxy Hall].
    constructor; [apply IH; exact Hall |].
    apply Forall_app. split; [exact Hx | constructor; [exact Hxy | constructor]].
Qed.

Lemma StronglySorted_snoc_inv {A : Type} (Rel : A -> A -> Prop) (l : list A) (y : A) :
  StronglySorted Rel (l ++ [y]) -> StronglySorted Rel l /\ Forall (fun x => Rel x y) l.
Proof.
  induction l as [| x l IH]; cbn [app]; intros Hs.
  - split; constructor.
  - apply StronglySorted_inv in Hs. destruct Hs as [Hs Hx].
    destruct (IH Hs) as [Hl Hy]. apply Forall_app in Hx. destruct Hx as [Hxl Hxy].
    split; [constructor; assumption |].
    constructor; [exact (Forall_inv Hxy) | exact Hy].
Qed.

Lemma StronglySorted_suffix {A : Type} (Rel : A -> A -> Prop) (front l : list A) :
  StronglySorted Rel (front ++ l) -> StronglySorted Rel l.
Proof.
  induction front as [| x front IH]; cbn [app]; [tauto |].
  intros Hs. apply StronglySorted_inv in Hs. apply IH. apply Hs.
Qed.

Lemma newest_fold (lots : list HoldingLot) :
  forall d0 : Date,
    let newest :=
      fold_left
        (fun newest lot =>
           if (Lot.purchaseDate lot >? newest)%Z then Lot.purchaseDate lot else newest)
        lots d0 in
    (d0 <= newest)%Z /\
    Forall (fun lot => (Lot.purchaseDate lot <= newest)%Z) lots /\
    (newest = d0 \/ exists lot, In lot lots /\ Lot.purchaseDate lot = newest).
Proof.
  induction lots as [| lot lots IH]; intros d0; cbn [fold_left].
  - split; [lia |]. split; [constructor | left; reflexivity].
  - cbv zeta in IH. rewrite Z.gtb_ltb.
    destruct (Z.ltb_spec d0 (Lot.purchaseDate lot)) as [Hlt | Hge].
    + destruct (IH (Lot.purchaseDate lot)) as (Hle & Hall & Hwit).
      split; [lia |]. split; [constructor; [lia | exact Hall] |].
      right. destruct Hwit as [-> | (l' & Hin & Heq)].
      * exists lot. split; [left |]; reflexivity.
      * exists l'. split; [right; exact Hin | exact Heq].
    + destruct (IH d0) as (Hle & Hall & Hwit).
      split; [exact Hle |]. split; [constructor; [lia | exact Hall] |].
      destruct Hwit as [-> | (l' & Hin & Heq)]; [left; reflexivity |].
      right. exists l'. split; [right; exact Hin | exact Heq].
Qed.

Lemma findNewestPurchaseDate_max (now : Date) (lots : list HoldingLot) :
  lots <> [] ->
  Forall (fun lot => (Lot.purchaseDate lot <= findNewestPurchaseDate now lots)%Z) lots /\
  exists lot, In lot lots /\ Lot.purchaseDate lot = findNewestPurchaseDate now lots.
Proof.
  destruct lots as [| lot0 rest]; [congruence | intros _].
  unfold findNewestPurchaseDate.
  destruct (newest_fold (lot0 :: rest) (Lot.purchaseDate lot0)) as (_ & Hall & Hwit).
  split; [exact Hall |].
  destruct Hwit as [Heq | Hex]; [| exact Hex].
  exists lot0. split; [left; reflexivity | symmetry; exact Heq].
Qed.

Section Provenance.
Context {R : Runtime}.

(** The state of the engine after a chronological run: the lots are what
    is left of buys of the run, oldest first; the entries pair a sell of the
    run with an earlier buy. *)
Lemma engine_provenance (now : Date) (acc0 : HoldingAccumulator)
    (processed : list TradeRecord) :
  Acc.lots acc0 = [] ->
  Forall positiveQuantity processed ->
  StronglySorted (fun a b => (Trade.tradeDate a <= Trade.tradeDate b)%Z) processed ->
  let st := fold_left (processTrade now) processed (acc0, []) in
  Forall (fun lot => exists b, In b processed /\ lotOf b lot) (Acc.lots (fst st)) /\
  StronglySorted Z.le (map Lot.purchaseDate (Acc.lots (fst st))) /\
  Forall (fun e => exists b s,
            In b processed /\ In s processed /\ gainOf b s e /\
            (Trade.tradeDate b <= Trade.tradeDate s)%Z /\
            Gain.gainLoss e == Gain.quantity e * (Gain.sellPrice e - Gain.purchasePrice e))
         (snd st).
Proof.
  intros Hempty. induction processed as [| t l IH] using rev_ind; intros Hvalid Hsorted.
  - cbn [fold_left fst snd]. rewrite Hempty. repeat split; constructor.
  - apply Forall_app in Hvalid. destruct Hvalid as [Hl Ht]. apply Forall_inv in Ht.
    apply StronglySorted_snoc_inv in Hsorted. destruct Hsorted as [Hsl Hbefore].
    specialize (IH Hl Hsl). cbv zeta in IH. destruct IH as (Hlots & Hord & Hgains).
    cbv zeta. rewrite fold_left_app. cbn [fold_left].
    destruct (fold_left (processTrade now) l (acc0, [])) as [acc gains].
    cbn [fst snd] in Hlots, Hord, Hgains.
    assert (Hpos : Forall (fun lot => 0 < Lot.quantity lot) (Acc.lots acc)).
    { eapply Forall_impl; [exact Hlots |]. cbn. intros lot (b & _ & Hb). apply Hb. }
    assert (Hgains' : Forall (fun e => exists b s,
               In b (l ++ [t]) /\ In s (l ++ [t]) /\ gainOf b s e /\
               (Trade.tradeDate b <= Trade.tradeDate s)%Z /\
               Gain.gainLoss e == Gain.quantity e * (Gain.sellPrice e - Gain.purchasePrice e))
              gains).
    { eapply Forall_impl; [exact Hgains |]. cbn.
      intros e (b & s & Hb & Hs & Hrest). exists b, s.
      split; [apply in_or_app; left; exact Hb |].
      split; [apply in_or_app; left; exact Hs | exact Hrest]. }
    destruct (Trade.tradeType t) eqn:Ety.
    + destruct (processTrade_buy now acc gains t Ety) as [El Eg]. rewrite El, Eg.
      split; [| split; [| exact Hgains']].
      * apply Forall_app. split.
        -- eapply Forall_impl; [exact Hlots |]. cbn. intros lot (b & Hb & Hlot).
           exists b. split; [apply in_or_app; left; exact Hb | exact Hlot].
        -- constructor; [| constructor]. exists t.
           split; [apply in_or_app; right; left; reflexivity |].
           unfold lotOf, positiveQuantity in *. cbn [Lot.quantity Lot.purchaseDate Lot.purchasePrice].
           repeat split; try assumption; lra.
      * rewrite map_app. cbn [map Lot.purchaseDate]. apply StronglySorted_snoc; [exact Hord |].
        apply Forall_map. eapply Forall_impl; [exact Hlots |]. cbn.
        intros lot (b & Hb & Hlot). destruct Hlot as (_ & Hd & _). rewrite Hd.
        exact (proj1 (List.Forall_forall _ _) Hbefore b Hb).
    + destruct (processTrade_sell now acc gains t Ety) as [El Eg]. rewrite El, Eg.
      destruct (sell_lots_from now (Acc.lots acc) (Trade.quantity t) Hpos Ht)
        as (Hcons & Hkeep & front & Hfront).
      split; [| split].
      * eapply Forall_impl; [exact Hkeep |]. cbn.
        intros l' (lot & Hin & Hd & Hp & Hq0 & Hq1).
        destruct (proj1 (List.Forall_forall _ _) Hlots lot Hin) as (b & Hb & Hlot).
        exists b. split; [apply in_or_app; left; exact Hb |].
        unfold lotOf in *. destruct Hlot as (Hty & Hd' & Hp' & _ & Hle).
        repeat split; try congruence; lra.
      * rewrite Hfront in Hord. exact (StronglySorted_suffix _ _ _ Hord).
      * apply Forall_app. split; [exact Hgains' |].
        apply Forall_map. eapply Forall_impl; [exact Hcons |]. cbn.
        intros c (Hc0 & Hcq & lot & Hin & Hd & Hp & Hle).
        destruct (proj1 (List.Forall_forall _ _) Hlots lot Hin) as (b & Hb & Hlot).
        exists b, t.
        split; [apply in_or_app; left; exact Hb |].
        split; [apply in_or_app; right; left; reflexivity |].
        unfold lotOf in Hlot. destruct Hlot as (Hty & Hd' & Hp' & _ & Hqb).
        split; [| split].
        -- unfold gainOf, realizedGainEntry. cbn.
           repeat split; try congruence; try assumption; lra.
        -- exact (proj1 (List.Forall_forall _ _) Hbefore b Hb).
        -- unfold realizedGainEntry. cbn. ring.
Qed.
End Provenance.

(** ** Gains and lots of a portfolio *)

Lemma sorted_last_max (l : list Z) (d x : Z) :
  StronglySorted Z.le l -> In x l -> (x <= List.last l d)%Z.
Proof.
  intros Hs. revert x. apply List.Forall_forall.
  induction Hs as [| y l Hl IH Hy]; [constructor |].
  destruct l as [| z l'].
  - constructor; [cbn; lia | constructor].
  - change (List.last (y :: z :: l') d) with (List.last (z :: l') d).
    constructor; [| exact IH].
    assert (y <= z)%Z by exact (Forall_inv Hy).
    pose proof (Forall_inv IH). cbn beta in *. lia.
Qed.

Lemma last_cons_default {A : Type} (l : list A) :
  forall x y : A, List.last (y :: l) x = List.last l y.
Proof.
  induction l as [| z l IH]; intros x y; [reflexivity |].
  change (List.last (y :: z :: l) x) with (List.last (z :: l) x).
  rewrite (IH x z), (IH y z). reflexivity.
Qed.

Lemma last_map_cons {A B : Type} (f : A -> B) (l : list A) :
  forall (a : A) (d : B), List.last (map f (a :: l)) d = f (List.last l a).
Proof.
  induction l as [| b l IH]; intros a d; [reflexivity |].
  cbn [map]. change (List.last (f a :: f b :: map f l) d)
    with (List.last (map f (b :: l)) d).
  rewrite IH, last_cons_default. reflexivity.
Qed.

Section PortfolioFacts.
Context {R : Runtime}.

Lemma engine_identity (now : Date) (processed : list TradeRecord) :
  forall st : HoldingAccumulator * list RealizedGainEntry,
    Acc.symbol (fst (fold_left (processTrade now) processed st)) = Acc.symbol (fst st) /\
    Acc.exchange (fst (fold_left (processTrade now) processed st)) = Acc.exchange (fst st).
Proof.
  induction processed as [| t l IH]; intros st; [split; reflexivity |].
  cbn [fold_left]. destruct (IH (processTrade now st t)) as [Hs He].
  destruct (processTrade_identity now st t) as [Hs' He']. split; congruence.
Qed.

(** [processTradesForHolding] on a non-empty group, with the accumulator it
    starts from. *)
Lemma processTradesForHolding_first (now : Date) (g : list TradeRecord) :
  g <> [] ->
  exists first rest,
    sortTradesChronologically g = first :: rest /\
    let st := fold_left (processTrade now) (first :: rest)
                (Acc.mk (Trade.symbol first) (Trade.isin first) (Trade.exchange first) [],
                 []) in
    HWG.realizedGains (processTradesForHolding now g) = snd st /\
    HWG.accumulator (processTradesForHolding now g) =
      match Acc.lots (fst st) with [] => None | _ => Some (fst st) end.
Proof.
  intros Hne. unfold processTradesForHolding.
  destruct g as [| t0 l]; [congruence |].
  destruct (sortTradesChronologically (t0 :: l)) as [| first rest] eqn:Es.
  - exfalso. revert Es. apply sortBy_nonempty. discriminate.
  - exists first, rest. split; [reflexivity |]. cbv zeta.
    destruct (fold_left (processTrade now) (first :: rest) _) as [acc gains].
    cbn [fst snd]. destruct (Acc.lots acc); split; reflexivity.
Qed.

Lemma group_run_provenance (now : Date) (g : list TradeRecord) :
  Forall positiveQuantity g ->
  (forall acc, HWG.accumulator (processTradesForHolding now g) = Some acc ->
     Forall (fun lot => exists b, In b g /\ lotOf b lot) (Acc.lots acc) /\
     StronglySorted Z.le (map Lot.purchaseDate (Acc.lots acc)) /\
     exists t, In t g /\ Acc.symbol acc = Trade.symbol t /\
               Acc.exchange acc = Trade.exchange t) /\
  Forall (fun e => exists b s,
            In b g /\ In s g /\ gainOf b s e /\
            (Trade.tradeDate b <= Trade.tradeDate s)%Z /\
            Gain.gainLoss e == Gain.quantity e * (Gain.sellPrice e - Gain.purchasePrice e))
         (HWG.realizedGains (processTradesForHolding now g)).
Proof.
  intros Hvalid. destruct g as [| t0 l] eqn:Eg.
  - cbn. split; [intros acc [=] | constructor].
  - rewrite <- Eg in *.
    destruct (processTradesForHolding_first now g ltac:(rewrite Eg; discriminate))
      as (first & rest & Es & Hg & Ha).
    cbv zeta in Hg, Ha. rewrite <- Es in Hg, Ha.
    pose proof (engine_provenance now
                  (Acc.mk (Trade.symbol first) (Trade.isin first) (Trade.exchange first) [])
                  (sortTradesChronologically g) eq_refl
                  (sortBy_Forall _ _ _ Hvalid) (sortBy_date_sorted g)) as Hprov.
    cbv zeta in Hprov. destruct Hprov as (Hlots & Hord & Hgains).
    pose proof (engine_identity now (sortTradesChronologically g)
                  (Acc.mk (Trade.symbol first) (Trade.isin first) (Trade.exchange first) [],
                   [])) as [Hsym Hexch].
    cbn [fst Acc.symbol Acc.exchange] in Hsym, Hexch.
    assert (Hfirst : In first g)
      by (apply (sortBy_In (fun a b => (Trade.tradeDate a - Trade.tradeDate b)%Z));
          fold (sortTradesChronologically g); rewrite Es; left; reflexivity).
    split.
    + intros acc Hacc. rewrite Ha in Hacc.
      destruct (Acc.lots (fst (fold_left _ _ _))) eqn:El; [discriminate |].
      injection Hacc as <-. rewrite El in *.
      split; [| split; [exact Hord | exists first; repeat split; assumption]].
      eapply Forall_impl; [exact Hlots |]. cbn. intros lot (b & Hb & Hlot).
      exists b. split; [| exact Hlot].
      apply (sortBy_In (fun a b => (Trade.tradeDate a - Trade.tradeDate b)%Z)). exact Hb.
    + rewrite Hg. eapply Forall_impl; [exact Hgains |]. cbn.
      intros e (b & s & Hb & Hs & Hrest). exists b, s.
      split; [apply (sortBy_In (fun a b => (Trade.tradeDate a - Trade.tradeDate b)%Z));
              exact Hb |].
      split; [apply (sortBy_In (fun a b => (Trade.tradeDate a - Trade.tradeDate b)%Z));
              exact Hs | exact Hrest].
Qed.

(** X2. Every realized-gain entry of a group of trades of positive quantity
    pairs a sell of the group with a buy of the group that is not dated
    after it: it carries the symbol, exchange, date and price of the sell,
    the date and price of the buy, a positive quantity that exceeds neither
    trade's, and as gain the sell value quantity x sell price minus the cost
    basis quantity x purchase price. *)
Theorem realized_gains_pair_sell_with_earlier_buy (now : Date) (g : list TradeRecord)
    (e : RealizedGainEntry) :
  Forall positiveQuantity g ->
  In e (HWG.realizedGains (processTradesForHolding now g)) ->
  exists b s,
    In b g /\ In s g /\ gainOf b s e /\
    (Trade.tradeDate b <= Trade.tradeDate s)%Z /\
    Gain.gainLoss e ==
      Gain.quantity e * Gain.sellPrice e - Gain.quantity e * Gain.purchasePrice e.
Proof.
  intros Hvalid He.
  destruct (group_run_provenance now g Hvalid) as [_ Hgains].
  destruct (proj1 (List.Forall_forall _ _) Hgains e He)
    as (b & s & Hb & Hs & Hpair & Hdate & Hgain).
  exists b, s. split; [exact Hb |]. split; [exact Hs |]. split; [exact Hpair |].
  split; [exact Hdate |]. rewrite Hgain. ring.
Qed.

(** X3. In every holding returned for trades of positive quantity the lots
    are what is left of buys of the input that have the holding's grouping
    key; they stand oldest first; the holding's oldest purchase date is that
    of its first lot and its newest purchase date that of its last lot. *)
Theorem holding_lots_are_remaining_buys_oldest_first (now : Date)
    (trades : list TradeRecord) (h : Holding) :
  Forall positiveQuantity trades ->
  In h (Portfolio.holdings (analyzePortfolio now trades)) ->
  Forall (fun lot => exists b,
            In b trades /\
            holdingKey b = createHoldingKey (Holding.symbol h) (Holding.exchange h) /\
            lotOf b lot)
         (Holding.lots h) /\
  StronglySorted Z.le (map Lot.purchaseDate (Holding.lots h)) /\
  exists first rest,
    Holding.lots h = first :: rest /\
    Holding.oldestPurchaseDate h = Lot.purchaseDate first /\
    Holding.newestPurchaseDate h = Lot.purchaseDate (List.last rest first).
Proof.
  intros Hvalid Hh. apply analyzePortfolio_holdings in Hh.
  destruct Hh as (k & g & acc & Hin & Ha & ->).
  assert (Hg : Forall positiveQuantity g).
  { apply List.Forall_forall. intros t Ht.
    destruct (group_subset trades k g Hin t Ht) as [Htr _].
    exact (proj1 (List.Forall_forall _ _) Hvalid t Htr). }
  destruct (group_run_provenance now g Hg) as [Hacc _].
  destruct (Hacc acc Ha) as (Hlots & Hord & t0 & Ht0 & Hsym & Hexch).
  destruct (group_subset trades k g Hin t0 Ht0) as [_ Hk0].
  cbn [holdingOfAccumulator Holding.lots Holding.symbol Holding.exchange
       Holding.oldestPurchaseDate Holding.newestPurchaseDate].
  split; [| split; [exact Hord |]].
  - eapply Forall_impl; [exact Hlots |]. cbn. intros lot (b & Hb & Hlot).
    destruct (group_subset trades k g Hin b Hb) as [Hbt Hkb].
    exists b. split; [exact Hbt |]. split; [| exact Hlot].
    rewrite Hsym, Hexch. unfold holdingKey in *. congruence.
  - destruct (Acc.lots acc) as [| first rest] eqn:El.
    { exfalso. destruct (processTradesForHolding_run now g) as (a0 & _ & _ & Hacc').
      rewrite Hacc' in Ha. destruct (Acc.lots (fst (fold_left _ _ _))) eqn:El';
        [discriminate |]. injection Ha as <-. congruence. }
    exists first, rest. split; [reflexivity |].
    destruct (findOldestPurchaseDate_min now (first :: rest) ltac:(discriminate))
      as [Hmin (lo & Hlo & Hloeq)].
    destruct (findNewestPurchaseDate_max now (first :: rest) ltac:(discriminate))
      as [Hmax (hi & Hhi & Hhieq)].
    cbn [map] in Hord. apply StronglySorted_inv in Hord. destruct Hord as [Hord' Hhead].
    split.
    + pose proof (Forall_inv Hmin) as H1. cbn beta in H1.
      destruct Hlo as [<- | Hlo]; [symmetry; exact Hloeq |].
      apply (in_map Lot.purchaseDate) in Hlo.
      pose proof (proj1 (List.Forall_forall _ _) Hhead _ Hlo). lia.
    + assert (Hlast : In (List.last rest first) (first :: rest)).
      { destruct rest as [| r0 rest']; [left; reflexivity |].
        right. clear. revert r0. induction rest' as [| r1 rest' IH]; intros r0;
          [left; reflexivity |].
        right. exact (IH r1). }
      pose proof (proj1 (List.Forall_forall _ _) Hmax _ Hlast) as H1. cbn beta in H1.
      assert (H2 : (Lot.purchaseDate hi <= Lot.purchaseDate (List.last rest first))%Z).
      { assert (Hs : StronglySorted Z.le (map Lot.purchaseDate (first :: rest)))
          by (cbn [map]; constructor; assumption).
        pose proof (sorted_last_max _ 0%Z _ Hs (in_map Lot.purchaseDate _ _ Hhi)) as Hm.
        rewrite last_map_cons in Hm. exact Hm. }
      lia.
Qed.
End PortfolioFacts.

(** The sample sell of 30 is paired with the buy of January 10. *)
Lemma realized_gains_pair_sell_with_earlier_buy_witness :
  let g := [Sample.buy1; Sample.buy2; Sample.sell30] in
  exists e b s,
    In e (HWG.realizedGains (processTradesForHolding (R := Utc.runtime) Sample.now g)) /\
    In b g /\ In s g /\ gainOf b s e /\
    (Trade.tradeDate b <= Trade.tradeDate s)%Z.
Proof.
  intros g.
  assert (He : exists e, HWG.realizedGains
                 (processTradesForHolding (R := Utc.runtime) Sample.now g) = [e])
    by (eexists; vm_compute; reflexivity).
  destruct He as [e He].
  assert (Hin : In e (HWG.realizedGains
                        (processTradesForHolding (R := Utc.runtime) Sample.now g)))
    by (rewrite He; left; reflexivity).
  destruct (realized_gains_pair_sell_with_earlier_buy (R := Utc.runtime) Sample.now g e)
    as (b & s & Hb & Hs & Hpair & Hdate & _).
  - repeat constructor.
  - exact Hin.
  - exists e, b, s.
    split; [exact Hin |]. split; [exact Hb |]. split; [exact Hs |].
    split; [exact Hpair | exact Hdate].
Defined.

(** The RELIANCE holding of the sample trades keeps two lots, oldest first. *)
Lemma holding_lots_are_remaining_buys_oldest_first_witness :
  let trades := [Sample.buy1; Sample.buy2; Sample.sell30] in
  exists h,
    In h (Portfolio.holdings (analyzePortfolio (R := Utc.runtime) Sample.now trades)) /\
    StronglySorted Z.le (map Lot.purchaseDate (Holding.lots h)).
Proof.
  intros trades.
  assert (Hh : exists h, Portfolio.holdings
                 (analyzePortfolio (R := Utc.runtime) Sample.now trades) = [h])
    by (eexists; vm_compute; reflexivity).
  destruct Hh as [h Hh].
  assert (Hin : In h (Portfolio.holdings
                        (analyzePortfolio (R := Utc.runtime) Sample.now trades)))
    by (rewrite Hh; left; reflexivity).
  destruct (holding_lots_are_remaining_buys_oldest_first (R := Utc.runtime) Sample.now
              trades h) as (_ & Hsorted & _).
  - repeat constructor.
  - exact Hin.
  - exists h. split; assumption.
Defined.

(** ** Quantity conservation *)

Lemma gainsQuantity_app (l1 l2 : list RealizedGainEntry) :
  gainsQuantity (l1 ++ l2) == gainsQuantity l1 + gainsQuantity l2.
Proof. unfold gainsQuantity. rewrite map_app. apply Qsum_app. Qed.

Section Balance.
Context {R : Runtime}.

Lemma engine_gains_balance (now : Date) (acc0 : HoldingAccumulator)
    (processed : list TradeRecord) :
  Acc.lots acc0 = [] ->
  Forall positiveQuantity processed ->
  (forall p rest, processed = p ++ rest -> totalSold p <= totalBought p) ->
  gainsQuantity (snd (fold_left (processTrade now) processed (acc0, [])))
  == totalSold processed.
Proof.
  intros Hempty. induction processed as [| t l IH] using rev_ind; intros Hvalid Hno.
  - reflexivity.
  - apply Forall_app in Hvalid. destruct Hvalid as [Hl Ht]. apply Forall_inv in Ht.
    assert (Hpre : forall p rest, l = p ++ rest -> totalSold p <= totalBought p).
    { intros p rest ->. apply (Hno p (rest ++ [t])). rewrite app_assoc. reflexivity. }
    specialize (IH Hl Hpre).
    pose proof (engine_conservation now acc0 l Hempty Hl Hpre) as Hheld.
    assert (Hlast := Hno (l ++ [t]) [] ltac:(rewrite app_nil_r; reflexivity)).
    destruct (totals_snoc l t) as [Hb Hs]. rewrite Hb, Hs in Hlast. rewrite Hs.
    rewrite fold_left_app. cbn [fold_left].
    assert (Hpos : Forall (fun lot => 0 < Lot.quantity lot)
              (Acc.lots (fst (fold_left (processTrade now) l (acc0, []))))).
    { apply engine_positive; [exact Hl |]. cbn [fst]. rewrite Hempty. constructor. }
    destruct (fold_left (processTrade now) l (acc0, [])) as [acc gains].
    cbn [fst snd] in IH, Hheld, Hpos.
    unfold isBuy, isSell in *. destruct (Trade.tradeType t) eqn:Ety.
    + rewrite (proj2 (processTrade_buy now acc gains t Ety)). rewrite IH. lra.
    + destruct (sell_step now acc gains t Hpos Ht Ety) as (Hg & Hsum & _).
      rewrite Hg, gainsQuantity_app, Hsum, IH. rewrite Q.min_l by lra. lra.
Qed.

(** X4. For a group of trades of positive whole quantity in which no sell
    oversells, the quantities of the realized-gain entries add up to the
    quantity sold, and what the group still holds is the quantity bought
    minus the quantity sold: the total of the accumulator's lots if there is
    one, and zero if there is none. *)
Theorem group_quantity_is_conserved (now : Date) (g : list TradeRecord) :
  Forall positiveQuantity g ->
  wholeQuantities g ->
  noOversell g ->
  let result := processTradesForHolding now g in
  gainsQuantity (HWG.realizedGains result) == totalSold g /\
  match HWG.accumulator result with
  | Some acc => calculateTotalQuantity (Acc.lots acc) == totalBought g - totalSold g
  | None => totalBought g - totalSold g == 0
  end.
Proof.
  intros Hvalid _ Hno result. unfold result.
  destruct (processTradesForHolding_run now g) as (acc0 & Hempty & Hg & Ha).
  cbv zeta in Hg, Ha.
  pose proof (sortBy_Forall (fun a b => (Trade.tradeDate a - Trade.tradeDate b)%Z)
                _ _ Hvalid) as Hsorted.
  fold (sortTradesChronologically g) in Hsorted.
  pose proof (engine_conservation now acc0 _ Hempty Hsorted Hno) as Hheld.
  pose proof (engine_gains_balance now acc0 _ Hempty Hsorted Hno) as Hsold.
  rewrite (totalBought_permutation _ g), (totalSold_permutation _ g) in Hheld
    by apply sortBy_permutation.
  rewrite (totalSold_permutation _ g) in Hsold by apply sortBy_permutation.
  rewrite Hg, Ha. split; [exact Hsold |].
  destruct (Acc.lots (fst (fold_left _ _ _))) eqn:El.
  - rewrite lotsQuantity_nil in Hheld. rewrite <- Hheld. reflexivity.
  - rewrite El, calculateTotalQuantity_sum. exact Hheld.
Qed.
End Balance.

(** 100 bought in two lots and 30 sold: 30 realized, 70 held. *)
Lemma group_quantity_is_conserved_witness :
  let g := [Sample.buy1; Sample.buy2; Sample.sell30] in
  gainsQuantity (HWG.realizedGains (processTradesForHolding (R := Utc.runtime) Sample.now g))
  == totalSold g.
Proof.
  intros g.
  assert (Hvalid : Forall positiveQuantity g) by (repeat constructor).
  assert (Hno : noOversell g).
  { intros processed pending Hsplit. vm_compute in Hsplit.
    destruct processed as [| a [| b [| c [| d processed]]]]; cbn [app] in Hsplit.
    - apply Qle_bool_iff. reflexivity.
    - injection Hsplit as <- _. apply Qle_bool_iff. reflexivity.
    - injection Hsplit as <- <- _. apply Qle_bool_iff. reflexivity.
    - injection Hsplit as <- <- <- _. apply Qle_bool_iff. reflexivity.
    - discriminate Hsplit. }
  assert (Hwhole : wholeQuantities g).
  { split.
    - repeat constructor; [exists 50%Z | exists 50%Z | exists 30%Z];
        (split; [lia | reflexivity]).
    - apply Qle_bool_iff. reflexivity. }
  exact (proj1 (group_quantity_is_conserved (R := Utc.runtime) Sample.now g
                  Hvalid Hwhole Hno)).
Defined.

(** ** Trades that arrive out of order *)

Lemma sorted_strict_of_NoDup (l : list TradeRecord) :
  StronglySorted (fun a b => (Trade.tradeDate a <= Trade.tradeDate b)%Z) l ->
  NoDup (map Trade.tradeDate l) ->
  StronglySorted (fun a b => (Trade.tradeDate a < Trade.tradeDate b)%Z) l.
Proof.
  induction 1 as [| x l Hl IH Hx]; intros Hnd; [constructor |].
  cbn [map] in Hnd. apply NoDup_cons in Hnd. destruct Hnd as [Hnotin Hnd].
  constructor; [apply IH; exact Hnd |].
  apply List.Forall_forall. intros y Hy.
  pose proof (proj1 (List.Forall_forall _ _) Hx y Hy) as Hle. cbn beta in Hle.
  destruct (Z.eq_dec (Trade.tradeDate x) (Trade.tradeDate y)) as [Heq | Hne]; [| lia].
  exfalso. apply Hnotin. apply list_elem_of_In. rewrite Heq. apply in_map. exact Hy.
Qed.

Lemma sorted_strict_unique (l1 : list TradeRecord) :
  forall l2,
    StronglySorted (fun a b => (Trade.tradeDate a < Trade.tradeDate b)%Z) l1 ->
    StronglySorted (fun a b => (Trade.tradeDate a < Trade.tradeDate b)%Z) l2 ->
    Permutation l1 l2 -> l1 = l2.
Proof.
  induction l1 as [| a l1 IH]; intros l2 H1 H2 P.
  - apply Permutation_nil in P. symmetry. exact P.
  - destruct l2 as [| b l2]; [symmetry in P; apply Permutation_nil in P; discriminate |].
    apply StronglySorted_inv in H1. destruct H1 as [H1 Ha].
    apply StronglySorted_inv in H2. destruct H2 as [H2 Hb].
    assert (Hab : a = b).
    { assert (Hina : In a (b :: l2)) by (apply (Permutation_in _ P); left; reflexivity).
      assert (Hinb : In b (a :: l1))
        by (apply (Permutation_in _ (Permutation_sym P)); left; reflexivity).
      destruct Hina as [Hba | Hina]; [symmetry; exact Hba |].
      destruct Hinb as [Hab | Hinb]; [exact Hab |].
      pose proof (proj1 (List.Forall_forall _ _) Hb a Hina).
      pose proof (proj1 (List.Forall_forall _ _) Ha b Hinb). cbn beta in *. lia. }
    subst b. f_equal. apply IH; try assumption.
    exact (Permutation_cons_inv P).
Qed.

Lemma sortTradesChronologically_permutation (g g' : list TradeRecord) :
  Permutation g g' ->
  NoDup (map Trade.tradeDate g) ->
  sortTradesChronologically g = sortTradesChronologically g'.
Proof.
  intros P Hnd.
  assert (Ps : Permutation (sortTradesChronologically g) g) by apply sortBy_permutation.
  assert (Ps' : Permutation (sortTradesChronologically g') g') by apply sortBy_permutation.
  apply sorted_strict_unique.
  - apply sorted_strict_of_NoDup; [apply sortBy_date_sorted |].
    rewrite (Permutation_map Trade.tradeDate Ps). exact Hnd.
  - apply sorted_strict_of_NoDup; [apply sortBy_date_sorted |].
    rewrite (Permutation_map Trade.tradeDate Ps'), <- (Permutation_map Trade.tradeDate P).
    exact Hnd.
  - rewrite Ps, Ps'. exact P.
Qed.

(** X5. The order in which the trades of a group arrive does not matter
    when their dates are pairwise distinct: two arrangements of the same
    trades give the same accumulator and the same realized gains. *)
Theorem group_result_ignores_arrival_order {R : Runtime} (now : Date)
    (g g' : list TradeRecord) :
  Permutation g g' ->
  NoDup (map Trade.tradeDate g) ->
  processTradesForHolding now g = processTradesForHolding now g'.
Proof.
  intros P Hnd.
  pose proof (sortTradesChronologically_permutation g g' P Hnd) as Hs.
  unfold processTradesForHolding.
  destruct g as [| t0 l]; destruct g' as [| t0' l'].
  - reflexivity.
  - apply Permutation_nil in P. discriminate.
  - symmetry in P. apply Permutation_nil in P. discriminate.
  - rewrite Hs. reflexivity.
Qed.

(** The sample trades with the sell first and the buys swapped. *)
Lemma group_result_ignores_arrival_order_witness :
  processTradesForHolding (R := Utc.runtime) Sample.now
    [Sample.buy1; Sample.buy2; Sample.sell30]
  = processTradesForHolding (R := Utc.runtime) Sample.now
      [Sample.sell30; Sample.buy2; Sample.buy1].
Proof.
  apply group_result_ignores_arrival_order.
  - etransitivity; [apply perm_skip, perm_swap |].
    etransitivity; [apply perm_swap |].
    apply perm_skip. apply perm_swap.
  - apply (bool_decide_unpack _). vm_compute. exact I.
Defined.

(** ** Order and uniqueness of the holdings *)

Lemma insertBy_sorted_total {A : Type} (cmp : A -> A -> Z) (x : A) (l : list A) :
  (forall a b, (0 < cmp a b)%Z -> (cmp b a <= 0)%Z) ->
  Sorted (fun a b => (cmp a b <= 0)%Z) l ->
  Sorted (fun a b => (cmp a b <= 0)%Z) (insertBy cmp x l).
Proof.
  intros Htotal. induction 1 as [| y l Hl IH Hy]; cbn [insertBy].
  - constructor; constructor.
  - destruct (Z.leb_spec (cmp x y) 0) as [Hle | Hgt].
    + constructor; [constructor; assumption |]. constructor. exact Hle.
    + constructor; [exact IH |].
      destruct l as [| z l']; cbn [insertBy].
      * constructor. apply Htotal. exact Hgt.
      * destruct (cmp x z <=? 0)%Z.
        -- constructor. apply Htotal. exact Hgt.
        -- constructor. inversion Hy; assumption.
Qed.

Lemma sortBy_sorted_total {A : Type} (cmp : A -> A -> Z) (l : list A) :
  (forall a b, (0 < cmp a b)%Z -> (cmp b a <= 0)%Z) ->
  Sorted (fun a b => (cmp a b <= 0)%Z) (sortBy cmp l).
Proof.
  intros Htotal. induction l as [| x l IH]; [constructor |].
  unfold sortBy in *. cbn [fold_right]. apply insertBy_sorted_total; assumption.
Qed.

Lemma compareZ_total (a b : string) :
  (0 < Utc.compareZ a b)%Z -> (Utc.compareZ b a <= 0)%Z.
Proof.
  unfold Utc.compareZ. rewrite (String.compare_antisym a b).
  destruct (String.compare b a); cbn; lia.
Qed.

Section HoldingsList.
Context {R : Runtime}.

Lemma analyzePortfolio_holdings_permutation (now : Date) (trades : list TradeRecord) :
  Permutation (Portfolio.holdings (analyzePortfolio now trades))
    (flat_map (groupHoldings now) (mapValues (groupTradesByHolding trades))).
Proof.
  unfold analyzePortfolio. destruct trades as [| t0 l]; [reflexivity |].
  rewrite processGroup_fold. cbn [Portfolio.holdings app]. apply sortBy_permutation.
Qed.

Lemma group_accumulator_identity (now : Date) (g : list TradeRecord)
    (acc : HoldingAccumulator) :
  HWG.accumulator (processTradesForHolding now g) = Some acc ->
  exists t, In t g /\ Acc.symbol acc = Trade.symbol t /\
            Acc.exchange acc = Trade.exchange t.
Proof.
  intros Ha. destruct g as [| t0 l] eqn:Eg; [discriminate |]. rewrite <- Eg in *.
  destruct (processTradesForHolding_first now g ltac:(rewrite Eg; discriminate))
    as (first & rest & Es & _ & Hacc).
  cbv zeta in Hacc. rewrite Hacc in Ha.
  pose proof (engine_identity now (first :: rest)
                (Acc.mk (Trade.symbol first) (Trade.isin first) (Trade.exchange first) [],
                 [])) as [Hsym Hexch].
  cbn [fst Acc.symbol Acc.exchange] in Hsym, Hexch.
  destruct (Acc.lots (fst (fold_left _ _ _))); [discriminate |].
  injection Ha as <-. exists first. split; [| split; assumption].
  apply (sortBy_In (fun a b => (Trade.tradeDate a - Trade.tradeDate b)%Z)).
  fold (sortTradesChronologically g). rewrite Es. left. reflexivity.
Qed.

(** X6. When [localeCompare] is total, the holdings are returned in
    ascending order of symbol: each one compares less than or equal to the
    next. *)
Theorem holdings_are_sorted_by_symbol (now : Date) (trades : list TradeRecord) :
  (forall a b : string, (0 < localeCompare a b)%Z -> (localeCompare b a <= 0)%Z) ->
  Sorted (fun a b => (localeCompare (Holding.symbol a) (Holding.symbol b) <= 0)%Z)
         (Portfolio.holdings (analyzePortfolio now trades)).
Proof.
  intros Htotal. unfold analyzePortfolio. destruct trades as [| t0 l]; [constructor |].
  destruct (fold_left (processGroup now) _ ([], [])) as [holdings gains].
  cbn [Portfolio.holdings].
  apply (sortBy_sorted_total
           (fun a b => localeCompare (Holding.symbol a) (Holding.symbol b))).
  intros a b. apply Htotal.
Qed.

Lemma groups_keys_of_holdings (now : Date) (gs : list (string * list TradeRecord)) :
  (forall k g t, In (k, g) gs -> In t g -> holdingKey t = k) ->
  NoDup (map fst gs) ->
  NoDup (map (fun h => createHoldingKey (Holding.symbol h) (Holding.exchange h))
             (flat_map (groupHoldings now) (map snd gs))) /\
  forall h, In h (flat_map (groupHoldings now) (map snd gs)) ->
            In (createHoldingKey (Holding.symbol h) (Holding.exchange h)) (map fst gs).
Proof.
  induction gs as [| [k g] gs IH]; intros Hkeys Hnd; cbn [map flat_map fst snd].
  - split; [constructor | intros h []].
  - apply NoDup_cons in Hnd. destruct Hnd as [Hk Hnd].
    destruct IH as [IHnd IHin];
      [intros k' g' t Hin; apply Hkeys; right; exact Hin | exact Hnd |].
    assert (Hhead : forall h, In h (groupHoldings now g) ->
                      createHoldingKey (Holding.symbol h) (Holding.exchange h) = k).
    { intros h Hh. unfold groupHoldings in Hh.
      destruct (HWG.accumulator (processTradesForHolding now g)) as [acc |] eqn:Ea;
        [| destruct Hh].
      destruct Hh as [<- | []].
      destruct (group_accumulator_identity now g acc Ea) as (t & Ht & Hs & He).
      cbn [holdingOfAccumulator Holding.symbol Holding.exchange].
      rewrite Hs, He. apply (Hkeys k g t); [left; reflexivity | exact Ht]. }
    split.
    + rewrite map_app. apply NoDup_app. split; [| split; [| exact IHnd]].
      * unfold groupHoldings.
        destruct (HWG.accumulator (processTradesForHolding now g)); cbn [map];
          [apply NoDup_singleton | constructor].
      * intros x Hx Hx'. apply list_elem_of_In in Hx, Hx'.
        apply in_map_iff in Hx. destruct Hx as (h & <- & Hh).
        apply in_map_iff in Hx'. destruct Hx' as (h' & Heq & Hh').
        apply Hk. apply list_elem_of_In.
        rewrite <- (Hhead h Hh), <- Heq. apply IHin. exact Hh'.
    + intros h Hh. apply in_app_or in Hh. destruct Hh as [Hh | Hh].
      * left. symmetry. apply Hhead. exact Hh.
      * right. apply IHin. exact Hh.
Qed.

(** X7. No two holdings of a result have the same grouping key, and hence
    no two have the same (symbol, exchange) pair. *)
Theorem one_holding_per_symbol_and_exchange (now : Date) (trades : list TradeRecord) :
  NoDup (map (fun h => createHoldingKey (Holding.symbol h) (Holding.exchange h))
             (Portfolio.holdings (analyzePortfolio now trades))) /\
  NoDup (map (fun h => (Holding.symbol h, Holding.exchange h))
             (Portfolio.holdings (analyzePortfolio now trades))).
Proof.
  assert (Hkey : NoDup (map (fun h => createHoldingKey (Holding.symbol h) (Holding.exchange h))
                          (Portfolio.holdings (analyzePortfolio now trades)))).
  { rewrite (Permutation_map _ (analyzePortfolio_holdings_permutation now trades)).
    apply groups_keys_of_holdings.
    - intros k g t Hin Ht. exact (proj2 (group_subset trades k g Hin t Ht)).
    - apply groups_NoDup. }
  split; [exact Hkey |].
  apply NoDup_ListNoDup.
  apply (NoDup_map_inv (fun p : string * string => createHoldingKey (fst p) (snd p))).
  rewrite map_map. apply NoDup_ListNoDup. exact Hkey.
Qed.
End HoldingsList.

(** On the UTC host, where strings compare by code units. *)
Lemma holdings_are_sorted_by_symbol_witness :
  Sorted (fun a b => (Utc.compareZ (Holding.symbol a) (Holding.symbol b) <= 0)%Z)
    (Portfolio.holdings
       (analyzePortfolio (R := Utc.runtime) Sample.now
          [Sample.buy1; Sample.buyLate; Sample.buy2])).
Proof.
  apply (holdings_are_sorted_by_symbol (R := Utc.runtime)).
  exact compareZ_total.
Defined.

(** ** The ISIN of a holding *)

Lemma truthy_false (s : string) : truthy s = false -> s = "".
Proof.
  unfold truthy. destruct (String.eqb_spec s ""); [tauto | discriminate].
Qed.

Section Isin.
Context {R : Runtime}.

Lemma engine_isin (now : Date) (processed : list TradeRecord) :
  forall st : HoldingAccumulator * list RealizedGainEntry,
    Acc.isin (fst (fold_left (processTrade now) processed st)) =
    if truthy (Acc.isin (fst st)) then Acc.isin (fst st) else firstIsin processed.
Proof.
  induction processed as [| t l IH]; intros [acc gains]; cbn [fold_left fst firstIsin].
  - destruct (truthy (Acc.isin acc)) eqn:E; [reflexivity |].
    apply truthy_false. exact E.
  - rewrite IH.
    assert (Hstep : Acc.isin (fst (processTrade now (acc, gains) t)) =
                    if truthy (Trade.isin t) && negb (truthy (Acc.isin acc))
                    then Trade.isin t else Acc.isin acc).
    { unfold processTrade. destruct (Trade.tradeType t); reflexivity. }
    rewrite Hstep.
    destruct (truthy (Acc.isin acc)) eqn:Ea; cbn [negb].
    + rewrite andb_false_r, Ea. reflexivity.
    + rewrite andb_true_r. destruct (truthy (Trade.isin t)) eqn:Et.
      * rewrite Et. reflexivity.
      * rewrite Ea. reflexivity.
Qed.

(** X9. The ISIN of the accumulator of a group is the first non-empty ISIN
    among its trades in chronological order, and the empty string when no
    trade has one; the symbol and the exchange are those of the earliest
    trade. *)
Theorem holding_isin_is_first_nonempty (now : Date) (g : list TradeRecord)
    (acc : HoldingAccumulator) :
  HWG.accumulator (processTradesForHolding now g) = Some acc ->
  Acc.isin acc = firstIsin (sortTradesChronologically g) /\
  exists first rest,
    sortTradesChronologically g = first :: rest /\
    Acc.symbol acc = Trade.symbol first /\ Acc.exchange acc = Trade.exchange first.
Proof.
  intros Ha. destruct g as [| t0 l] eqn:Eg; [discriminate |]. rewrite <- Eg in *.
  destruct (processTradesForHolding_first now g ltac:(rewrite Eg; discriminate))
    as (first & rest & Es & _ & Hacc).
  cbv zeta in Hacc. rewrite Hacc in Ha.
  pose proof (engine_isin now (first :: rest)
                (Acc.mk (Trade.symbol first) (Trade.isin first) (Trade.exchange first) [],
                 [])) as Hisin.
  pose proof (engine_identity now (first :: rest)
                (Acc.mk (Trade.symbol first) (Trade.isin first) (Trade.exchange first) [],
                 [])) as [Hsym Hexch].
  cbn [fst Acc.isin Acc.symbol Acc.exchange] in Hisin, Hsym, Hexch.
  remember (fold_left (processTrade now) (first :: rest) _) as st eqn:Est in *.
  destruct (Acc.lots (fst st)); [discriminate |].
  injection Ha as <-. rewrite Es. split.
  - rewrite Hisin. cbn [firstIsin]. destruct (truthy (Trade.isin first)); reflexivity.
  - exists first, rest. split; [reflexivity |]. split; assumption.
Qed.
End Isin.

(** The first trade has no ISIN, the second has one. *)
Lemma holding_isin_is_first_nonempty_witness :
  let first := Trade.mk "T7" "TCS" "" (Utc.date 2024 1 10) "NSE" buy 5 3500 in
  let second := Trade.mk "T8" "TCS" "INE467B01029" (Utc.date 2024 2 15) "NSE" buy 5 3600 in
  exists acc,
    HWG.accumulator (processTradesForHolding (R := Utc.runtime) Sample.now [second; first])
      = Some acc /\
    Acc.isin acc = "INE467B01029".
Proof.
  intros first second.
  assert (Ha : exists acc, HWG.accumulator
                 (processTradesForHolding (R := Utc.runtime) Sample.now [second; first])
               = Some acc) by (eexists; vm_compute; reflexivity).
  destruct Ha as [acc Ha]. exists acc. split; [exact Ha |].
  destruct (holding_isin_is_first_nonempty (R := Utc.runtime) Sample.now
              [second; first] acc Ha) as [Hisin _].
  rewrite Hisin. vm_compute. reflexivity.
Defined.

(** * Further properties of the merge *)

Lemma keepFirst_NoDup_id (l : list TradeRecord) :
  forall seen,
    NoDup (map Trade.tradeId l) ->
    (forall t, In t l -> ~ In (Trade.tradeId t) seen) ->
    keepFirst seen l = l.
Proof.
  induction l as [| t l IH]; intros seen Hnd Hseen; cbn [keepFirst]; [reflexivity |].
  cbn [map] in Hnd. apply NoDup_cons in Hnd. destruct Hnd as [Ht Hnd].
  rewrite (proj2 (existsb_eqb_not_In _ _) (Hseen t (or_introl eq_refl))).
  f_equal. apply IH; [exact Hnd |].
  intros u Hu [Heq | Hin].
  - apply Ht. apply list_elem_of_In. rewrite Heq. apply in_map. exact Hu.
  - apply (Hseen u); [right; exact Hu | exact Hin].
Qed.

Lemma insertBy_date_head (x : TradeRecord) (l : list TradeRecord) :
  Forall (fun y => (Trade.tradeDate x <= Trade.tradeDate y)%Z) l ->
  insertBy (fun a b => (Trade.tradeDate a - Trade.tradeDate b)%Z) x l = x :: l.
Proof.
  destruct 1 as [| y l Hy _]; cbn [insertBy]; [reflexivity |].
  rewrite (proj2 (Z.leb_le _ _)) by lia. reflexivity.
Qed.

Lemma sortBy_date_sorted_id (l : list TradeRecord) :
  StronglySorted (fun a b => (Trade.tradeDate a <= Trade.tradeDate b)%Z) l ->
  sortBy (fun a b => (Trade.tradeDate a - Trade.tradeDate b)%Z) l = l.
Proof.
  induction 1 as [| x l Hl IH Hx]; [reflexivity |].
  unfold sortBy in *. cbn [fold_right]. rewrite IH. apply insertBy_date_head. exact Hx.
Qed.

Lemma merged_ids_NoDup (tradeLists : list (list TradeRecord)) :
  NoDup (map Trade.tradeId (mergeTradebooks tradeLists)).
Proof.
  rewrite mergeTradebooks_keepFirst.
  rewrite (Permutation_map Trade.tradeId (sortBy_permutation _ _)).
  apply keepFirst_NoDup.
Qed.

(** X10. Merging is idempotent: the result of a merge, passed again as the
    only source, comes back unchanged; in particular a merged list is
    already sorted and free of duplicates. *)
Theorem merge_is_idempotent (tradeLists : list (list TradeRecord)) :
  mergeTradebooks [mergeTradebooks tradeLists] = mergeTradebooks tradeLists.
Proof.
  rewrite (mergeTradebooks_keepFirst [mergeTradebooks tradeLists]).
  cbn [concat]. rewrite app_nil_r.
  rewrite keepFirst_NoDup_id; [| apply merged_ids_NoDup | intros t _ []].
  apply sortBy_date_sorted_id.
  rewrite mergeTradebooks_keepFirst. apply sortBy_date_sorted.
Qed.

(** X11. A source all of whose trade ids occur in the sources before it
    adds nothing: the merge with it equals the merge without it. *)
Theorem merge_ignores_source_of_duplicates (tradeLists : list (list TradeRecord))
    (again : list TradeRecord) :
  (forall t, In t again ->
             In (Trade.tradeId t) (map Trade.tradeId (concat tradeLists))) ->
  mergeTradebooks (tradeLists ++ [again]) = mergeTradebooks tradeLists.
Proof.
  intros Hdup. rewrite !mergeTradebooks_keepFirst. f_equal.
  rewrite concat_app. cbn [concat]. rewrite app_nil_r, keepFirst_app.
  rewrite (keepFirst_seen again); [apply app_nil_r |].
  intros t Ht. rewrite app_nil_r. apply Hdup. exact Ht.
Qed.

Lemma merge_ignores_source_of_duplicates_witness :
  let again := [Sample.trade "T1" "RELIANCE" "NSE" (Utc.date 2024 1 10) buy 50 2500] in
  mergeTradebooks ([[Sample.buy1]; [Sample.buy2]] ++ [again])
  = mergeTradebooks [[Sample.buy1]; [Sample.buy2]].
Proof.
  intros again. apply merge_ignores_source_of_duplicates.
  intros t [<- | []]. left. reflexivity.
Defined.

(** X12. When the trade ids of the sources are pairwise distinct nothing is
    lost: the merge is a rearrangement of all the records. *)
Theorem merge_without_duplicates_keeps_all (tradeLists : list (list TradeRecord)) :
  NoDup (map Trade.tradeId (concat tradeLists)) ->
  Permutation (mergeTradebooks tradeLists) (concat tradeLists) /\
  length (mergeTradebooks tradeLists) = length (concat tradeLists).
Proof.
  intros Hnd.
  assert (P : Permutation (mergeTradebooks tradeLists) (concat tradeLists)).
  { rewrite mergeTradebooks_keepFirst.
    rewrite keepFirst_NoDup_id; [apply sortBy_permutation | exact Hnd | intros t _ []]. }
  split; [exact P | apply Permutation_length; exact P].
Qed.

Lemma merge_without_duplicates_keeps_all_witness :
  length (mergeTradebooks [[Sample.buy2]; [Sample.sell30; Sample.buy1]]) = 3%nat.
Proof.
  apply (merge_without_duplicates_keeps_all [[Sample.buy2]; [Sample.sell30; Sample.buy1]]).
  apply (bool_decide_unpack _). vm_compute. exact I.
Defined.

(** * Further properties of the price overlay and of the stores *)

Section OverlayMore.
Context {R : Runtime}.

Lemma updateHolding_symbol (now : Date) (quotes : gmap string NseQuote) (h : Holding) :
  Holding.symbol (updateHolding now quotes h) = Holding.symbol h.
Proof. unfold updateHolding. destruct (quotes !! Holding.symbol h); reflexivity. Qed.



(** X14. For a holding with a quote the overlay keeps the fields computed
    by the engine and sets: the current price to the last price; the
    profit-and-loss to the current value, last price x total quantity, minus
    the cost, average price x total quantity; the loss flag exactly when the
    profit-and-loss is negative, which for a positive quantity happens only
    when the last price is below the average price; the percentage to
    profit-and-loss / cost x 100 for a positive cost, and to 0 otherwise. *)
Theorem overlay_values (now : Date) (quotes : gmap string NseQuote)
    (h : Holding) (quote : NseQuote) :
  quotes !! Holding.symbol h = Some quote ->
  let h' := updateHolding now quotes h in
  let cost := Holding.avgPurchasePrice h * Holding.totalQuantity h in
  (Holding.symbol h' = Holding.symbol h /\ Holding.isin h' = Holding.isin h /\
   Holding.exchange h' = Holding.exchange h /\ Holding.lots h' = Holding.lots h /\
   Holding.totalQuantity h' = Holding.totalQuantity h /\
   Holding.avgPurchasePrice h' = Holding.avgPurchasePrice h /\
   Holding.oldestPurchaseDate h' = Holding.oldestPurchaseDate h /\
   Holding.newestPurchaseDate h' = Holding.newestPurchaseDate h /\
   Holding.classification h' = Holding.classification h) /\
  Holding.currentPrice h' = Some (Quote.lastPrice quote) /\
  exists pnl pnlPercent isLoss,
    Holding.pnl h' = Some pnl /\ Holding.pnlPercent h' = Some pnlPercent /\
    Holding.isLoss h' = Some isLoss /\
    pnl == Quote.lastPrice quote * Holding.totalQuantity h - cost /\
    (isLoss = true <-> pnl < 0) /\
    (0 < Holding.totalQuantity h -> isLoss = true ->
     Quote.lastPrice quote < Holding.avgPurchasePrice h) /\
    (0 < cost -> pnlPercent == pnl / cost * 100) /\
    (cost <= 0 -> pnlPercent == 0).
Proof.
  intros Hq h' cost. unfold h', updateHolding. rewrite Hq. cbn.
  split; [repeat split |]. split; [reflexivity |].
  eexists _, _, _. split; [reflexivity |]. split; [reflexivity |]. split; [reflexivity |].
  split; [reflexivity |]. split; [apply Qltb_lt |]. split.
  - intros Htq Hloss. apply Qltb_lt in Hloss.
    apply Qnot_le_lt. intros Hle.
    assert (Holding.avgPurchasePrice h * Holding.totalQuantity h
            <= Quote.lastPrice quote * Holding.totalQuantity h)
      by (apply Qmult_le_compat_r; lra). lra.
  - split.
    + intros Hc. fold cost. rewrite (proj2 (Qltb_lt 0 cost) Hc). reflexivity.
    + intros Hc. fold cost. rewrite (proj2 (Qltb_ge 0 cost) Hc). reflexivity.
Qed.

(** X29. The overlay keeps the length and the order of the store. A holding
    whose symbol is neither quoted nor the name of a property of
    [Object.prototype] is returned as it is, with all its fields, the
    earlier price and profit-and-loss fields included; and a holding from
    which a new object is built has a symbol that is quoted or names such a
    property. *)
Theorem overlay_keeps_holdings_without_property (now : Date)
    (quotes : gmap string NseQuote) (holdings : list Holding) :
  let updated := PlainObject.updateHoldingsWithPrices now quotes holdings in
  length updated = length holdings /\
  (forall (i : nat) (h : Holding),
      holdings !! i = Some h ->
      quotes !! Holding.symbol h = None ->
      ~ In (Holding.symbol h) PlainObject.prototypeProperties ->
      updated !! i = Some (PlainObject.returned h)) /\
  (forall (i : nat) (h : Holding) (object : PlainObject.Overlaid.t),
      holdings !! i = Some h ->
      updated !! i = Some (PlainObject.built object) ->
      PlainObject.Overlaid.holding object = h /\
      ((exists quote, quotes !! Holding.symbol h = Some quote) \/
       In (Holding.symbol h) PlainObject.prototypeProperties)).
Proof.
  intros updated.
  assert (Hlookup : forall i, updated !! i
                              = PlainObject.updateHolding now quotes <$> holdings !! i).
  { unfold updated, PlainObject.updateHoldingsWithPrices. intros i.
    apply list_lookup_fmap. }
  split; [unfold updated, PlainObject.updateHoldingsWithPrices; apply length_map |].
  split.
  - intros i h Hi Hq Hnot. rewrite Hlookup, Hi. cbn.
    rewrite (proj1 (overlay_returns_holding_without_property now quotes h Hq Hnot)).
    reflexivity.
  - intros i h object Hi Hu. rewrite Hlookup, Hi in Hu. cbn in Hu.
    injection Hu as Hu. unfold PlainObject.updateHolding in Hu.
    destruct (PlainObject.get quotes (Holding.symbol h)) eqn:Eg;
      cbn [PlainObject.lastPriceOf] in Hu.
    + injection Hu as <-. split; [reflexivity |]. left.
      unfold PlainObject.get in Eg.
      destruct (quotes !! Holding.symbol h) as [q |]; [exists q; reflexivity |].
      destruct (existsb _ _); discriminate.
    + injection Hu as <-. split; [reflexivity |]. right.
      exact (proj2 (proj1 (get_inherited quotes _) Eg)).
    + discriminate.
Qed.
End OverlayMore.

Lemma overlay_values_witness :
  Holding.currentPrice
    (updateHolding (R := Utc.runtime) Sample.now Sample.infyQuote Sample.straddling)
  = Some 1350.
Proof.
  destruct (overlay_values (R := Utc.runtime) Sample.now Sample.infyQuote
              Sample.straddling (Quote.mk 1350 (-5) (-1 # 3))) as (_ & Hp & _).
  - reflexivity.
  - exact Hp.
Defined.

(** A quote for INFY only leaves a priced RELIANCE holding as it was. *)
Lemma overlay_keeps_holdings_without_property_witness :
  PlainObject.updateHoldingsWithPrices (R := Utc.runtime) Sample.now Sample.infyQuote
    [Sample.pricedHolding] !! 0%nat
  = Some (PlainObject.returned Sample.pricedHolding).
Proof.
  destruct (overlay_keeps_holdings_without_property (R := Utc.runtime) Sample.now
              Sample.infyQuote [Sample.pricedHolding]) as (_ & Hkeep & _).
  apply Hkeep.
  - reflexivity.
  - reflexivity.
  - apply (bool_decide_unpack (~ In "RELIANCE" PlainObject.prototypeProperties)).
    vm_compute. exact I.
Defined.

(** ** Clearing prices, recomputing holdings *)

Lemma stcl_selects_cleared (h : Holding) :
  Holding.stQuantity (clearedHolding h) = Holding.stQuantity h /\
  Holding.stPnl (clearedHolding h) = Holding.stPnl h /\
  Holding.ltQuantity (clearedHolding h) = Holding.ltQuantity h /\
  Holding.ltPnl (clearedHolding h) = Holding.ltPnl h.
Proof. repeat split. Qed.

Lemma filter_map_commute {A B : Type} (f : A -> B) (p : B -> bool) (q : A -> bool)
    (l : list A) :
  (forall x, p (f x) = q x) ->
  List.filter p (map f l) = map f (List.filter q l).
Proof.
  intros Hpq. induction l as [| x l IH]; [reflexivity |].
  cbn [map List.filter]. rewrite Hpq. destruct (q x); cbn [map]; rewrite IH; reflexivity.
Qed.

(** X15. [clearPrices] resets the current price, the profit-and-loss, its
    percentage and the loss flag of every holding and marks the prices as
    not loaded, but keeps the short-term and long-term split: the two
    opportunity lists after it are those before it, cleared in the same way.
    Clearing twice is clearing once. *)
Theorem clearPrices_keeps_opportunities (s : Stores.t) :
  let s' := clearPrices s in
  Stores.pricesLoaded s' = false /\
  Forall (fun h => Holding.currentPrice h = None /\ Holding.pnl h = None /\
                   Holding.pnlPercent h = None /\ Holding.isLoss h = None)
         (Stores.holdings s') /\
  stclOpportunities (Stores.holdings s')
    = map clearedHolding (stclOpportunities (Stores.holdings s)) /\
  ltclOpportunities (Stores.holdings s')
    = map clearedHolding (ltclOpportunities (Stores.holdings s)) /\
  clearPrices s' = s'.
Proof.
  cbv zeta. unfold clearPrices. cbn [Stores.holdings Stores.pricesLoaded Stores.realizedGains].
  split; [reflexivity |]. split.
  { apply Forall_map. apply List.Forall_forall. intros h _. repeat split. }
  split; [apply filter_map_commute; reflexivity |].
  split; [apply filter_map_commute; reflexivity |].
  f_equal. rewrite map_map. apply map_ext. reflexivity.
Qed.

Section Recompute.
Context {R : Runtime}.

(** X16. Holdings recomputed from trades carry no price: every optional
    field is unset, and both opportunity lists are empty until an overlay
    runs. *)
Theorem recomputed_holdings_have_no_opportunities (now : Date)
    (trades : list TradeRecord) (s : Stores.t) :
  let s' := updateHoldingsFromTrades now trades s in
  Stores.holdings s' = Portfolio.holdings (analyzePortfolio now trades) /\
  Stores.realizedGains s' = Portfolio.realizedGains (analyzePortfolio now trades) /\
  Forall (fun h => Holding.currentPrice h = None /\ Holding.pnl h = None /\
                   Holding.stQuantity h = None /\ Holding.ltQuantity h = None /\
                   Holding.stPnl h = None /\ Holding.ltPnl h = None)
         (Stores.holdings s') /\
  stclOpportunities (Stores.holdings s') = [] /\
  ltclOpportunities (Stores.holdings s') = [].
Proof.
  cbv zeta. unfold updateHoldingsFromTrades. cbn [Stores.holdings Stores.realizedGains].
  split; [reflexivity |]. split; [reflexivity |].
  assert (Hnone : Forall (fun h => Holding.currentPrice h = None /\ Holding.pnl h = None /\
                   Holding.stQuantity h = None /\ Holding.ltQuantity h = None /\
                   Holding.stPnl h = None /\ Holding.ltPnl h = None)
                  (Portfolio.holdings (analyzePortfolio now trades))).
  { apply List.Forall_forall. intros h Hh. apply analyzePortfolio_holdings in Hh.
    destruct Hh as (k & g & acc & _ & _ & ->). repeat split. }
  split; [exact Hnone |].
  split.
  - destruct (stclOpportunities _) as [| h l] eqn:E; [reflexivity |].
    assert (Hin : In h (stclOpportunities (Portfolio.holdings (analyzePortfolio now trades))))
      by (rewrite E; left; reflexivity).
    apply stclOpportunities_In in Hin. destruct Hin as [Hin (q & p & Hq & _)].
    pose proof (proj1 (List.Forall_forall _ _) Hnone h Hin) as (_ & _ & Hn & _).
    congruence.
  - destruct (ltclOpportunities _) as [| h l] eqn:E; [reflexivity |].
    assert (Hin : In h (ltclOpportunities (Portfolio.holdings (analyzePortfolio now trades))))
      by (rewrite E; left; reflexivity).
    apply ltclOpportunities_In in Hin. destruct Hin as [Hin (q & p & Hq & _)].
    pose proof (proj1 (List.Forall_forall _ _) Hnone h Hin) as (_ & _ & _ & Hn & _).
    congruence.
Qed.
End Recompute.

(** ** Whole-holding classification against the per-lot split *)

(** X17. The short-term and long-term stores split the holdings: each
    holding is in exactly one of them, and together, short-term first, they
    are a rearrangement of the holdings. *)
Theorem classification_stores_partition (holdings : list Holding) :
  Permutation (shortTermHoldings holdings ++ longTermHoldings holdings) holdings /\
  forall h, In h holdings ->
    (In h (shortTermHoldings holdings) /\ ~ In h (longTermHoldings holdings) /\
     Holding.classification h = SHORT_TERM) \/
    (In h (longTermHoldings holdings) /\ ~ In h (shortTermHoldings holdings) /\
     Holding.classification h = LONG_TERM).
Proof.
  split.
  - unfold shortTermHoldings, longTermHoldings.
    induction holdings as [| h l IH]; cbn [List.filter app]; [reflexivity |].
    destruct (Holding.classification h); cbn [isShortTerm isLongTerm app].
    + apply perm_skip. exact IH.
    + etransitivity; [| apply perm_skip; exact IH]. symmetry. apply Permutation_middle.
  - intros h Hin. unfold shortTermHoldings, longTermHoldings. rewrite !filter_In.
    destruct (Holding.classification h); cbn [isShortTerm isLongTerm]; [left | right];
      (split; [tauto |]); (split; [| reflexivity]); intros [_ H]; discriminate.
Qed.

Lemma classification_stores_partition_witness :
  In Sample.straddling (longTermHoldings [Sample.pricedHolding; Sample.straddling]).
Proof.
  destruct (classification_stores_partition [Sample.pricedHolding; Sample.straddling])
    as [_ Hsplit].
  destruct (Hsplit Sample.straddling (or_intror (or_introl eq_refl)))
    as [(_ & _ & Hc) | (Hin & _)]; [discriminate Hc | exact Hin].
Defined.

Section Granularity.
Context {R : Runtime}.

Lemma all_short_term_lots (now : Date) (lots : list HoldingLot) :
  (forall d1 d2 : Date, (d1 <= d2)%Z ->
     (differenceInDays now d2 <= differenceInDays now d1)%Z) ->
  lots <> [] ->
  classifyHolding now (findOldestPurchaseDate now lots) = SHORT_TERM ->
  longTermLots now lots = [].
Proof.
  intros Hmono Hne Hclass.
  destruct (findOldestPurchaseDate_min now lots Hne) as [Hmin _].
  unfold classifyHolding in Hclass.
  destruct (Z.leb_spec (differenceInDays now (findOldestPurchaseDate now lots)) 365)
    as [Hold |]; [| discriminate].
  unfold longTermLots. clear Hne.
  generalize dependent (findOldestPurchaseDate now lots). intros d Hmin Hold.
  induction Hmin as [| lot rest Hlot _ IH]; [reflexivity |].
  cbn [List.filter].
  assert (Hshort : isShortTermLot now lot = true).
  { unfold isShortTermLot. apply Z.leb_le. pose proof (Hmono _ _ Hlot). lia. }
  rewrite Hshort. cbn [negb]. exact IH.
Qed.
End Granularity.

Section GranularityTheorem.
Context {R : Runtime}.

Lemma accumulator_lots_nonempty (now : Date) (g : list TradeRecord)
    (acc : HoldingAccumulator) :
  HWG.accumulator (processTradesForHolding now g) = Some acc -> Acc.lots acc <> [].
Proof.
  intros Ha. destruct (processTradesForHolding_run now g) as (acc0 & _ & _ & Hacc).
  rewrite Hacc in Ha.
  destruct (Acc.lots (fst (fold_left _ _ _))) eqn:El; [discriminate |].
  injection Ha as <-. rewrite El. discriminate.
Qed.

(** X18. When the day count of the host does not grow with the purchase
    date, a holding that the engine classifies SHORT_TERM has no long-term
    lot at the same instant: overlaid then, with or without a quote, it is
    never a long-term-loss opportunity. *)
Theorem short_term_holding_is_no_long_term_opportunity (now : Date)
    (trades : list TradeRecord) (quotes : gmap string NseQuote)
    (h : Holding) (store : list Holding) :
  (forall d1 d2 : Date, (d1 <= d2)%Z ->
     (differenceInDays now d2 <= differenceInDays now d1)%Z) ->
  In h (Portfolio.holdings (analyzePortfolio now trades)) ->
  Holding.classification h = SHORT_TERM ->
  ~ In (updateHolding now quotes h) (ltclOpportunities store).
Proof.
  intros Hmono Hh Hclass Hopp.
  apply analyzePortfolio_holdings in Hh. destruct Hh as (k & g & acc & _ & Ha & ->).
  pose proof (accumulator_lots_nonempty now g acc Ha) as Hne.
  apply ltclOpportunities_In in Hopp. destruct Hopp as [_ (q & p & Hq & _ & Hq0 & _)].
  unfold updateHolding in Hq.
  cbn [holdingOfAccumulator Holding.symbol Holding.classification] in Hq, Hclass.
  destruct (quotes !! Acc.symbol acc) as [quote |].
  - cbn [Holding.ltQuantity Holding.lots] in Hq. injection Hq as <-.
    destruct (classifyLots_fields now (Acc.lots acc) (Quote.lastPrice quote))
      as (_ & Hlq & _).
    rewrite (all_short_term_lots now (Acc.lots acc) Hmono Hne Hclass) in Hlq.
    rewrite lotsQuantity_nil in Hlq. lra.
  - cbn [Holding.ltQuantity] in Hq. discriminate.
Qed.
End GranularityTheorem.

Lemma utc_days_antitone (now d1 d2 : Date) :
  (d1 <= d2)%Z ->
  (differenceInDays (Runtime := Utc.runtime) now d2
   <= differenceInDays (Runtime := Utc.runtime) now d1)%Z.
Proof.
  intros Hle. cbn [differenceInDays Utc.runtime].
  apply Z.quot_le_mono; [reflexivity | lia].
Qed.

(** Buys of February and March 2024, seen on June 1, 2024. *)
Lemma short_term_holding_is_no_long_term_opportunity_witness :
  exists h,
    In h (Portfolio.holdings
            (analyzePortfolio (R := Utc.runtime) Sample.now [Sample.buy2; Sample.buyLate])) /\
    ~ In (updateHolding (R := Utc.runtime) Sample.now Sample.infyQuote h)
         (ltclOpportunities
            (updateHoldingsWithPrices (R := Utc.runtime) Sample.now Sample.infyQuote
               (Portfolio.holdings
                  (analyzePortfolio (R := Utc.runtime) Sample.now
                     [Sample.buy2; Sample.buyLate])))).
Proof.
  set (trades := [Sample.buy2; Sample.buyLate]).
  assert (Hh : exists h rest, Portfolio.holdings
                 (analyzePortfolio (R := Utc.runtime) Sample.now trades) = h :: rest)
    by (eexists _, _; vm_compute; reflexivity).
  destruct Hh as (h & rest & Hh).
  assert (Hin : In h (Portfolio.holdings
                        (analyzePortfolio (R := Utc.runtime) Sample.now trades)))
    by (rewrite Hh; left; reflexivity).
  exists h. split; [exact Hin |].
  apply (short_term_holding_is_no_long_term_opportunity (R := Utc.runtime) Sample.now trades).
  - apply utc_days_antitone.
  - exact Hin.
  - vm_compute in Hh. injection Hh as <- _. reflexivity.
Defined.

(** * The sell orders of a harvest *)

Lemma stclOrders_flat (sel : gset string) (opps : list Holding) :
  forall orders,
    stclOrders opps sel orders = orders ++ flat_map (stclOrderOf sel) opps.
Proof.
  induction opps as [| opp opps IH]; intros orders.
  - cbn. rewrite app_nil_r. reflexivity.
  - unfold stclOrders in *. cbn [fold_left flat_map]. rewrite IH.
    unfold stclOrderOf at 2, stclOrders. cbn [fold_left].
    destruct (Holding.currentPrice opp), (Holding.stQuantity opp);
      rewrite ?app_nil_r; try reflexivity.
    destruct (bool_decide _ && negb _); cbn [app];
      rewrite ?app_nil_r, <- ?app_assoc; reflexivity.
Qed.

Lemma ltclOrders_flat (sel : gset string) (opps : list Holding) :
  forall orders,
    ltclOrders opps sel orders = orders ++ flat_map (ltclOrderOf sel) opps.
Proof.
  induction opps as [| opp opps IH]; intros orders.
  - cbn. rewrite app_nil_r. reflexivity.
  - unfold ltclOrders in *. cbn [fold_left flat_map]. rewrite IH.
    unfold ltclOrderOf at 2, ltclOrders. cbn [fold_left].
    destruct (Holding.currentPrice opp), (Holding.ltQuantity opp);
      rewrite ?app_nil_r; try reflexivity.
    destruct (bool_decide _ && negb _); cbn [app];
      rewrite ?app_nil_r, <- ?app_assoc; reflexivity.
Qed.

Lemma harvestOrders_flat (holdings : list Holding) (s1 s2 : gset string) :
  harvestOrders holdings s1 s2 =
  flat_map (stclOrderOf s1) (stclOpportunities holdings)
  ++ flat_map (ltclOrderOf s2) (ltclOpportunities holdings).
Proof.
  unfold harvestOrders. rewrite ltclOrders_flat, stclOrders_flat. reflexivity.
Qed.

Lemma Qeq_bool_pos (q : Q) : 0 < q -> Qeq_bool q 0 = false.
Proof.
  intros Hq. destruct (Qeq_bool q 0) eqn:E; [| reflexivity].
  apply Qeq_bool_iff in E. lra.
Qed.

Lemma stclOrderOf_spec (sel : gset string) (h : Holding) (o : SellOrder) :
  (exists q p, Holding.stQuantity h = Some q /\ Holding.stPnl h = Some p /\
               0 < q /\ p < 0) ->
  (In o (stclOrderOf sel h) <->
   Holding.symbol h ∈ sel /\
   exists cp, Holding.currentPrice h = Some cp /\
     o = Order.mk (Holding.symbol h) (Holding.exchange h)
           (nullish (Holding.stQuantity h) 0)
           (nullish (Holding.stAvgPrice h) (Holding.avgPurchasePrice h))
           (Holding.oldestPurchaseDate h) cp
           (Qabs (nullish (Holding.stPnl h) 0))).
Proof.
  intros (q & p & Hq & Hp & Hq0 & Hp0).
  unfold stclOrderOf, stclOrders. cbn [fold_left]. rewrite Hq, Hp. cbn [nullish].
  rewrite (Qeq_bool_pos q Hq0). cbn [negb]. rewrite andb_true_r.
  destruct (Holding.currentPrice h) as [cp |].
  - destruct (bool_decide_reflect (Holding.symbol h ∈ sel)) as [Hsel | Hsel]; cbn [app In].
    + split.
      * intros [<- | []]. split; [exact Hsel |]. exists cp. split; reflexivity.
      * intros (_ & cp' & [= <-] & ->). left. reflexivity.
    + split; [intros [] | intros [Hs _]; contradiction].
  - cbn [In]. split; [intros [] | intros (_ & cp & Hcp & _); discriminate].
Qed.

Lemma ltclOrderOf_spec (sel : gset string) (h : Holding) (o : SellOrder) :
  (exists q p, Holding.ltQuantity h = Some q /\ Holding.ltPnl h = Some p /\
               0 < q /\ p < 0) ->
  (In o (ltclOrderOf sel h) <->
   Holding.symbol h ∈ sel /\
   exists cp, Holding.currentPrice h = Some cp /\
     o = Order.mk (Holding.symbol h) (Holding.exchange h)
           (nullish (Holding.ltQuantity h) 0)
           (nullish (Holding.ltAvgPrice h) (Holding.avgPurchasePrice h))
           (Holding.oldestPurchaseDate h) cp
           (Qabs (nullish (Holding.ltPnl h) 0))).
Proof.
  intros (q & p & Hq & Hp & Hq0 & Hp0).
  unfold ltclOrderOf, ltclOrders. cbn [fold_left]. rewrite Hq, Hp. cbn [nullish].
  rewrite (Qeq_bool_pos q Hq0). cbn [negb]. rewrite andb_true_r.
  destruct (Holding.currentPrice h) as [cp |].
  - destruct (bool_decide_reflect (Holding.symbol h ∈ sel)) as [Hsel | Hsel]; cbn [app In].
    + split.
      * intros [<- | []]. split; [exact Hsel |]. exists cp. split; reflexivity.
      * intros (_ & cp' & [= <-] & ->). left. reflexivity.
    + split; [intros [] | intros [Hs _]; contradiction].
  - cbn [In]. split; [intros [] | intros (_ & cp & Hcp & _); discriminate].
Qed.

(** The orders, one by one: an order sells the short-term part of a
    selected short-term-loss opportunity with a current price, or the
    long-term part of a selected long-term-loss opportunity with one. *)
Lemma harvestOrders_In (holdings : list Holding) (s1 s2 : gset string) (o : SellOrder) :
  In o (harvestOrders holdings s1 s2) <->
  (exists h, In h (stclOpportunities holdings) /\ Holding.symbol h ∈ s1 /\
             sellsShortTermOf h o /\ 0 < Order.quantity o /\
             Order.expectedLoss o = Qabs (nullish (Holding.stPnl h) 0)) \/
  (exists h, In h (ltclOpportunities holdings) /\ Holding.symbol h ∈ s2 /\
             sellsLongTermOf h o /\ 0 < Order.quantity o /\
             Order.expectedLoss o = Qabs (nullish (Holding.ltPnl h) 0)).
Proof.
  rewrite harvestOrders_flat, in_app_iff, !in_flat_map.
  apply Morphisms_Prop.or_iff_morphism.
  - split.
    + intros (h & Hh & Ho).
      pose proof (proj2 (proj1 (stclOpportunities_In holdings h) Hh)) as Hcond.
      apply (stclOrderOf_spec s1 h o Hcond) in Ho.
      destruct Ho as (Hsel & cp & Hcp & ->).
      destruct Hcond as (q & p & Hq & Hp & Hq0 & Hp0).
      exists h. split; [exact Hh |]. split; [exact Hsel |].
      unfold sellsShortTermOf. cbn. rewrite Hq, Hp. cbn [nullish].
      split; [| split; [exact Hq0 | reflexivity]].
      repeat (split; [first [reflexivity | assumption] |]).
      exists p. split; [reflexivity |]. split; [exact Hp0 |]. apply Qabs_neg. lra.
    + intros (h & Hh & Hsel & Hs & Hq0 & He). exists h. split; [exact Hh |].
      pose proof (proj2 (proj1 (stclOpportunities_In holdings h) Hh)) as Hcond.
      apply (stclOrderOf_spec s1 h o Hcond). split; [exact Hsel |].
      destruct Hs as (H1 & H2 & H3 & H4 & H5 & H6 & _).
      exists (Order.currentPrice o). split; [exact H4 |].
      rewrite H5. cbn [nullish]. rewrite <- H1, <- H2, <- H3, <- H6, <- He.
      destruct o. reflexivity.
  - split.
    + intros (h & Hh & Ho).
      pose proof (proj2 (proj1 (ltclOpportunities_In holdings h) Hh)) as Hcond.
      apply (ltclOrderOf_spec s2 h o Hcond) in Ho.
      destruct Ho as (Hsel & cp & Hcp & ->).
      destruct Hcond as (q & p & Hq & Hp & Hq0 & Hp0).
      exists h. split; [exact Hh |]. split; [exact Hsel |].
      unfold sellsLongTermOf. cbn. rewrite Hq, Hp. cbn [nullish].
      split; [| split; [exact Hq0 | reflexivity]].
      repeat (split; [first [reflexivity | assumption] |]).
      exists p. split; [reflexivity |]. split; [exact Hp0 |]. apply Qabs_neg. lra.
    + intros (h & Hh & Hsel & Hs & Hq0 & He). exists h. split; [exact Hh |].
      pose proof (proj2 (proj1 (ltclOpportunities_In holdings h) Hh)) as Hcond.
      apply (ltclOrderOf_spec s2 h o Hcond). split; [exact Hsel |].
      destruct Hs as (H1 & H2 & H3 & H4 & H5 & H6 & _).
      exists (Order.currentPrice o). split; [exact H4 |].
      rewrite H5. cbn [nullish]. rewrite <- H1, <- H2, <- H3, <- H6, <- He.
      destruct o. reflexivity.
Qed.

(** X19. [handleHarvest] leaves the page as it is when no order results,
    and otherwise stores the orders and opens the confirmation. Every order
    has a positive quantity and a positive expected loss and sells the
    short-term part of a selected short-term-loss opportunity, or the
    long-term part of a selected long-term-loss opportunity; and every
    selected opportunity that has a current price gets its order. *)
Theorem harvest_orders_are_selected_losses (holdings : list Holding)
    (stclSelected ltclSelected : gset string) (page : Page.t) :
  let orders := harvestOrders holdings stclSelected ltclSelected in
  let page' := handleHarvest holdings stclSelected ltclSelected page in
  (orders = [] -> page' = page) /\
  (orders <> [] ->
   Page.pendingOrders page' = orders /\ Page.showSellConfirmModal page' = true) /\
  (forall o, In o orders ->
     0 < Order.quantity o /\ 0 < Order.expectedLoss o /\
     exists h, In h holdings /\
       (Holding.symbol h ∈ stclSelected /\ sellsShortTermOf h o \/
        Holding.symbol h ∈ ltclSelected /\ sellsLongTermOf h o)) /\
  (forall h cp,
     In h (stclOpportunities holdings) -> Holding.symbol h ∈ stclSelected ->
     Holding.currentPrice h = Some cp ->
     exists o, In o orders /\ sellsShortTermOf h o) /\
  (forall h cp,
     In h (ltclOpportunities holdings) -> Holding.symbol h ∈ ltclSelected ->
     Holding.currentPrice h = Some cp ->
     exists o, In o orders /\ sellsLongTermOf h o).
Proof.
  intros orders page'.
  assert (Hpage : page' = match orders with
                          | [] => page
                          | _ => Page.mk orders true
                          end) by reflexivity.
  split; [intros He; rewrite Hpage, He; reflexivity |].
  split; [intros Hne; rewrite Hpage; destruct orders; [congruence | split; reflexivity] |].
  split; [| split].
  - intros o Ho. apply harvestOrders_In in Ho.
    destruct Ho as [(h & Hh & Hsel & Hs & Hq & He) | (h & Hh & Hsel & Hs & Hq & He)].
    + split; [exact Hq |]. split.
      * destruct Hs as (_ & _ & _ & _ & _ & _ & p & _ & Hp0 & Hloss). lra.
      * exists h. split; [apply stclOpportunities_In in Hh; apply Hh |].
        left. split; assumption.
    + split; [exact Hq |]. split.
      * destruct Hs as (_ & _ & _ & _ & _ & _ & p & _ & Hp0 & Hloss). lra.
      * exists h. split; [apply ltclOpportunities_In in Hh; apply Hh |].
        right. split; assumption.
  - intros h cp Hh Hsel Hcp.
    pose proof (proj2 (proj1 (stclOpportunities_In holdings h) Hh)) as Hcond.
    set (o := Order.mk (Holding.symbol h) (Holding.exchange h)
                (nullish (Holding.stQuantity h) 0)
                (nullish (Holding.stAvgPrice h) (Holding.avgPurchasePrice h))
                (Holding.oldestPurchaseDate h) cp
                (Qabs (nullish (Holding.stPnl h) 0))).
    assert (Ho : In o (stclOrderOf stclSelected h)).
    { apply (stclOrderOf_spec stclSelected h o Hcond). split; [exact Hsel |].
      exists cp. split; [exact Hcp | reflexivity]. }
    assert (Hin : In o orders).
    { unfold orders. rewrite harvestOrders_flat. apply in_or_app. left.
      apply in_flat_map. exists h. split; assumption. }
    exists o. split; [exact Hin |].
    apply harvestOrders_In in Hin.
    destruct Hcond as (q & p & Hq & Hp & Hq0 & Hp0).
    unfold sellsShortTermOf, o. cbn. rewrite Hq, Hp. cbn [nullish].
    repeat (split; [first [reflexivity | assumption] |]).
    exists p. split; [reflexivity |]. split; [exact Hp0 |]. apply Qabs_neg. lra.
  - intros h cp Hh Hsel Hcp.
    pose proof (proj2 (proj1 (ltclOpportunities_In holdings h) Hh)) as Hcond.
    set (o := Order.mk (Holding.symbol h) (Holding.exchange h)
                (nullish (Holding.ltQuantity h) 0)
                (nullish (Holding.ltAvgPrice h) (Holding.avgPurchasePrice h))
                (Holding.oldestPurchaseDate h) cp
                (Qabs (nullish (Holding.ltPnl h) 0))).
    assert (Ho : In o (ltclOrderOf ltclSelected h)).
    { apply (ltclOrderOf_spec ltclSelected h o Hcond). split; [exact Hsel |].
      exists cp. split; [exact Hcp | reflexivity]. }
    assert (Hin : In o orders).
    { unfold orders. rewrite harvestOrders_flat. apply in_or_app. right.
      apply in_flat_map. exists h. split; assumption. }
    exists o. split; [exact Hin |].
    destruct Hcond as (q & p & Hq & Hp & Hq0 & Hp0).
    unfold sellsLongTermOf, o. cbn. rewrite Hq, Hp. cbn [nullish].
    repeat (split; [first [reflexivity | assumption] |]).
    exists p. split; [reflexivity |]. split; [exact Hp0 |]. apply Qabs_neg. lra.
Qed.

(** INFY selected on both sides: two orders, of 5 and of 10. *)
Lemma harvest_orders_are_selected_losses_witness :
  let store :=
    updateHoldingsWithPrices (R := Utc.runtime) Sample.now Sample.infyQuote
      [Sample.pricedHolding; Sample.straddling] in
  map Order.quantity (harvestOrders store {[ "INFY" ]} {[ "INFY" ]}) = [5; 10] /\
  Forall (fun o => 0 < Order.expectedLoss o) (harvestOrders store {[ "INFY" ]} {[ "INFY" ]}).
Proof.
  intros store. split; [vm_compute; reflexivity |].
  destruct (harvest_orders_are_selected_losses store {[ "INFY" ]} {[ "INFY" ]}
              (Page.mk [] false)) as (_ & _ & Hall & _).
  apply List.Forall_forall. intros o Ho. apply (Hall o Ho).
Defined.

Section HarvestFit.
Context {R : Runtime}.

(** X20. On a store obtained by overlaying quotes on the holdings that the
    engine returns for trades of positive quantity, every harvest order
    belongs to a holding of the store with its symbol and exchange, and sells
    a positive quantity that is no more than that holding's total
    quantity. *)
Theorem harvest_orders_fit_holdings (now overlayTime : Date)
    (trades : list TradeRecord) (quotes : gmap string NseQuote)
    (stclSelected ltclSelected : gset string) (o : SellOrder) :
  Forall positiveQuantity trades ->
  let store := updateHoldingsWithPrices overlayTime quotes
                 (Portfolio.holdings (analyzePortfolio now trades)) in
  In o (harvestOrders store stclSelected ltclSelected) ->
  exists h, In h store /\
    Order.symbol o = Holding.symbol h /\ Order.exchange o = Holding.exchange h /\
    0 < Order.quantity o /\ Order.quantity o <= Holding.totalQuantity h.
Proof.
  intros Hvalid store Ho.
  assert (Hstore : forall h', In h' store ->
            exists h, In h (Portfolio.holdings (analyzePortfolio now trades)) /\
                      h' = updateHolding overlayTime quotes h).
  { intros h' Hh'. unfold store, updateHoldingsWithPrices in Hh'.
    apply in_map_iff in Hh'. destruct Hh' as (h & <- & Hh). exists h. split; [exact Hh |].
    reflexivity. }
  assert (Hfresh : forall h, In h (Portfolio.holdings (analyzePortfolio now trades)) ->
            Holding.stQuantity h = None /\ Holding.ltQuantity h = None).
  { intros h Hh. apply analyzePortfolio_holdings in Hh.
    destruct Hh as (k & g & acc & _ & _ & ->). split; reflexivity. }
  apply harvestOrders_In in Ho.
  destruct Ho as [(h' & Hh' & _ & Hs & Hq0 & _) | (h' & Hh' & _ & Hs & Hq0 & _)].
  - apply stclOpportunities_In in Hh'. destruct Hh' as [Hh' _].
    destruct (Hstore h' Hh') as (h & Hh & ->).
    destruct (returned_holding_shape now trades h Hvalid Hh) as (_ & Hpos & Htq & _).
    destruct (Hfresh h Hh) as [Hst _].
    destruct Hs as (Hsym & Hexch & _ & Hcp & Hq & Hpp & p & Hp & _ & Hloss).
    exists (updateHolding overlayTime quotes h).
    split; [exact Hh' |]. split; [exact Hsym |]. split; [exact Hexch |].
    split; [exact Hq0 |].
    unfold updateHolding in Hcp, Hq, Hpp, Hp |- *.
    destruct (quotes !! Holding.symbol h) as [quote |]; [| congruence].
    cbn [Holding.currentPrice Holding.stQuantity Holding.stAvgPrice Holding.stPnl
         Holding.totalQuantity Holding.avgPurchasePrice nullish] in *.
    injection Hcp as Hcp. injection Hq as Hq. injection Hp as Hp.
    destruct (classifyLots_fields overlayTime (Holding.lots h) (Quote.lastPrice quote))
      as (Hsq & Hlq & Hsp & _ & Havg).
    destruct (Havg Hpos) as [Hsa _].
    destruct (split_partition overlayTime (Holding.lots h)) as [Hpq _].
    assert (Hlt0 : 0 <= lotsQuantity (longTermLots overlayTime (Holding.lots h))).
    { apply lotsQuantity_nonneg. apply List.Forall_forall. intros lot Hl.
      apply filter_In in Hl.
      pose proof (proj1 (List.Forall_forall _ _) Hpos lot (proj1 Hl)). cbn beta in *. lra. }
    rewrite <- Hq, Htq, calculateTotalQuantity_sum, Hsq. lra.
  - apply ltclOpportunities_In in Hh'. destruct Hh' as [Hh' _].
    destruct (Hstore h' Hh') as (h & Hh & ->).
    destruct (returned_holding_shape now trades h Hvalid Hh) as (_ & Hpos & Htq & _).
    destruct (Hfresh h Hh) as [_ Hlt].
    destruct Hs as (Hsym & Hexch & _ & Hcp & Hq & Hpp & p & Hp & _ & Hloss).
    exists (updateHolding overlayTime quotes h).
    split; [exact Hh' |]. split; [exact Hsym |]. split; [exact Hexch |].
    split; [exact Hq0 |].
    unfold updateHolding in Hcp, Hq, Hpp, Hp |- *.
    destruct (quotes !! Holding.symbol h) as [quote |]; [| congruence].
    cbn [Holding.currentPrice Holding.ltQuantity Holding.ltAvgPrice Holding.ltPnl
         Holding.totalQuantity Holding.avgPurchasePrice nullish] in *.
    injection Hcp as Hcp. injection Hq as Hq. injection Hp as Hp.
    destruct (classifyLots_fields overlayTime (Holding.lots h) (Quote.lastPrice quote))
      as (Hsq & Hlq & _ & Hlp & Havg).
    destruct (Havg Hpos) as [_ Hla].
    destruct (split_partition overlayTime (Holding.lots h)) as [Hpq _].
    assert (Hst0 : 0 <= lotsQuantity (shortTermLots overlayTime (Holding.lots h))).
    { apply lotsQuantity_nonneg. apply List.Forall_forall. intros lot Hl.
      apply filter_In in Hl.
      pose proof (proj1 (List.Forall_forall _ _) Hpos lot (proj1 Hl)). cbn beta in *. lra. }
    rewrite <- Hq, Htq, calculateTotalQuantity_sum, Hlq. lra.
Qed.
End HarvestFit.

(** Ten INFY bought at 1400 and quoted at 1350: one order, of the whole
    holding. *)
Lemma harvest_orders_fit_holdings_witness :
  let store :=
    updateHoldingsWithPrices (R := Utc.runtime) Sample.now Sample.infyQuote
      (Portfolio.holdings
         (analyzePortfolio (R := Utc.runtime) Sample.now [Sample.buyLate])) in
  exists o h,
    In o (harvestOrders store {[ "INFY" ]} ∅) /\ In h store /\
    Order.symbol o = Holding.symbol h /\ Order.exchange o = Holding.exchange h /\
    0 < Order.quantity o /\ Order.quantity o <= Holding.totalQuantity h.
Proof.
  intros store.
  assert (Hvalid : Forall positiveQuantity [Sample.buyLate]) by (repeat constructor).
  assert (Ho : exists o rest, harvestOrders store {[ "INFY" ]} ∅ = o :: rest)
    by (eexists _, _; vm_compute; reflexivity).
  destruct Ho as (o & rest & Ho).
  assert (Hin : In o (harvestOrders store {[ "INFY" ]} ∅))
    by (rewrite Ho; left; reflexivity).
  destruct (harvest_orders_fit_holdings (R := Utc.runtime) Sample.now Sample.now
              [Sample.buyLate] Sample.infyQuote {[ "INFY" ]} ∅ o Hvalid Hin)
    as (h & Hh).
  exists o, h. split; [exact Hin | exact Hh].
Defined.

(** * The parser of tradebook files *)

Lemma digit_is_no_separator (c : ascii) :
  isDigit c = true -> Ascii.eqb c "-" = false /\ Ascii.eqb c "/" = false.
Proof.
  destruct c as [[] [] [] [] [] [] [] []]; cbn; intros H;
    first [discriminate H | split; reflexivity].
Qed.

Lemma lotsCost_nonneg (lots : list HoldingLot) :
  Forall (fun lot => 0 < Lot.quantity lot /\ 0 <= Lot.purchasePrice lot) lots ->
  0 <= lotsCost lots.
Proof.
  induction 1 as [| lot lots [Hq Hp] _ IH].
  - rewrite lotsCost_nil. lra.
  - rewrite lotsCost_cons.
    assert (0 <= Lot.quantity lot * Lot.purchasePrice lot)
      by (apply Qmult_le_0_compat; lra).
    lra.
Qed.

Section ParserProps.
Context {T : TextHost}.

Lemma parseRow_valid (row : RawTradeRow) (t : TradeRecord) :
  parseRow row = Some t ->
  0 < Trade.quantity t /\ 0 <= Trade.price t /\
  Trade.tradeId t <> "" /\ Trade.symbol t <> "" /\ Trade.exchange t <> "" /\
  option_map (fun s => trim (toUpperCase s)) (Row.segment row) = Some "EQ" /\
  parseTradeDate (Row.trade_date row) = Some (Trade.tradeDate t).
Proof.
  unfold parseRow.
  destruct (option_map _ (Row.segment row)) as [segment |]; [| discriminate].
  destruct (String.eqb_spec segment "EQ") as [-> |]; [| discriminate]. cbn [negb].
  destruct (parseTradeDate (Row.trade_date row)) as [tradeDate |]; [| discriminate].
  destruct (parseTradeType (Row.trade_type row)) as [tradeType |]; [| discriminate].
  destruct (parseFloatOf (Row.quantity row)) as [quantity |]; [| discriminate].
  destruct (Qleb quantity 0) eqn:Eq; [discriminate |].
  destruct (parseFloatOf (Row.price row)) as [price |]; [| discriminate].
  destruct (Qltb price 0) eqn:Ep; [discriminate |].
  destruct (option_map trim (Row.trade_id row)) as [tradeId |]; [| discriminate].
  destruct (truthy tradeId) eqn:Ei; [| discriminate]. cbn [negb].
  destruct (option_map trim (Row.symbol row)) as [symbol |]; [| discriminate].
  destruct (truthy symbol) eqn:Es; [| discriminate]. cbn [negb].
  intros [= <-]. cbn [Trade.quantity Trade.price Trade.tradeId Trade.symbol
                       Trade.exchange Trade.tradeDate].
  split; [apply Qleb_gt; exact Eq |]. split; [apply Qltb_ge; exact Ep |].
  split; [intros ->; discriminate Ei |]. split; [intros ->; discriminate Es |].
  split; [| split; reflexivity].
  unfold orElse. destruct (option_map _ (Row.exchange row)) as [e |]; [| discriminate].
  destruct (truthy e) eqn:Ee; [| discriminate]. intros ->. discriminate Ee.
Qed.

Lemma parse_loop (rows : list RawTradeRow) :
  forall trades,
    fold_left
      (fun trades row =>
         match parseRow row with
         | Some trade => trades ++ [trade]
         | None => trades
         end) rows trades
    = trades ++ omap parseRow rows.
Proof.
  induction rows as [| row rows IH]; intros trades; cbn [fold_left omap list_omap].
  - rewrite app_nil_r. reflexivity.
  - rewrite IH. destruct (parseRow row); [| reflexivity].
    rewrite <- app_assoc. reflexivity.
Qed.

Lemma parseTradebook_In (csvContent : string) (t : TradeRecord) :
  In t (parseTradebook csvContent) ->
  exists result row,
    papaParse csvContent = Some result /\ In row (Parsed.data result) /\
    parseRow row = Some t.
Proof.
  unfold parseTradebook.
  destruct (negb (truthy csvContent) || _); [intros [] |].
  destruct (papaParse csvContent) as [result |]; [| intros []].
  destruct (negb _); [intros [] |].
  rewrite sortBy_In, parse_loop. cbn [app]. intros Hin.
  apply list_elem_of_In in Hin. apply list_elem_of_omap in Hin.
  destruct Hin as (row & Hrow & Hparse). apply list_elem_of_In in Hrow.
  exists result, row. repeat split; assumption.
Qed.

Lemma parseTradebook_sorted (csvContent : string) :
  StronglySorted (fun a b => (Trade.tradeDate a <= Trade.tradeDate b)%Z)
    (parseTradebook csvContent).
Proof.
  unfold parseTradebook.
  destruct (negb (truthy csvContent) || _); [constructor |].
  destruct (papaParse csvContent) as [result |]; [| constructor].
  destruct (negb _); [constructor |]. apply sortBy_date_sorted.
Qed.

(** X21. Whatever the text, the records that [parseTradebook] returns are
    in ascending order of trade date, and each has a positive quantity, a
    price that is not negative, a trade id, a symbol and an exchange that
    are not empty, and stems from a data row whose segment reads EQ and
    whose date cell parses to the record's date. *)
Theorem parsed_trades_are_valid (csvContent : string) :
  StronglySorted (fun a b => (Trade.tradeDate a <= Trade.tradeDate b)%Z)
    (parseTradebook csvContent) /\
  Forall (fun t =>
            0 < Trade.quantity t /\ 0 <= Trade.price t /\
            Trade.tradeId t <> "" /\ Trade.symbol t <> "" /\ Trade.exchange t <> "" /\
            exists result row,
              papaParse csvContent = Some result /\ In row (Parsed.data result) /\
              option_map (fun s => trim (toUpperCase s)) (Row.segment row) = Some "EQ" /\
              parseTradeDate (Row.trade_date row) = Some (Trade.tradeDate t))
         (parseTradebook csvContent).
Proof.
  split; [apply parseTradebook_sorted |].
  apply List.Forall_forall. intros t Ht.
  destruct (parseTradebook_In csvContent t Ht) as (result & row & Hres & Hrow & Hparse).
  destruct (parseRow_valid row t Hparse) as (Hq & Hp & Hi & Hs & He & Hseg & Hd).
  repeat (split; [assumption |]).
  exists result, row. repeat split; assumption.
Qed.

Lemma matchesIsoDate_iso (d1 d2 m1 m2 y1 y2 y3 y4 : ascii) :
  Forall (fun c => isDigit c = true) [d1; d2; m1; m2; y1; y2; y3; y4] ->
  matchesIsoDate
    (string_of_list_ascii [y1; y2; y3; y4; "-"; m1; m2; "-"; d1; d2]%char) = true.
Proof.
  intros Hdigits.
  repeat (apply Forall_cons in Hdigits; destruct Hdigits as [? Hdigits]).
  unfold matchesIsoDate. cbn [list_ascii_of_string string_of_list_ascii forallb].
  repeat match goal with H : isDigit _ = true |- _ => rewrite H; clear H end.
  reflexivity.
Qed.

Lemma matchDayMonthYear_iso (sep d1 d2 m1 m2 y1 y2 y3 y4 : ascii) :
  matchDayMonthYear sep
    (string_of_list_ascii [y1; y2; y3; y4; "-"; m1; m2; "-"; d1; d2]%char) = None.
Proof.
  unfold matchDayMonthYear. cbn [list_ascii_of_string string_of_list_ascii forallb].
  change (isDigit "-") with false. rewrite !andb_false_r. reflexivity.
Qed.

Lemma matchesIsoDate_dmy (sep d1 d2 m1 m2 y1 y2 y3 y4 : ascii) :
  isDigit sep = false ->
  matchesIsoDate
    (string_of_list_ascii [d1; d2; sep; m1; m2; sep; y1; y2; y3; y4]) = false.
Proof.
  intros Hsep. unfold matchesIsoDate.
  cbn [list_ascii_of_string string_of_list_ascii forallb].
  rewrite Hsep, !andb_false_r. reflexivity.
Qed.

Lemma matchDayMonthYear_dmy (sep sep' d1 d2 m1 m2 y1 y2 y3 y4 : ascii) :
  Forall (fun c => isDigit c = true) [d1; d2; m1; m2; y1; y2; y3; y4] ->
  matchDayMonthYear sep
    (string_of_list_ascii [d1; d2; sep'; m1; m2; sep'; y1; y2; y3; y4]) =
  if Ascii.eqb sep' sep
  then Some (string_of_list_ascii [d1; d2], string_of_list_ascii [m1; m2],
             string_of_list_ascii [y1; y2; y3; y4])
  else None.
Proof.
  intros Hdigits.
  repeat (apply Forall_cons in Hdigits; destruct Hdigits as [? Hdigits]).
  unfold matchDayMonthYear. cbn [list_ascii_of_string string_of_list_ascii forallb].
  repeat match goal with H : isDigit _ = true |- _ => rewrite H; clear H end.
  cbn [andb]. destruct (Ascii.eqb sep' sep); reflexivity.
Qed.

(** X23. The three date formats agree: when the trimmed cells read
    DD-MM-YYYY, DD/MM/YYYY and YYYY-MM-DD with the same digits, each is
    parsed to what the host makes of YYYY-MM-DDT00:00:00, a date or
    nothing. *)
Theorem date_formats_agree (iso dash slash : string)
    (d1 d2 m1 m2 y1 y2 y3 y4 : ascii) :
  Forall (fun c => isDigit c = true) [d1; d2; m1; m2; y1; y2; y3; y4] ->
  iso <> "" -> dash <> "" -> slash <> "" ->
  trim iso = string_of_list_ascii [y1; y2; y3; y4; "-"; m1; m2; "-"; d1; d2]%char ->
  trim dash = string_of_list_ascii [d1; d2; "-"; m1; m2; "-"; y1; y2; y3; y4]%char ->
  trim slash = string_of_list_ascii [d1; d2; "/"; m1; m2; "/"; y1; y2; y3; y4]%char ->
  parseTradeDate (Some iso) = newDateOfString (trim iso ++ "T00:00:00")%string /\
  parseTradeDate (Some dash) = parseTradeDate (Some iso) /\
  parseTradeDate (Some slash) = parseTradeDate (Some iso).
Proof.
  intros Hdigits Hi Hd Hs Eiso Edash Eslash.
  assert (Htruthy : forall s, s <> "" -> truthy s = true).
  { intros s Hne. unfold truthy.
    destruct (String.eqb_spec s ""); [contradiction | reflexivity]. }
  assert (Hiso : parseTradeDate (Some iso)
                 = newDateOfString (trim iso ++ "T00:00:00")%string).
  { unfold parseTradeDate. rewrite (Htruthy iso Hi). cbn [negb]. cbv zeta.
    rewrite Eiso, (matchesIsoDate_iso _ _ _ _ _ _ _ _ Hdigits).
    rewrite !matchDayMonthYear_iso.
    destruct (newDateOfString _); reflexivity. }
  split; [exact Hiso |]. rewrite Hiso, Eiso. clear Hiso. split.
  - unfold parseTradeDate. rewrite (Htruthy dash Hd). cbn [negb]. cbv zeta.
    rewrite Edash, (matchesIsoDate_dmy "-") by reflexivity.
    rewrite (matchDayMonthYear_dmy "-" "-" _ _ _ _ _ _ _ _ Hdigits).
    rewrite (matchDayMonthYear_dmy "/" "-" _ _ _ _ _ _ _ _ Hdigits).
    cbn [Ascii.eqb Bool.eqb]. unfold dateOfParts.
    change (string_of_list_ascii [y1; y2; y3; y4] ++ "-"
            ++ string_of_list_ascii [m1; m2] ++ "-"
            ++ string_of_list_ascii [d1; d2] ++ "T00:00:00")%string
      with (string_of_list_ascii [y1; y2; y3; y4; "-"; m1; m2; "-"; d1; d2]%char
            ++ "T00:00:00")%string.
    destruct (newDateOfString _); reflexivity.
  - unfold parseTradeDate. rewrite (Htruthy slash Hs). cbn [negb]. cbv zeta.
    rewrite Eslash, (matchesIsoDate_dmy "/") by reflexivity.
    rewrite (matchDayMonthYear_dmy "-" "/" _ _ _ _ _ _ _ _ Hdigits).
    rewrite (matchDayMonthYear_dmy "/" "/" _ _ _ _ _ _ _ _ Hdigits).
    cbn [Ascii.eqb Bool.eqb]. unfold dateOfParts.
    change (string_of_list_ascii [y1; y2; y3; y4] ++ "-"
            ++ string_of_list_ascii [m1; m2] ++ "-"
            ++ string_of_list_ascii [d1; d2] ++ "T00:00:00")%string
      with (string_of_list_ascii [y1; y2; y3; y4; "-"; m1; m2; "-"; d1; d2]%char
            ++ "T00:00:00")%string.
    reflexivity.
Qed.
End ParserProps.

(** March 15, 2024 in the three formats, with blanks around. *)
Lemma date_formats_agree_witness :
  parseTradeDate (T := Plain.host) (Some " 15-03-2024")
  = parseTradeDate (T := Plain.host) (Some "2024-03-15 ") /\
  parseTradeDate (T := Plain.host) (Some "15/03/2024")
  = parseTradeDate (T := Plain.host) (Some "2024-03-15 ").
Proof.
  destruct (date_formats_agree (T := Plain.host) "2024-03-15 " " 15-03-2024" "15/03/2024"
              "1" "5" "0" "3" "2" "0" "2" "4") as (_ & Hdash & Hslash);
    try reflexivity; try discriminate.
  - repeat constructor.
  - split; assumption.
Defined.

(** The sample text on the plain host: three records, oldest first. *)
Lemma parser_runs_on_sample :
  map (fun t => (Trade.tradeId t, Trade.exchange t, Trade.tradeType t))
      (parseTradebook (T := Plain.host) Plain.sampleCsv)
  = [("TRD104", "NSE", buy); ("TRD101", "BSE", sell); ("TRD100", "NSE", buy)].
Proof. vm_compute. reflexivity. Qed.

(** * From uploaded files to holdings *)

Section Upload.
Context {T : TextHost} {R : Runtime}.

Lemma merged_trades_are_parsed (files : list string) (t : TradeRecord) :
  In t (mergeTradebooks (map parseTradebook files)) ->
  exists csvContent, In csvContent files /\ In t (parseTradebook csvContent).
Proof.
  rewrite mergeTradebooks_keepFirst, sortBy_In. intros Hin.
  apply keepFirst_In in Hin. destruct Hin as (before & after & Hsplit & _).
  assert (Hc : In t (concat (map parseTradebook files)))
    by (rewrite Hsplit; apply in_or_app; right; left; reflexivity).
  apply in_concat in Hc. destruct Hc as (l & Hl & Ht).
  apply in_map_iff in Hl. destruct Hl as (csvContent & <- & Hfile).
  exists csvContent. split; assumption.
Qed.

Lemma holding_lots_of_buys (now : Date) (trades : list TradeRecord) (h : Holding) :
  Forall positiveQuantity trades ->
  In h (Portfolio.holdings (analyzePortfolio now trades)) ->
  Forall (fun lot => exists b, In b trades /\ lotOf b lot) (Holding.lots h).
Proof.
  intros Hvalid Hh. apply analyzePortfolio_holdings in Hh.
  destruct Hh as (k & g & acc & Hin & Ha & ->).
  assert (Hg : Forall positiveQuantity g).
  { apply List.Forall_forall. intros t Ht.
    destruct (group_subset trades k g Hin t Ht) as [Htr _].
    exact (proj1 (List.Forall_forall _ _) Hvalid t Htr). }
  destruct (group_run_provenance now g Hg) as [Hacc _].
  destruct (Hacc acc Ha) as (Hlots & _).
  cbn [holdingOfAccumulator Holding.lots].
  eapply Forall_impl; [exact Hlots |]. cbn. intros lot (b & Hb & Hlot).
  exists b. split; [| exact Hlot]. exact (proj1 (group_subset trades k g Hin b Hb)).
Qed.

Lemma gains_of_trades (now : Date) (trades : list TradeRecord) (e : RealizedGainEntry) :
  Forall positiveQuantity trades ->
  In e (Summary.entries (Portfolio.realizedGains (analyzePortfolio now trades))) ->
  exists b s, In b trades /\ In s trades /\ gainOf b s e.
Proof.
  intros Hvalid He. apply analyzePortfolio_gains in He.
  destruct He as (k & g & Hin & He).
  assert (Hg : Forall positiveQuantity g).
  { apply List.Forall_forall. intros t Ht.
    destruct (group_subset trades k g Hin t Ht) as [Htr _].
    exact (proj1 (List.Forall_forall _ _) Hvalid t Htr). }
  destruct (group_run_provenance now g Hg) as [_ Hgains].
  destruct (proj1 (List.Forall_forall _ _) Hgains e He) as (b & s & Hb & Hs & Hgain & _).
  exists b, s.
  split; [exact (proj1 (group_subset trades k g Hin b Hb)) |].
  split; [exact (proj1 (group_subset trades k g Hin s Hs)) | exact Hgain].
Qed.

(** X22. Whatever the texts of the uploaded files, the trades obtained by
    parsing each and merging the results have positive quantities and
    prices that are not negative, so that the engine's assumption on its
    input holds; every holding computed from them has lots, each of positive
    quantity and of a price that is not negative, and a positive total
    quantity; and every realized-gain entry of the summary has a positive
    quantity and prices that are not negative. *)
Theorem uploaded_files_give_sound_holdings (now : Date) (files : list string) :
  let trades := mergeTradebooks (map parseTradebook files) in
  Forall (fun t => 0 < Trade.quantity t /\ 0 <= Trade.price t) trades /\
  Forall (fun h =>
            Holding.lots h <> [] /\
            Forall (fun lot => 0 < Lot.quantity lot /\ 0 <= Lot.purchasePrice lot)
                   (Holding.lots h) /\
            0 < Holding.totalQuantity h)
         (Portfolio.holdings (analyzePortfolio now trades)) /\
  Forall (fun e => 0 < Gain.quantity e /\ 0 <= Gain.sellPrice e /\
                   0 <= Gain.purchasePrice e)
         (Summary.entries (Portfolio.realizedGains (analyzePortfolio now trades))).
Proof.
  intros trades.
  assert (Htrades : Forall (fun t => 0 < Trade.quantity t /\ 0 <= Trade.price t) trades).
  { apply List.Forall_forall. intros t Ht.
    destruct (merged_trades_are_parsed files t Ht) as (csvContent & _ & Hparsed).
    destruct (parseTradebook_In csvContent t Hparsed) as (result & row & _ & _ & Hrow).
    destruct (parseRow_valid row t Hrow) as (Hq & Hp & _). split; assumption. }
  assert (Hvalid : Forall positiveQuantity trades).
  { eapply Forall_impl; [exact Htrades |]. cbn. intros t [Hq _]. exact Hq. }
  assert (Hprice : forall t, In t trades -> 0 <= Trade.price t).
  { intros t Ht. exact (proj2 (proj1 (List.Forall_forall _ _) Htrades t Ht)). }
  split; [exact Htrades |]. split.
  - apply List.Forall_forall. intros h Hh.
    destruct (returned_holding_shape now trades h Hvalid Hh) as (Hne & Hpos & Htq & Havg).
    pose proof (holding_lots_of_buys now trades h Hvalid Hh) as Hbuys.
    assert (Hlots : Forall (fun lot => 0 < Lot.quantity lot /\ 0 <= Lot.purchasePrice lot)
                      (Holding.lots h)).
    { apply List.Forall_forall. intros lot Hlot.
      destruct (proj1 (List.Forall_forall _ _) Hbuys lot Hlot)
        as (b & Hb & _ & _ & Hpp & Hq & _).
      split; [exact Hq |]. rewrite Hpp. apply Hprice. exact Hb. }
    pose proof (lotsQuantity_pos _ Hpos Hne) as Hsum.
    split; [exact Hne |]. split; [exact Hlots |].
    rewrite Htq, calculateTotalQuantity_sum. exact Hsum.
  - apply List.Forall_forall. intros e He.
    destruct (gains_of_trades now trades e Hvalid He)
      as (b & s & Hb & Hs & _ & _ & _ & _ & _ & Hsp & _ & Hpp & Hq & _).
    split; [exact Hq |]. rewrite Hsp, Hpp. split; apply Hprice; assumption.
Qed.
End Upload.

(** * Fetching quotes in batches *)

Lemma chunkLoop_spec (symbols : list string) :
  forall fuel i chunks,
    (length symbols - i <= fuel)%nat ->
    exists rest,
      chunkLoop fuel symbols i chunks = Some (chunks ++ rest) /\
      concat rest = skipn i symbols /\
      Forall (fun chunk => (1 <= length chunk <= 10)%nat) rest /\
      length rest = ((length symbols - i + 9) / 10)%nat /\
      forall k chunk,
        rest !! k = Some chunk -> (S k < length rest)%nat -> length chunk = 10%nat.
Proof.
  induction fuel as [| fuel IH]; intros i chunks Hfuel; cbn [chunkLoop];
    destruct (Nat.ltb_spec i (length symbols)) as [Hlt | Hge]; try lia.
  1, 3: exists []; rewrite app_nil_r; split; [reflexivity |];
    split; [cbn [concat]; symmetry; apply skipn_all2; lia |];
    split; [constructor |];
    split; [cbn [length]; replace (length symbols - i)%nat with 0%nat by lia;
            reflexivity |];
    intros k chunk Hk; rewrite lookup_nil in Hk; discriminate.
  destruct (IH (i + BATCH_SIZE)%nat (chunks ++ [slice symbols i (i + BATCH_SIZE)]))
    as (rest & Hrun & Hconcat & Hsizes & Hcount & Hfull); [unfold BATCH_SIZE; lia |].
  assert (Hlen : length (slice symbols i (i + BATCH_SIZE))
                 = Nat.min 10 (length symbols - i)).
  { unfold slice, BATCH_SIZE. rewrite length_firstn, length_skipn.
    replace (i + 10 - i)%nat with 10%nat by lia. reflexivity. }
  exists (slice symbols i (i + BATCH_SIZE) :: rest).
  split; [rewrite Hrun, <- app_assoc; reflexivity |].
  split.
  { cbn [concat]. rewrite Hconcat. unfold slice, BATCH_SIZE.
    replace (i + 10 - i)%nat with 10%nat by lia.
    replace (i + 10)%nat with (10 + i)%nat by lia.
    rewrite <- skipn_skipn. apply firstn_skipn. }
  split; [constructor; [rewrite Hlen; lia | exact Hsizes] |].
  split.
  { cbn [length]. rewrite Hcount. unfold BATCH_SIZE.
    destruct (Nat.le_gt_cases 10 (length symbols - i)) as [Hfar | Hnear].
    - replace (length symbols - i + 9)%nat
        with (1 * 10 + (length symbols - (i + 10) + 9))%nat by lia.
      rewrite Nat.div_add_l by lia. reflexivity.
    - replace (length symbols - (i + 10))%nat with 0%nat by lia.
      rewrite (Nat.div_small (0 + 9) 10) by lia.
      apply (Nat.div_unique _ 10 1 (length symbols - i - 1)); lia. }
  intros k chunk Hk Hnext. destruct k as [| k]; cbn in Hk.
  - injection Hk as <-. rewrite Hlen.
    cbn [length] in Hnext.
    assert (Hrest : (0 < length rest)%nat) by lia.
    rewrite Hcount in Hrest. unfold BATCH_SIZE in Hrest.
    destruct (Nat.le_gt_cases 10 (length symbols - i)) as [Hfar | Hnear]; [lia |].
    exfalso. replace (length symbols - (i + 10))%nat with 0%nat in Hrest by lia.
    rewrite (Nat.div_small (0 + 9) 10) in Hrest by lia. lia.
  - apply (Hfull k chunk Hk). cbn [length] in Hnext. lia.
Qed.

(** X24. With fuel for one iteration per symbol the chunking loop of
    [fetchQuotes] ends, and its chunks, put together again, are the
    symbols: each chunk has between one and ten symbols, every chunk but
    the last has ten, and there are as many chunks as the number of
    symbols divided by ten, rounded up. *)
Theorem symbols_are_chunked_by_ten (symbols : list string) (fuel : nat) :
  (length symbols <= fuel)%nat ->
  exists chunks,
    chunkLoop fuel symbols 0 [] = Some chunks /\
    concat chunks = symbols /\
    Forall (fun chunk => (1 <= length chunk <= 10)%nat) chunks /\
    length chunks = ((length symbols + 9) / 10)%nat /\
    forall k chunk,
      chunks !! k = Some chunk -> (S k < length chunks)%nat -> length chunk = 10%nat.
Proof.
  intros Hfuel.
  destruct (chunkLoop_spec symbols fuel 0 []) as (rest & Hrun & Hconcat & Hsizes & Hcount & Hfull);
    [lia |].
  exists rest. split; [exact Hrun |]. split; [exact Hconcat |].
  split; [exact Hsizes |]. split; [| exact Hfull].
  rewrite Hcount, Nat.sub_0_r. reflexivity.
Qed.

Lemma symbols_are_chunked_by_ten_witness :
  exists chunks,
    chunkLoop 12 twelveSymbols 0 [] = Some chunks /\
    concat chunks = twelveSymbols /\ length chunks = 2%nat.
Proof.
  destruct (symbols_are_chunked_by_ten twelveSymbols 12)
    as (chunks & Hrun & Hconcat & _ & Hcount & _).
  - cbn. lia.
  - exists chunks. split; [exact Hrun |]. split; [exact Hconcat | exact Hcount].
Defined.

Section QuotesProps.
Variable fetchQuotesBatch : nat -> list string -> Outcome NseQuotesResponse.

Lemma mergeResults_snoc (batchResults : list NseQuotesResponse) (result : NseQuotesResponse) :
  fst (mergeResults (batchResults ++ [result]))
  = default ∅ (Response.quotes result) ∪ fst (mergeResults batchResults).
Proof.
  unfold mergeResults. rewrite fold_left_app. cbn [fold_left].
  destruct (fold_left _ batchResults (∅, [])) as [mergedQuotes allErrors]. reflexivity.
Qed.

Lemma mergeResults_last_wins (batchResults : list NseQuotesResponse)
    (symbol : string) (quote : NseQuote) :
  fst (mergeResults batchResults) !! symbol = Some quote <->
  exists j result,
    batchResults !! j = Some result /\
    default ∅ (Response.quotes result) !! symbol = Some quote /\
    forall j' result',
      (j < j')%nat -> batchResults !! j' = Some result' ->
      default ∅ (Response.quotes result') !! symbol = None.
Proof.
  induction batchResults as [| result batchResults IH] using rev_ind.
  - cbn. rewrite lookup_empty. split; [discriminate |].
    intros (j & r & Hj & _). rewrite lookup_nil in Hj. discriminate.
  - rewrite mergeResults_snoc.
    destruct (default ∅ (Response.quotes result) !! symbol) as [q0 |] eqn:E0.
    + rewrite (lookup_union_Some_l _ _ _ q0 E0). split.
      * intros [= <-]. exists (length batchResults), result.
        split; [apply list_lookup_middle; reflexivity |]. split; [exact E0 |].
        intros j' r' Hlt Hj'. apply lookup_lt_Some in Hj'.
        rewrite length_app in Hj'. cbn in Hj'. lia.
      * intros (j & r & Hj & Hq & Hlater).
        destruct (Nat.lt_ge_cases j (length batchResults)) as [Hlt | Hge].
        -- rewrite (Hlater (length batchResults) result Hlt) in E0; [discriminate |].
           apply list_lookup_middle. reflexivity.
        -- pose proof (lookup_lt_Some _ _ _ Hj) as Hbound.
           rewrite length_app in Hbound. cbn in Hbound.
           assert (j = length batchResults) by lia. subst j.
           rewrite list_lookup_middle in Hj by reflexivity.
           injection Hj as <-. congruence.
    + rewrite (lookup_union_r _ _ _ E0), IH. split.
      * intros (j & r & Hj & Hq & Hlater). exists j, r.
        split; [rewrite lookup_app_l; [exact Hj | exact (lookup_lt_Some _ _ _ Hj)] |].
        split; [exact Hq |].
        intros j' r' Hlt Hj'.
        destruct (Nat.lt_ge_cases j' (length batchResults)) as [Hin | Hout].
        -- rewrite lookup_app_l in Hj' by exact Hin. exact (Hlater j' r' Hlt Hj').
        -- pose proof (lookup_lt_Some _ _ _ Hj') as Hbound.
           rewrite length_app in Hbound. cbn in Hbound.
           assert (j' = length batchResults) by lia. subst j'.
           rewrite list_lookup_middle in Hj' by reflexivity.
           injection Hj' as <-. exact E0.
      * intros (j & r & Hj & Hq & Hlater).
        destruct (Nat.lt_ge_cases j (length batchResults)) as [Hin | Hout].
        -- rewrite lookup_app_l in Hj by exact Hin. exists j, r.
           split; [exact Hj |]. split; [exact Hq |].
           intros j' r' Hlt Hj'. apply (Hlater j' r' Hlt).
           rewrite lookup_app_l; [exact Hj' | exact (lookup_lt_Some _ _ _ Hj')].
        -- pose proof (lookup_lt_Some _ _ _ Hj) as Hbound.
           rewrite length_app in Hbound. cbn in Hbound.
           assert (j = length batchResults) by lia. subst j.
           rewrite list_lookup_middle in Hj by reflexivity.
           injection Hj as <-. congruence.
Qed.

Lemma mergeResults_covers (batchResults : list NseQuotesResponse) (symbol : string) :
  forall j result,
    batchResults !! j = Some result ->
    is_Some (default ∅ (Response.quotes result) !! symbol) ->
    is_Some (fst (mergeResults batchResults) !! symbol).
Proof.
  induction batchResults as [| last batchResults IH] using rev_ind;
    intros j result Hj Hq.
  - rewrite lookup_nil in Hj. discriminate.
  - rewrite mergeResults_snoc. apply lookup_union_is_Some.
    destruct (Nat.lt_ge_cases j (length batchResults)) as [Hin | Hout].
    + right. rewrite lookup_app_l in Hj by exact Hin. exact (IH j result Hj Hq).
    + left. pose proof (lookup_lt_Some _ _ _ Hj) as Hbound.
      rewrite length_app in Hbound. cbn in Hbound.
      assert (j = length batchResults) by lia. subst j.
      rewrite list_lookup_middle in Hj by reflexivity.
      injection Hj as <-. exact Hq.
Qed.

Lemma batchResult_quote (chunks : list (list string)) (j : nat) (symbol : string) :
  match imap (batchResult fetchQuotesBatch) chunks !! j with
  | Some result => default ∅ (Response.quotes result) !! symbol
  | None => None
  end = answeredQuote fetchQuotesBatch chunks j symbol.
Proof.
  unfold answeredQuote. rewrite list_lookup_imap.
  destruct (chunks !! j) as [chunk |]; cbn; [| reflexivity].
  unfold batchResult. destruct (fetchQuotesBatch j chunk) as [response | message];
    [reflexivity |].
  cbn. apply lookup_empty.
Qed.

(** X25. For a list of symbols that is not empty, with fuel for one
    iteration per symbol, [fetchQuotes] settles and remembers the symbols.
    It rejects exactly when no request was answered with a quote.
    Otherwise it resolves to quotes that are not empty and hold, for each
    symbol, the quote of the last request answered with one for it: a
    request that fails takes nothing from what the others bring. *)
Theorem fetchQuotes_keeps_what_batches_bring (fuel : nat)
    (symbols lastFetchedSymbols : list string) :
  symbols <> [] ->
  (length symbols <= fuel)%nat ->
  exists chunks outcome,
    chunkLoop fuel symbols 0 [] = Some chunks /\
    fetchQuotes fetchQuotesBatch fuel symbols lastFetchedSymbols
      = Some (outcome, symbols) /\
    match outcome with
    | resolved merged =>
        merged <> ∅ /\
        forall symbol quote,
          merged !! symbol = Some quote <->
          exists j,
            answeredQuote fetchQuotesBatch chunks j symbol = Some quote /\
            forall j', (j < j')%nat ->
                       answeredQuote fetchQuotesBatch chunks j' symbol = None
    | rejected _ =>
        forall j symbol, answeredQuote fetchQuotesBatch chunks j symbol = None
    end.
Proof.
  intros Hne Hfuel.
  destruct (chunkLoop_spec symbols fuel 0 []) as (chunks & Hrun & _); [lia |].
  cbn [app] in Hrun. unfold fetchQuotes. rewrite Hrun.
  destruct symbols as [| s0 symbols']; [congruence |]. cbn [length Nat.eqb Nat.ltb Nat.leb].
  set (symbols := s0 :: symbols') in *.
  set (batchResults := imap (batchResult fetchQuotesBatch) chunks).
  pose proof (mergeResults_last_wins batchResults) as Hlast.
  pose proof (mergeResults_covers batchResults) as Hcover.
  destruct (mergeResults batchResults) as [merged allErrors]. cbn [fst] in Hlast, Hcover.
  assert (Hquote : forall symbol quote,
             merged !! symbol = Some quote <->
             exists j,
               answeredQuote fetchQuotesBatch chunks j symbol = Some quote /\
               forall j', (j < j')%nat ->
                          answeredQuote fetchQuotesBatch chunks j' symbol = None).
  { intros symbol quote. rewrite Hlast. split.
    - intros (j & r & Hj & Hq & Hlater). exists j. split.
      + rewrite <- batchResult_quote. fold batchResults. rewrite Hj. exact Hq.
      + intros j' Hlt. rewrite <- batchResult_quote. fold batchResults.
        destruct (batchResults !! j') as [r' |] eqn:Hj'; [| reflexivity].
        exact (Hlater j' r' Hlt Hj').
    - intros (j & Hq & Hlater). rewrite <- batchResult_quote in Hq. fold batchResults in Hq.
      destruct (batchResults !! j) as [r |] eqn:Hj; [| discriminate].
      exists j, r. split; [exact Hj |]. split; [exact Hq |].
      intros j' r' Hlt Hj'. specialize (Hlater j' Hlt).
      rewrite <- batchResult_quote in Hlater. fold batchResults in Hlater.
      rewrite Hj' in Hlater. exact Hlater. }
  destruct (Nat.eqb_spec (size merged) 0) as [Hzero | Hsome]; cbn [andb].
  - exists chunks, (rejected "Could not fetch prices for any symbols. Please try again.").
    split; [reflexivity |]. split; [reflexivity |].
    intros j symbol. apply map_size_empty_iff in Hzero.
    destruct (answeredQuote fetchQuotesBatch chunks j symbol) as [q |] eqn:Hq;
      [| reflexivity].
    exfalso. rewrite <- batchResult_quote in Hq. fold batchResults in Hq.
    destruct (batchResults !! j) as [r |] eqn:Hj; [| discriminate].
    destruct (Hcover symbol j r Hj) as [q' Hq']; [rewrite Hq; eexists; reflexivity |].
    rewrite Hzero, lookup_empty in Hq'. discriminate.
  - exists chunks, (resolved merged).
    split; [reflexivity |]. split; [reflexivity |].
    split; [| exact Hquote].
    intros Hempty. apply Hsome. rewrite Hempty. apply map_size_empty.
Qed.
End QuotesProps.

(** The first of two requests fails, the second quotes K. *)
Lemma fetchQuotes_keeps_what_batches_bring_witness :
  exists chunks outcome,
    chunkLoop 12 twelveSymbols 0 [] = Some chunks /\
    fetchQuotes flakyEdge 12 twelveSymbols [] = Some (outcome, twelveSymbols) /\
    match outcome with
    | resolved merged =>
        merged <> ∅ /\
        forall symbol quote,
          merged !! symbol = Some quote <->
          exists j,
            answeredQuote flakyEdge chunks j symbol = Some quote /\
            forall j', (j < j')%nat -> answeredQuote flakyEdge chunks j' symbol = None
    | rejected _ => forall j symbol, answeredQuote flakyEdge chunks j symbol = None
    end.
Proof.
  apply (fetchQuotes_keeps_what_batches_bring flakyEdge 12 twelveSymbols []).
  - discriminate.
  - cbn. lia.
Defined.

(** * The tradebook store *)

Lemma mapDelete_absent {V : Type} (k : string) (m : JsMap V) :
  mapGet k m = None -> mapDelete k m = m.
Proof.
  unfold mapDelete. induction m as [| [k' v'] m IH]; cbn [mapGet List.filter fst];
    [reflexivity |].
  destruct (String.eqb k k'); [discriminate |]. cbn [negb].
  intros Hnone. rewrite IH by exact Hnone. reflexivity.
Qed.

Lemma mapDelete_mapSet {V : Type} (k : string) (v : V) (m : JsMap V) :
  mapGet k m = None -> mapDelete k (mapSet k v m) = m.
Proof.
  intros Hnone. rewrite (mapSet_absent k v m Hnone).
  unfold mapDelete. rewrite List.filter_app. cbn [List.filter fst].
  rewrite String.eqb_refl. cbn [negb]. rewrite app_nil_r.
  exact (mapDelete_absent k m Hnone).
Qed.

Lemma mapSet_Forall {V : Type} (P : V -> Prop) (k : string) (v : V) (m : JsMap V) :
  Forall (fun entry => P (snd entry)) m -> P v ->
  Forall (fun entry => P (snd entry)) (mapSet k v m).
Proof.
  intros Hall Hv. induction Hall as [| [k' v'] m Hhead Htail IH]; cbn [mapSet].
  - constructor; [exact Hv | constructor].
  - destruct (String.eqb k k'); constructor; assumption.
Qed.

Lemma filter_Forall {A : Type} (P : A -> Prop) (p : A -> bool) (l : list A) :
  Forall P l -> Forall P (List.filter p l).
Proof.
  intros Hall. apply List.Forall_forall. intros x Hx. apply filter_In in Hx.
  exact (proj1 (List.Forall_forall _ _) Hall x (proj1 Hx)).
Qed.

Lemma filter_all {A : Type} (p : A -> bool) (l : list A) :
  Forall (fun x => p x = true) l -> List.filter p l = l.
Proof.
  induction 1 as [| x l Hx _ IH]; cbn [List.filter]; [reflexivity |].
  rewrite Hx, IH. reflexivity.
Qed.

Lemma first_date_le_last (l : list TradeRecord) :
  forall first d,
    Forall (fun t => (Trade.tradeDate first <= Trade.tradeDate t)%Z) (first :: l) ->
    (Trade.tradeDate first <= Trade.tradeDate (List.last (first :: l) d))%Z.
Proof.
  intros first d Hall.
  assert (Hin : In (List.last (first :: l) d) (first :: l)).
  { clear Hall. revert first. induction l as [| y l IH]; intros first.
    - left. reflexivity.
    - change (List.last (first :: y :: l) d) with (List.last (y :: l) d).
      right. apply IH. }
  exact (proj1 (List.Forall_forall _ _) Hall _ Hin).
Qed.

Lemma sorted_range (trades : list TradeRecord) (d : TradeRecord) :
  let sortedTrades :=
    sortBy (fun a b => (Trade.tradeDate a - Trade.tradeDate b)%Z) trades in
  trades <> [] ->
  (Trade.tradeDate (List.hd d sortedTrades)
   <= Trade.tradeDate (List.last sortedTrades d))%Z.
Proof.
  intros sortedTrades Hne.
  pose proof (sortBy_date_sorted trades) as Hsorted. fold sortedTrades in Hsorted.
  pose proof (sortBy_nonempty (fun a b => (Trade.tradeDate a - Trade.tradeDate b)%Z)
                trades Hne) as Hne'.
  fold sortedTrades in Hne'.
  destruct sortedTrades as [| first rest]; [congruence |].
  cbn [List.hd]. apply first_date_le_last.
  apply StronglySorted_inv in Hsorted. destruct Hsorted as [_ Hfirst].
  constructor; [lia | exact Hfirst].
Qed.

Section TradebookProps.
Context {R : Runtime} {T : TextHost}.
Variable numberToString : Z -> string.

Lemma parsed_trades_valid (csvContent : string) :
  Forall (fun t => 0 < Trade.quantity t /\ 0 <= Trade.price t)
         (parseTradebook csvContent).
Proof.
  apply List.Forall_forall. intros t Ht.
  destruct (parseTradebook_In csvContent t Ht) as (result & row & _ & _ & Hrow).
  destruct (parseRow_valid row t Hrow) as (Hq & Hp & _). split; assumption.
Qed.

Lemma addFile_keeps (st : JsMap (list TradeRecord) * JsMap string * list UploadedFile)
    (file : Incoming.t) :
  Forall (fun entry =>
            snd entry <> [] /\
            Forall (fun t => 0 < Trade.quantity t /\ 0 <= Trade.price t) (snd entry))
         (fst (fst st)) ->
  Forall (fun f => (0 < Uploaded.tradeCount f)%nat /\
                   (Uploaded.dateFrom f <= Uploaded.dateTo f)%Z) (snd st) ->
  Forall (fun entry =>
            snd entry <> [] /\
            Forall (fun t => 0 < Trade.quantity t /\ 0 <= Trade.price t) (snd entry))
         (fst (fst (addFile numberToString st file))) /\
  Forall (fun f => (0 < Uploaded.tradeCount f)%nat /\
                   (Uploaded.dateFrom f <= Uploaded.dateTo f)%Z)
         (snd (addFile numberToString st file)).
Proof.
  destruct st as [[tradesPerFile newErrors] newUploadedFiles]. cbn [fst snd].
  intros Hfiles Hups. unfold addFile.
  destruct (Incoming.content file) as [content | message]; [| split; assumption].
  pose proof (parsed_trades_valid content) as Hvalid.
  destruct (parseTradebook content) as [| trade0 rest] eqn:Eparse; [split; assumption |].
  cbn [fst snd]. split.
  - apply (mapSet_Forall
             (fun trades => trades <> [] /\
                Forall (fun t => 0 < Trade.quantity t /\ 0 <= Trade.price t) trades));
      [exact Hfiles |]. split; [discriminate | exact Hvalid].
  - apply Forall_app. split; [exact Hups |]. constructor; [| constructor].
    cbn [Uploaded.tradeCount Uploaded.dateFrom Uploaded.dateTo length]. split; [lia |].
    apply (sorted_range (trade0 :: rest) trade0). discriminate.
Qed.

Lemma addFiles_keep (files : list Incoming.t) :
  forall st : JsMap (list TradeRecord) * JsMap string * list UploadedFile,
    Forall (fun entry =>
              snd entry <> [] /\
              Forall (fun t => 0 < Trade.quantity t /\ 0 <= Trade.price t) (snd entry))
           (fst (fst st)) ->
    Forall (fun f => (0 < Uploaded.tradeCount f)%nat /\
                     (Uploaded.dateFrom f <= Uploaded.dateTo f)%Z) (snd st) ->
    Forall (fun entry =>
              snd entry <> [] /\
              Forall (fun t => 0 < Trade.quantity t /\ 0 <= Trade.price t) (snd entry))
           (fst (fst (fold_left (addFile numberToString) files st))) /\
    Forall (fun f => (0 < Uploaded.tradeCount f)%nat /\
                     (Uploaded.dateFrom f <= Uploaded.dateTo f)%Z)
           (snd (fold_left (addFile numberToString) files st)).
Proof.
  induction files as [| file files IH]; intros st Hfiles Hups; cbn [fold_left].
  - split; assumption.
  - destruct (addFile_keeps st file Hfiles Hups) as [Hfiles' Hups'].
    apply IH; assumption.
Qed.

Lemma storeStep_keeps (s s' : Tradebook.t) :
  storeInvariant s -> storeStep numberToString s s' -> storeInvariant s'.
Proof.
  intros (Hall & Hfiles & Hups) Hstep. destruct Hstep as [files s | fileId s | s].
  - unfold addTradebooks.
    pose proof (addFiles_keep files
                  (Tradebook.tradesPerFile s, Tradebook.parseErrors s, [])
                  Hfiles (List.Forall_nil _)) as [Hfiles' Hups'].
    destruct (fold_left (addFile numberToString) files _)
      as [[tradesPerFile newErrors] newUploadedFiles].
    cbn [fst snd] in Hfiles', Hups'.
    split; [reflexivity |]. split; [exact Hfiles' |].
    cbn [recalculateAllTrades Tradebook.uploadedFiles].
    destruct newUploadedFiles; [exact Hups |].
    apply Forall_app. split; assumption.
  - split; [reflexivity |]. split.
    + cbn. apply filter_Forall. exact Hfiles.
    + cbn. apply filter_Forall. exact Hups.
  - split; [reflexivity |]. split; constructor.
Qed.

Lemma reachable_invariant (s : Tradebook.t) :
  reachable numberToString s -> storeInvariant s.
Proof.
  induction 1 as [| s s' _ IH Hstep].
  - split; [reflexivity |]. split; constructor.
  - exact (storeStep_keeps s s' IH Hstep).
Qed.

(** X26. In every store reached from the empty one by adding files,
    removing a file or clearing, the merged trades are the merge of the
    trades kept per file, have positive quantities, prices that are not
    negative and pairwise distinct trade ids, and stand in ascending order
    of date; no file is kept without trades; and every uploaded file counts
    at least one trade and has a date range in order. *)
Theorem reachable_stores_are_consistent (s : Tradebook.t) :
  reachable numberToString s ->
  Tradebook.allTrades s = mergeTradebooks (mapValues (Tradebook.tradesPerFile s)) /\
  Forall (fun t => 0 < Trade.quantity t /\ 0 <= Trade.price t) (Tradebook.allTrades s) /\
  NoDup (map Trade.tradeId (Tradebook.allTrades s)) /\
  StronglySorted (fun a b => (Trade.tradeDate a <= Trade.tradeDate b)%Z)
    (Tradebook.allTrades s) /\
  Forall (fun entry => snd entry <> []) (Tradebook.tradesPerFile s) /\
  Forall (fun f => (0 < Uploaded.tradeCount f)%nat /\
                   (Uploaded.dateFrom f <= Uploaded.dateTo f)%Z)
         (Tradebook.uploadedFiles s).
Proof.
  intros Hreach. destruct (reachable_invariant s Hreach) as (Hall & Hfiles & Hups).
  split; [exact Hall |]. rewrite Hall. split.
  - apply List.Forall_forall. intros t Ht.
    rewrite mergeTradebooks_keepFirst, sortBy_In in Ht.
    apply keepFirst_In in Ht. destruct Ht as (before & after & Hsplit & _).
    assert (Hc : In t (concat (mapValues (Tradebook.tradesPerFile s))))
      by (rewrite Hsplit; apply in_or_app; right; left; reflexivity).
    apply in_concat in Hc. destruct Hc as (trades & Htrades & Ht).
    unfold mapValues in Htrades. apply in_map_iff in Htrades.
    destruct Htrades as (entry & <- & Hentry).
    destruct (proj1 (List.Forall_forall _ _) Hfiles entry Hentry) as [_ Hvalid].
    exact (proj1 (List.Forall_forall _ _) Hvalid t Ht).
  - split; [apply merged_ids_NoDup |].
    split; [rewrite mergeTradebooks_keepFirst; apply sortBy_date_sorted |].
    split; [| exact Hups].
    eapply Forall_impl; [exact Hfiles |]. cbn. intros entry [Hne _]. exact Hne.
Qed.

(** X27. Removing a file that has just been added alone gives the store
    back as it was, whether the file was read and parsed or not, provided
    that the file's id was not in use and that the merged trades were the
    merge of the trades kept per file. *)
Theorem removing_an_added_file_restores_the_store (file : Incoming.t)
    (s : Tradebook.t) :
  mapGet (Incoming.fileId file) (Tradebook.tradesPerFile s) = None ->
  mapGet (Incoming.fileId file) (Tradebook.parseErrors s) = None ->
  Forall (fun f => Uploaded.id f <> Incoming.fileId file) (Tradebook.uploadedFiles s) ->
  Tradebook.allTrades s = mergeTradebooks (mapValues (Tradebook.tradesPerFile s)) ->
  removeTradebook (Incoming.fileId file) (addTradebooks numberToString [file] s) = s.
Proof.
  destruct s as [uploadedFiles allTrades parseErrors tradesPerFile].
  cbn [Tradebook.tradesPerFile Tradebook.parseErrors Tradebook.uploadedFiles
       Tradebook.allTrades].
  intros Hfiles Herrors Hups Hall.
  assert (Hkeep : List.filter
                    (fun f => negb (String.eqb (Uploaded.id f) (Incoming.fileId file)))
                    uploadedFiles = uploadedFiles).
  { apply filter_all. eapply Forall_impl; [exact Hups |]. cbn. intros f Hne.
    apply String.eqb_neq in Hne. rewrite Hne. reflexivity. }
  unfold addTradebooks. cbn [fold_left Tradebook.tradesPerFile Tradebook.parseErrors].
  unfold addFile.
  destruct (Incoming.content file) as [content | message].
  - destruct (parseTradebook content) as [| trade0 rest].
    + unfold removeTradebook, recalculateAllTrades.
      cbn [Tradebook.tradesPerFile Tradebook.parseErrors Tradebook.uploadedFiles
           Tradebook.allTrades].
      rewrite Hkeep, (mapDelete_mapSet _ _ _ Herrors), (mapDelete_absent _ _ Hfiles),
        <- Hall.
      reflexivity.
    + unfold removeTradebook, recalculateAllTrades.
      cbn [Tradebook.tradesPerFile Tradebook.parseErrors Tradebook.uploadedFiles
           Tradebook.allTrades app].
      rewrite List.filter_app, Hkeep. cbn [List.filter Uploaded.id].
      rewrite String.eqb_refl. cbn [negb]. rewrite app_nil_r.
      rewrite (mapDelete_absent _ parseErrors Herrors),
        (mapDelete_absent _ parseErrors Herrors),
        (mapDelete_mapSet _ _ _ Hfiles), <- Hall.
      reflexivity.
  - unfold removeTradebook, recalculateAllTrades.
    cbn [Tradebook.tradesPerFile Tradebook.parseErrors Tradebook.uploadedFiles
         Tradebook.allTrades].
    rewrite Hkeep, (mapDelete_mapSet _ _ _ Herrors), (mapDelete_absent _ _ Hfiles),
      <- Hall.
    reflexivity.
Qed.

(** X28. The financial year of a date, as the tradebook store computes
    it, is the one that starts at the date that the calculator takes for
    the start of the current financial year: when the host's constructor
    gives a date in April of the year asked for, that start date lies in
    the same financial year, whose first year is the year of the start
    date and whose second year is the next. *)
Theorem financial_years_agree (now : Date) :
  let fyStartYear :=
    if (getMonth now <? 3)%Z then (getFullYear now - 1)%Z else getFullYear now in
  getMonth (newDate fyStartYear 3 1) = 3%Z ->
  getFullYear (newDate fyStartYear 3 1) = fyStartYear ->
  getFinancialYear (getCurrentFyStartDate now) = getFinancialYear now /\
  FinYear.startYear (getFinancialYear now) = getFullYear (getCurrentFyStartDate now) /\
  FinYear.endYear (getFinancialYear now)
  = (FinYear.startYear (getFinancialYear now) + 1)%Z.
Proof.
  intros fyStartYear Hmonth Hyear.
  assert (Hstart : getCurrentFyStartDate now = newDate fyStartYear 3 1) by reflexivity.
  rewrite Hstart. unfold getFinancialYear. rewrite Hmonth, Hyear. cbn [Z.ltb Z.compare].
  unfold fyStartYear.
  destruct (getMonth now <? 3)%Z; cbn [FinYear.startYear FinYear.endYear].
  - split; [f_equal; lia |]. split; [reflexivity | lia].
  - split; [reflexivity |]. split; [reflexivity | reflexivity].
Qed.
End TradebookProps.

Lemma reachable_stores_are_consistent_witness :
  let s := addTradebooks (R := Utc.runtime) (T := Plain.host) Plain.showNumber
             [sampleFile] emptyTradebook in
  Forall (fun t => 0 < Trade.quantity t /\ 0 <= Trade.price t) (Tradebook.allTrades s) /\
  NoDup (map Trade.tradeId (Tradebook.allTrades s)).
Proof.
  intros s.
  destruct (reachable_stores_are_consistent (R := Utc.runtime) (T := Plain.host)
              Plain.showNumber s) as (_ & Hvalid & Hids & _).
  - apply (reachable_step _ emptyTradebook); [apply reachable_empty | apply step_add].
  - split; assumption.
Defined.

Lemma removing_an_added_file_restores_the_store_witness :
  removeTradebook "file_1"
    (addTradebooks (R := Utc.runtime) (T := Plain.host) Plain.showNumber
       [sampleFile] emptyTradebook)
  = emptyTradebook.
Proof.
  apply (removing_an_added_file_restores_the_store (R := Utc.runtime) (T := Plain.host)
           Plain.showNumber sampleFile emptyTradebook).
  - reflexivity.
  - reflexivity.
  - constructor.
  - reflexivity.
Defined.

(** June 1, 2024 lies in the year that starts on April 1, 2024. *)
Lemma financial_years_agree_witness :
  getFinancialYear (R := Utc.runtime) (getCurrentFyStartDate (R := Utc.runtime) Sample.now)
  = FinYear.mk 2024 2025.
Proof.
  destruct (financial_years_agree (R := Utc.runtime) Sample.now) as (Hsame & _).
  - vm_compute. reflexivity.
  - vm_compute. reflexivity.
  - rewrite Hsame. vm_compute. reflexivity.
Defined.
